(** * Verification of preprocessing/automate_Aldy-Naufal.py

    A shallow embedding of the collector (paginated search, batched detail
    fetch) and of the classifier (keyword genre detection, primary genre,
    frequency filter) of the YouTube gaming-video preprocessing script,
    together with the properties its specification states about them.

    Conventions of the embedding:
    - Python [str] is [string]; [None] is [None] of an [option].  The
      embedding covers ASCII text: [lower] maps the letters A to Z and leaves
      every other byte alone, whereas [str.lower] also maps letters outside
      ASCII (the keywords of the genre table are all ASCII).
    - Python [int] is [Z].
    - a [dict] whose iteration order matters is an association list in
      insertion order; a [set] is its insertion history together with an
      arbitrary enumeration order (see [PySetOrder]).
    - [DataFrame] objects live in a store ([gmap nat DataFrame]) so that
      copying and in-place column assignment can be told apart.
    - exceptions are an explicit outcome; network calls thread a world; the
      file system answers each write of a CSV file by taking it or by
      failing it. *)

From stdpp Require Import gmap strings.
From Stdlib Require Import ZArith Ascii String List Bool Lia Permutation Sorted.
Import ListNotations.
Local Open Scope string_scope.
Local Open Scope list_scope.

(* ================================================================== *)
(** * Python string builtins used by the script *)
(* ================================================================== *)

Module PyStr.

(** [c.lower()] on one character: the 26 capital letters are shifted, every
    other byte is left as it is. *)
Definition lower_ascii (c : ascii) : ascii :=
  let n := nat_of_ascii c in
  if (65 <=? n)%nat && (n <=? 90)%nat then ascii_of_nat (n + 32) else c.

(** [s.lower()] on ASCII text; bytes outside ASCII are kept, where Python
    would also lower the non-ASCII letters they encode. *)
Fixpoint lower (s : string) : string :=
  match s with
  | EmptyString => EmptyString
  | String c r => String (lower_ascii c) (lower r)
  end.

(** [sep.join(parts)] *)
Fixpoint join (sep : string) (parts : list string) : string :=
  match parts with
  | [] => EmptyString
  | [p] => p
  | p :: rest => p ++ sep ++ join sep rest
  end.

(** [text.startswith(kw)] *)
Fixpoint startswith (kw text : string) : bool :=
  match kw, text with
  | EmptyString, _ => true
  | String _ _, EmptyString => false
  | String a kw', String b text' => Ascii.eqb a b && startswith kw' text'
  end.

(** [kw in text]: plain substring containment. *)
Fixpoint contains (kw text : string) : bool :=
  startswith kw text ||
  match text with
  | EmptyString => false
  | String _ text' => contains kw text'
  end.

(** Truthiness of an optional string: [None] and [""] are falsy. *)
Definition truthy (s : option string) : bool :=
  match s with
  | Some (String _ _) => true
  | _ => false
  end.

End PyStr.

(* ================================================================== *)
(** * Ordered dictionaries and sets *)
(* ================================================================== *)

Module PyDict.

(** A [dict] keyed by strings, in insertion order. *)
Definition t (V : Type) : Type := list (string * V).

(** [d[k] = v]: an existing key keeps its position, a new key goes last. *)
Fixpoint setitem {V} (k : string) (v : V) (d : t V) : t V :=
  match d with
  | [] => [(k, v)]
  | (k', v') :: d' =>
      if String.eqb k k' then (k', v) :: d' else (k', v') :: setitem k v d'
  end.

(** [dict.fromkeys(ks)]: every key mapped to [None] (here [tt]). *)
Definition fromkeys (ks : list string) : t unit :=
  fold_left (fun d k => setitem k tt d) ks [].

(** [list(d)]: the keys in iteration order. *)
Definition keys {V} (d : t V) : list string := map fst d.

End PyDict.

(** [list(dict.fromkeys(xs))]: first-occurrence-wins deduplication, as
    [youtube_search] applies it to the identifiers it fetched. *)
Definition dedup (xs : list string) : list string :=
  PyDict.keys (PyDict.fromkeys xs).

Module PySet.

(** A [set] of strings, represented by its distinct elements in the order in
    which they were first added. *)
Definition t : Type := list string.

Definition empty : t := [].

Definition mem (x : string) (s : t) : bool := existsb (String.eqb x) s.

(** [s.add(x)] *)
Definition add (x : string) (s : t) : t := if mem x s then s else s ++ [x].

End PySet.

(** The iteration order of a [set] of strings is decided by the string
    hashes of the running interpreter; the language promises only that every
    element is enumerated once.  [list(s)] is therefore modelled by an
    enumeration that the interpreter chooses. *)
Record PySetOrder : Type := {
  set_to_list : PySet.t -> list string;
  set_to_list_perm : forall s, List.NoDup s -> Permutation s (set_to_list s)
}.

(** Two interpreters: one that enumerates in insertion order, one that
    enumerates in the opposite order. *)
Definition insertion_order : PySetOrder :=
  {| set_to_list := fun s => s;
     set_to_list_perm := fun s _ => Permutation_refl s |}.

Definition reverse_order : PySetOrder :=
  {| set_to_list := fun s => rev s;
     set_to_list_perm := fun s _ => Permutation_rev s |}.

(* ================================================================== *)
(** * Genre table *)
(* ================================================================== *)

Definition GENRE_KEYWORDS : PyDict.t (list string) :=
  [ ("MOBA",
      ["mobile legends"; "mlbb"; "arena of valor"; "aov"; "league of legends";
       "lol pc"; "wild rift"; "dota 2"; "ml"; "dota"]);
    ("FPS",
      ["valorant"; "csgo"; "counter strike"; "cs2"; "call of duty"; "codm";
       "apex legends"; "overwatch"; "valo"; "delta force"]);
    ("Battle Royale",
      ["pubg"; "pubg mobile"; "free fire"; "ff"; "fortnite"; "warzone"]);
    ("RPG",
      ["genshin impact"; "honkai star rail"; "star rail";
       "zenless zone zero"; "zzz"; "elden ring"; "final fantasy";
       "persona"; "rpg"]);
    ("Horror",
      ["outlast"; "amnesia"; "phasmophobia"; "poppy playtime";
       "fnaf"; "five nights at freddy"; "horror game"; "game horror"]);
    ("Sandbox",
      ["minecraft"; "roblox"; "terraria"; "sandbox"]);
    ("Sports",
      ["fifa"; "ea fc"; "pes"; "efootball"; "nba 2k"; "football manager"]);
    ("Racing",
      ["forza"; "gran turismo"; "need for speed"; "nfs"; "f1 23"; "f1 24";
       "assetto corsa"]);
    ("Strategy",
      ["age of empires"; "civilization"; "clash of clans"; "coc";
       "clash royale"; "strategy game"]);
    ("Casual/Party",
      ["stumble guys"; "fall guys"; "party game"; "jackbox"]);
    ("Simulation",
      ["bus simulator"; "truck simulator"; "ets2"; "euro truck";
       "simulator"; "driving simulator"; "farming simulator";
       "train simulator"; "flight simulator"]) ].

(** Position of a genre in the table (the table length for a foreign name). *)
Fixpoint index_of (g : string) (l : list string) : nat :=
  match l with
  | [] => 0
  | h :: r => if String.eqb g h then 0 else S (index_of g r)
  end.

Definition genre_rank (g : string) : nat :=
  index_of g (PyDict.keys GENRE_KEYWORDS).

(** A list of genres is in table declaration order when the ranks of its
    elements increase strictly. *)
Fixpoint table_ordered (l : list string) : bool :=
  match l with
  | [] => true
  | g :: r =>
      match r with
      | [] => true
      | g' :: _ => (genre_rank g <? genre_rank g')%nat && table_ordered r
      end
  end.

(* ================================================================== *)
(** * Classifier: detect_genres_from_text *)
(* ================================================================== *)

(** The [parts] list: the fields that are truthy, in the order title,
    description, tags. *)
Definition text_parts (title description tags : option string) : list string :=
  let part f := match f with
                | Some s => if PyStr.truthy f then [s] else []
                | None => []
                end in
  part title ++ part description ++ part tags.

(** The inner [for kw in keywords] loop: stops at the first keyword found. *)
Definition genre_matches (keywords : list string) (text : string) : bool :=
  existsb (fun kw => PyStr.contains (PyStr.lower kw) text) keywords.

(** The outer loop over [GENRE_KEYWORDS.items()], accumulating into the
    set. *)
Definition scan_genres (table : PyDict.t (list string)) (text : string)
    (found : PySet.t) : PySet.t :=
  fold_left
    (fun found gk => if genre_matches (snd gk) text
                     then PySet.add (fst gk) found else found)
    table found.

Definition detect_genres_from_text (O : PySetOrder)
    (title description tags : option string) : list string :=
  let parts := text_parts title description tags in
  match parts with
  | [] => []
  | _ :: _ =>
      let text := PyStr.lower (PyStr.join " " parts) in
      let found_genres := scan_genres GENRE_KEYWORDS text PySet.empty in
      set_to_list O found_genres
  end.

(* ================================================================== *)
(** * Exceptions and the state monad of the script *)
(* ================================================================== *)

Inductive exn : Type :=
  | RuntimeError | HTTPError | KeyError | ValueError | TypeError | OSError.

(** What running a piece of the script yields: a value, a raised exception,
    or no result at all ([NoResult]: a loop that was still running when the
    fuel of the model ran out, or a reference that no Python program can
    hold). *)
Inductive outcome (A : Type) : Type :=
  | Ret (a : A)
  | Raise (e : exn)
  | NoResult.
Arguments Ret {A} a.
Arguments Raise {A} e.
Arguments NoResult {A}.

Definition M (S A : Type) : Type := S -> outcome A * S.

Definition ret {S A} (a : A) : M S A := fun s => (Ret a, s).

Definition raise {S A} (e : exn) : M S A := fun s => (Raise e, s).

Definition bind {S A B} (c : M S A) (k : A -> M S B) : M S B :=
  fun s =>
    match c s with
    | (Ret a, s') => k a s'
    | (Raise e, s') => (Raise e, s')
    | (NoResult, s') => (NoResult, s')
    end.

Declare Scope py_scope.
Delimit Scope py_scope with py.
Notation "x <- c1 ;; c2" := (bind c1 (fun x => c2))
  (at level 100, c1 at next level, right associativity) : py_scope.
Notation "c1 ;; c2" := (bind c1 (fun _ => c2))
  (at level 100, right associativity) : py_scope.

(* ================================================================== *)
(** * Tables *)
(* ================================================================== *)

(** One row of the raw table built by [youtube_get_videos_stats]. *)
Record VideoRecord : Type := {
  video_id : string;
  title : option string;
  description : option string;
  tags : option string;
  channel_id : option string;
  channel_title : option string;
  published_at : option string;
  view_count : Z;
  like_count : Z;
  comment_count : Z;
  duration : option string
}.

(** A row that also carries the [genres_list] and [primary_genre] columns. *)
Record TaggedRecord : Type := {
  tr_video : VideoRecord;
  genres_list : list string;
  primary_genre : option string
}.

(** A row that also carries the [text] column. *)
Record ModelRecord : Type := {
  mr_tagged : TaggedRecord;
  text : string
}.

(** A [DataFrame] has one of the three column layouts of the pipeline. *)
Inductive DataFrame : Type :=
  | DfVideos (rows : list VideoRecord)
  | DfTagged (rows : list TaggedRecord)
  | DfModel (rows : list ModelRecord).

(** The raw columns of every row, as [iterrows] and [row.get] read them. *)
Definition df_video_rows (df : DataFrame) : list VideoRecord :=
  match df with
  | DfVideos rows => rows
  | DfTagged rows => map tr_video rows
  | DfModel rows => map (fun r => tr_video (mr_tagged r)) rows
  end.

Definition mk_tagged (v : VideoRecord) (gp : list string * option string)
    : TaggedRecord :=
  {| tr_video := v; genres_list := fst gp; primary_genre := snd gp |}.

(** [df["genres_list"] = genres_all; df["primary_genre"] = primary]: the
    two columns are added, or overwritten where the table already has
    them. *)
Definition df_assign_genres (df : DataFrame)
    (genres_all : list (list string)) (primary : list (option string))
    : DataFrame :=
  let cols := combine genres_all primary in
  match df with
  | DfVideos rows =>
      DfTagged (map (fun vg => mk_tagged (fst vg) (snd vg)) (combine rows cols))
  | DfTagged rows =>
      DfTagged (map (fun rg => mk_tagged (tr_video (fst rg)) (snd rg))
                    (combine rows cols))
  | DfModel rows =>
      DfModel (map (fun rg =>
                      {| mr_tagged := mk_tagged (tr_video (mr_tagged (fst rg)))
                                                (snd rg);
                         text := text (fst rg) |})
                   (combine rows cols))
  end.

(** The store of live [DataFrame] objects, by object identity. *)
Abbreviation store := (gmap nat DataFrame).

(** A new object gets an identity no live object has. *)
Definition alloc (df : DataFrame) : M store nat :=
  fun h => let l := fresh (dom h) in (Ret l, <[l := df]> h).

Definition load (l : nat) : M store DataFrame :=
  fun h => match h !! l with
           | Some df => (Ret df, h)
           | None => (NoResult, h)
           end.

(** In-place update of the object at [l]. *)
Definition update (l : nat) (f : DataFrame -> DataFrame) : M store unit :=
  fun h => match h !! l with
           | Some df => (Ret tt, <[l := f df]> h)
           | None => (NoResult, h)
           end.

(** [df.copy()]: a new object with the same contents. *)
Definition df_copy (l : nat) : M store nat :=
  bind (load l) alloc.

(* ================================================================== *)
(** * Classifier: add_primary_genre_column *)
(* ================================================================== *)

(** [g_list[0] if g_list else None] *)
Definition first_or_none (g_list : list string) : option string :=
  match g_list with
  | [] => None
  | g :: _ => Some g
  end.

(** The [iterrows] loop: both accumulator lists grow by one per row. *)
Definition genre_columns (O : PySetOrder) (rows : list VideoRecord)
    : list (list string) * list (option string) :=
  fold_left
    (fun acc row =>
       let g_list :=
         detect_genres_from_text O (title row) (description row) (tags row) in
       (fst acc ++ [g_list], snd acc ++ [first_or_none g_list]))
    rows ([], []).

Definition add_primary_genre_column (O : PySetOrder) (df_videos : nat)
    : M store nat :=
  (df <- load df_videos ;;
   let cols := genre_columns O (df_video_rows df) in
   df_videos' <- df_copy df_videos ;;
   update df_videos' (fun d => df_assign_genres d (fst cols) (snd cols)) ;;
   ret df_videos')%py.

(* ================================================================== *)
(** * Classifier: clean_for_modelling *)
(* ================================================================== *)

(** Number of occurrences of [g] in a column. *)
Definition count (g : string) (col : list string) : nat :=
  length (List.filter (String.eqb g) col).

(** Stable insertion into a list kept in descending order of count. *)
Fixpoint insert_desc (x : string * nat) (l : list (string * nat))
    : list (string * nat) :=
  match l with
  | [] => [x]
  | y :: r => if (snd y <=? snd x)%nat then x :: y :: r
              else y :: insert_desc x r
  end.

Definition sort_desc (l : list (string * nat)) : list (string * nat) :=
  fold_right insert_desc [] l.

(** The values of a column that are not null. *)
Definition notna (col : list (option string)) : list string :=
  flat_map (fun c => match c with Some g => [g] | None => [] end) col.

(** [Series.value_counts()]: every distinct non-null value (in order of
    first appearance, then sorted) with its number of occurrences, most
    frequent first. *)
Definition value_counts (col : list (option string)) : list (string * nat) :=
  let present := notna col in
  sort_desc (map (fun g => (g, count g present)) (dedup present)).

(** [genre_counts[genre_counts >= min_samples].index.tolist()] *)
Definition valid_genres_of (genre_counts : list (string * nat)) (min_samples : Z)
    : list string :=
  map fst
    (List.filter (fun gc => (min_samples <=? Z.of_nat (snd gc))%Z) genre_counts).

(** One cell of [Series.isin(values)]. *)
Definition isin (values : list string) (c : option string) : bool :=
  match c with
  | Some g => existsb (String.eqb g) values
  | None => false
  end.

Definition is_some {A} (c : option A) : bool :=
  match c with Some _ => true | None => false end.

(** Row selection by a condition on the [primary_genre] cell. *)
Definition df_select_primary (keep : option string -> bool) (df : DataFrame)
    : DataFrame :=
  match df with
  | DfVideos rows => DfVideos rows
  | DfTagged rows => DfTagged (List.filter (fun r => keep (primary_genre r)) rows)
  | DfModel rows =>
      DfModel (List.filter (fun r => keep (primary_genre (mr_tagged r))) rows)
  end.

(** [df["primary_genre"]]: a table without the column raises [KeyError]. *)
Definition primary_genre_column (l : nat) : M store (list (option string)) :=
  (df <- load l ;;
   match df with
   | DfVideos _ => raise KeyError
   | DfTagged rows => ret (map primary_genre rows)
   | DfModel rows => ret (map (fun r => primary_genre (mr_tagged r)) rows)
   end)%py.

(** [df.dropna(subset=["primary_genre"])]: a new table. *)
Definition dropna_primary_genre (l : nat) : M store nat :=
  (primary_genre_column l ;;
   df <- load l ;;
   alloc (df_select_primary is_some df))%py.

(** [df[df["primary_genre"].isin(values)]]: a new table. *)
Definition select_isin (l : nat) (values : list string) : M store nat :=
  (primary_genre_column l ;;
   df <- load l ;;
   alloc (df_select_primary (isin values) df))%py.

(** The nested [combine_text(row)]: the fields that are strings, joined by
    one space (an empty string is a string and is kept). *)
Definition combine_text (row : VideoRecord) : string :=
  let part f := match f with Some s => [s] | None => [] end in
  PyStr.join " " (part (title row) ++ part (description row) ++ part (tags row)).

(** [df["text"] = values]: the column is added, or overwritten.  (A table
    without genre columns never gets here: [dropna] has raised.) *)
Definition df_assign_text (df : DataFrame) (values : list string) : DataFrame :=
  match df with
  | DfVideos rows => DfVideos rows
  | DfTagged rows =>
      DfModel (map (fun rt => {| mr_tagged := fst rt; text := snd rt |})
                   (combine rows values))
  | DfModel rows =>
      DfModel (map (fun rt => {| mr_tagged := mr_tagged (fst rt); text := snd rt |})
                   (combine rows values))
  end.

(** [print] calls are left out: they do not touch any table. *)
Definition clean_for_modelling (df_with_genre : nat) (min_samples : Z)
    : M store nat :=
  (dropped <- dropna_primary_genre df_with_genre ;;
   df_clf <- df_copy dropped ;;
   col <- primary_genre_column df_clf ;;
   let genre_counts := value_counts col in
   let valid_genres := valid_genres_of genre_counts min_samples in
   selected <- select_isin df_clf valid_genres ;;
   df_clf <- df_copy selected ;;
   df <- load df_clf ;;
   let texts := map combine_text (df_video_rows df) in
   update df_clf (fun d => df_assign_text d texts) ;;
   ret df_clf)%py.

(* ================================================================== *)
(** * Collector: the two endpoints and their JSON payloads *)
(* ================================================================== *)

(** Query parameters of a search request (a key that the script does not
    set is [None]). *)
Record search_params : Type := {
  sp_key : string;
  sp_part : string;
  sp_type : string;
  sp_q : string;
  sp_maxResults : Z;
  sp_order : string;
  sp_regionCode : string;
  sp_publishedAfter : option string;
  sp_publishedBefore : option string;
  sp_pageToken : option string
}.

(** [item["id"]["videoId"]] of a search hit; [None] when the key is missing. *)
Record search_item : Type := { si_videoId : option string }.

Record search_response : Type := {
  sr_items : list search_item;           (* data.get("items", []) *)
  sr_nextPageToken : option string       (* data.get("nextPageToken") *)
}.

Record videos_params : Type := {
  vp_key : string;
  vp_part : string;
  vp_id : string
}.

(** The [tags] entry of a snippet: a list of strings, or some other value. *)
Inductive json_tags : Type :=
  | TagList (l : list string)
  | TagOther.

Record snippet : Type := {
  sn_title : option string;
  sn_description : option string;
  sn_tags : option json_tags;
  sn_channelId : option string;
  sn_channelTitle : option string;
  sn_publishedAt : option string
}.

Record statistics : Type := {
  st_viewCount : option string;
  st_likeCount : option string;
  st_commentCount : option string
}.

Record contentDetails : Type := { cd_duration : option string }.

Record video_item : Type := {
  vi_id : option string;
  vi_snippet : option snippet;
  vi_statistics : option statistics;
  vi_contentDetails : option contentDetails
}.

(** Everything the script does to the outside world. *)
Inductive event : Type :=
  | EvSearch (p : search_params)
  | EvVideos (p : videos_params)
  | EvSleep.

(** State of the collector: the global [API_KEY], the world behind the
    endpoints, and the events so far (oldest first). *)
Record net (W : Type) : Type := {
  net_api_key : option string;
  net_world : W;
  net_log : list event
}.
Arguments net_api_key {W} n.
Arguments net_world {W} n.
Arguments net_log {W} n.

(** [range(0, stop, step)] *)
Definition py_range (stop step : nat) : list nat :=
  map (fun k => k * step) (seq 0 ((stop + step - 1) / step)).

(** [xs[i:j]] for [0 <= i <= j] *)
Definition slice {A} (xs : list A) (i j : nat) : list A :=
  firstn (j - i) (skipn i xs).

Section Collector.

Variable W : Type.
(** [requests.get(BASE_SEARCH_URL, params)], [raise_for_status], [json()]:
    [None] stands for a response whose status is not a success. *)
Variable search_endpoint : W -> search_params -> W * option search_response.
(** The same for [BASE_VIDEOS_URL]; the payload is [data.get("items", [])]. *)
Variable videos_endpoint : W -> videos_params -> W * option (list video_item).
(** The builtin [int] on a string; [None] is [ValueError]. *)
Variable py_int : string -> option Z.

Definition log_event (e : event) : M (net W) unit :=
  fun s => (Ret tt, {| net_api_key := net_api_key s;
                       net_world := net_world s;
                       net_log := net_log s ++ [e] |}).

Definition sleep : M (net W) unit := log_event EvSleep.

Definition search_request (p : search_params) : M (net W) search_response :=
  fun s =>
    let (w', r) := search_endpoint (net_world s) p in
    let s' := {| net_api_key := net_api_key s;
                 net_world := w';
                 net_log := net_log s ++ [EvSearch p] |} in
    match r with
    | Some data => (Ret data, s')
    | None => (Raise HTTPError, s')
    end.

Definition videos_request (p : videos_params) : M (net W) (list video_item) :=
  fun s =>
    let (w', r) := videos_endpoint (net_world s) p in
    let s' := {| net_api_key := net_api_key s;
                 net_world := w';
                 net_log := net_log s ++ [EvVideos p] |} in
    match r with
    | Some items => (Ret items, s')
    | None => (Raise HTTPError, s')
    end.

(** [global API_KEY; if not API_KEY: raise RuntimeError(...)] *)
Definition require_api_key : M (net W) string :=
  fun s =>
    match net_api_key s with
    | Some k => if PyStr.truthy (Some k) then (Ret k, s)
                else (Raise RuntimeError, s)
    | None => (Raise RuntimeError, s)
    end.

(** An optional parameter is sent only when it is truthy. *)
Definition if_truthy (v : option string) : option string :=
  if PyStr.truthy v then v else None.

(** [for item in items: video_ids.append(item["id"]["videoId"])] *)
Fixpoint append_video_ids {S} (items : list search_item) (video_ids : list string)
    : M S (list string) :=
  match items with
  | [] => ret video_ids
  | item :: rest =>
      match si_videoId item with
      | Some v => append_video_ids rest (video_ids ++ [v])
      | None => raise KeyError
      end
  end.

(** The [while fetched < max_results] loop.  [fuel] bounds the number of
    iterations the model follows. *)
Fixpoint search_loop (fuel : nat) (key query : string) (max_results : Z)
    (published_after published_before : option string)
    (video_ids : list string) (next_page_token : option string) (fetched : Z)
    : M (net W) (list string) :=
  if (fetched <? max_results)%Z then
    match fuel with
    | O => fun s => (NoResult, s)
    | S fuel' =>
        let to_fetch := Z.min 50 (max_results - fetched) in
        let params :=
          {| sp_key := key; sp_part := "snippet"; sp_type := "video";
             sp_q := query; sp_maxResults := to_fetch;
             sp_order := "viewCount"; sp_regionCode := "ID";
             sp_publishedAfter := if_truthy published_after;
             sp_publishedBefore := if_truthy published_before;
             sp_pageToken := if_truthy next_page_token |} in
        (data <- search_request params ;;
         let items := sr_items data in
         video_ids <- append_video_ids items video_ids ;;
         let fetched := (fetched + Z.of_nat (length items))%Z in
         let next_page_token := sr_nextPageToken data in
         if PyStr.truthy next_page_token then
           (sleep ;;
            search_loop fuel' key query max_results
              published_after published_before
              video_ids next_page_token fetched)
         else ret video_ids)%py
    end
  else ret video_ids.

Definition youtube_search (fuel : nat) (query : string) (max_results : Z)
    (published_after published_before : option string)
    : M (net W) (list string) :=
  (key <- require_api_key ;;
   video_ids <- search_loop fuel key query max_results
                  published_after published_before [] None 0 ;;
   ret (dedup video_ids))%py.

(** [int(stats.get(name, 0))] *)
Definition int_or_zero {S} (v : option string) : M S Z :=
  match v with
  | None => ret 0%Z
  | Some s => match py_int s with
              | Some z => ret z
              | None => raise ValueError
              end
  end.

Definition empty_snippet : snippet :=
  {| sn_title := None; sn_description := None; sn_tags := None;
     sn_channelId := None; sn_channelTitle := None; sn_publishedAt := None |}.

Definition empty_statistics : statistics :=
  {| st_viewCount := None; st_likeCount := None; st_commentCount := None |}.

Definition empty_contentDetails : contentDetails := {| cd_duration := None |}.

(** [tags_joined]: the tags joined by a pipe when they are a list, the
    empty string otherwise. *)
Definition tags_joined (tags : option json_tags) : string :=
  match tags with
  | None => PyStr.join "|" []
  | Some (TagList l) => PyStr.join "|" l
  | Some TagOther => ""
  end.

(** The body of [for item in data.get("items", [])]. *)
Definition record_of_item {S} (item : video_item) : M S VideoRecord :=
  match vi_id item with
  | None => raise KeyError
  | Some vid =>
      let sn := default empty_snippet (vi_snippet item) in
      let stats := default empty_statistics (vi_statistics item) in
      let content := default empty_contentDetails (vi_contentDetails item) in
      (views <- int_or_zero (st_viewCount stats) ;;
       likes <- int_or_zero (st_likeCount stats) ;;
       comments <- int_or_zero (st_commentCount stats) ;;
       ret {| video_id := vid;
              title := sn_title sn;
              description := sn_description sn;
              tags := Some (tags_joined (sn_tags sn));
              channel_id := sn_channelId sn;
              channel_title := sn_channelTitle sn;
              published_at := sn_publishedAt sn;
              view_count := views;
              like_count := likes;
              comment_count := comments;
              duration := cd_duration content |})%py
  end.

Fixpoint append_records {S} (items : list video_item) (records : list VideoRecord)
    : M S (list VideoRecord) :=
  match items with
  | [] => ret records
  | item :: rest =>
      (record <- record_of_item item ;;
       append_records rest (records ++ [record]))%py
  end.

(** The [for i in range(0, len(video_ids), 50)] loop. *)
Fixpoint stats_loop (key : string) (video_ids : list string)
    (starts : list nat) (records : list VideoRecord)
    : M (net W) (list VideoRecord) :=
  match starts with
  | [] => ret records
  | i :: rest =>
      let chunk := slice video_ids i (i + 50) in
      let params :=
        {| vp_key := key; vp_part := "snippet,statistics,contentDetails";
           vp_id := PyStr.join "," chunk |} in
      (items <- videos_request params ;;
       records <- append_records items records ;;
       sleep ;;
       stats_loop key video_ids rest records)%py
  end.

Definition youtube_get_videos_stats (video_ids : list string)
    : M (net W) DataFrame :=
  (key <- require_api_key ;;
   records <- stats_loop key video_ids
                (py_range (length video_ids) 50) [] ;;
   ret (DfVideos records))%py.

End Collector.

Arguments log_event {W} e.
Arguments sleep {W}.
Arguments search_request {W} search_endpoint p.
Arguments videos_request {W} videos_endpoint p.
Arguments require_api_key {W}.
Arguments search_loop {W} search_endpoint fuel key query max_results
  published_after published_before video_ids next_page_token fetched.
Arguments youtube_search {W} search_endpoint fuel query max_results
  published_after published_before.
Arguments stats_loop {W} videos_endpoint py_int key video_ids starts records.
Arguments youtube_get_videos_stats {W} videos_endpoint py_int video_ids.

(* ================================================================== *)
(** * Credential, CSV output and the pipeline *)
(* ================================================================== *)

(** State of a whole run: the process environment ([os.environ]), the
    [.env] file of the project root ([None] when there is no such file,
    otherwise the variables it defines), the collector state, the store of
    tables, the CSV files written in full so far (by path below the project
    root, each with the table last written to it in full), and the file
    system's answers to the writes still to come, in the order of the
    writes: [true] when the write goes through, [false] when it fails (no
    space, no permission, ...); past the end of the list every write goes
    through. *)
Record pipeline (W : Type) : Type := {
  pl_environ : gmap string string;
  pl_dotenv : option (gmap string string);
  pl_net : net W;
  pl_store : store;
  pl_files : gmap string DataFrame;
  pl_disk : list bool
}.
Arguments pl_environ {W} p.
Arguments pl_dotenv {W} p.
Arguments pl_net {W} p.
Arguments pl_store {W} p.
Arguments pl_files {W} p.
Arguments pl_disk {W} p.

(** The state with one component replaced. *)
Definition with_environ {W} (s : pipeline W) (env : gmap string string)
    : pipeline W :=
  {| pl_environ := env; pl_dotenv := pl_dotenv s; pl_net := pl_net s;
     pl_store := pl_store s; pl_files := pl_files s; pl_disk := pl_disk s |}.

Definition with_net {W} (s : pipeline W) (n : net W) : pipeline W :=
  {| pl_environ := pl_environ s; pl_dotenv := pl_dotenv s; pl_net := n;
     pl_store := pl_store s; pl_files := pl_files s; pl_disk := pl_disk s |}.

Definition with_store {W} (s : pipeline W) (h : store) : pipeline W :=
  {| pl_environ := pl_environ s; pl_dotenv := pl_dotenv s; pl_net := pl_net s;
     pl_store := h; pl_files := pl_files s; pl_disk := pl_disk s |}.

Definition with_files {W} (s : pipeline W) (files : gmap string DataFrame)
    : pipeline W :=
  {| pl_environ := pl_environ s; pl_dotenv := pl_dotenv s; pl_net := pl_net s;
     pl_store := pl_store s; pl_files := files; pl_disk := pl_disk s |}.

Definition with_disk {W} (s : pipeline W) (disk : list bool) : pipeline W :=
  {| pl_environ := pl_environ s; pl_dotenv := pl_dotenv s; pl_net := pl_net s;
     pl_store := pl_store s; pl_files := pl_files s; pl_disk := disk |}.

(** Running a collector computation inside the pipeline. *)
Definition lift_net {W A} (c : M (net W) A) : M (pipeline W) A :=
  fun s => let (out, n) := c (pl_net s) in (out, with_net s n).

(** Running a table computation inside the pipeline. *)
Definition lift_store {W A} (c : M store A) : M (pipeline W) A :=
  fun s => let (out, h) := c (pl_store s) in (out, with_store s h).

(** [if ENV_PATH.exists(): load_dotenv(ENV_PATH)]: the variables of the
    file are added to the environment; a variable that the environment
    already has keeps its value. *)
Definition load_dotenv {W} : M (pipeline W) unit :=
  fun s =>
    (Ret tt,
     with_environ s match pl_dotenv s with
                    | Some file => pl_environ s ∪ file
                    | None => pl_environ s
                    end).

(** [os.getenv(name)] *)
Definition getenv {W} (name : string) : M (pipeline W) (option string) :=
  fun s => (Ret (pl_environ s !! name), s).

Definition load_api_key {W} : M (pipeline W) string :=
  (load_dotenv ;;
   api_key <- getenv "YOUTUBE_API_KEY" ;;
   match api_key with
   | Some k => if PyStr.truthy api_key then ret k else raise ValueError
   | None => raise ValueError
   end)%py.

(** [API_KEY = ...] on the global. *)
Definition set_api_key {W} (k : string) : M (pipeline W) unit :=
  fun s =>
    (Ret tt,
     with_net s {| net_api_key := Some k;
                   net_world := net_world (pl_net s);
                   net_log := net_log (pl_net s) |}).

(** [df.to_csv(path, index=False, encoding="utf-8")]: when the file system
    takes the write, the file at [path] now holds the table (a file that was
    there is replaced); when it does not, the call raises [OSError] and
    nothing is recorded as written. *)
Definition to_csv {W} (df : nat) (path : string) : M (pipeline W) unit :=
  fun s =>
    match pl_store s !! df with
    | Some d =>
        let written := with_files s (<[path := d]> (pl_files s)) in
        match pl_disk s with
        | [] => (Ret tt, written)
        | true :: later => (Ret tt, with_disk written later)
        | false :: later => (Raise OSError, with_disk s later)
        end
    | None => (NoResult, s)
    end.

Definition QUERIES : list string :=
  [ "game indonesia"; "gaming indonesia"; "mobile game indonesia";
    "pc game indonesia" ].

(** Paths of the three outputs, below [PROJECT_ROOT]. *)
Definition raw_path : string := "data/videos_raw.csv".
Definition with_genre_path : string := "data/videos_with_genre.csv".
Definition clean_path : string :=
  "preprocessing/data_preprocessing/videos_preprocessed.csv".

Section Pipeline.

Variable W : Type.
Variable search_endpoint : W -> search_params -> W * option search_response.
Variable videos_endpoint : W -> videos_params -> W * option (list video_item).
Variable py_int : string -> option Z.
Variable O : PySetOrder.
(** [(now - timedelta(days=90)).isoformat()] and [now.isoformat()] for the
    clock reading [now] taken when the pipeline starts. *)
Variable published_after published_before : string.

(** [for q in QUERIES: vids = youtube_search(...); all_video_ids.extend(vids)] *)
Fixpoint search_all (fuel : nat) (queries : list string)
    (all_video_ids : list string) : M (net W) (list string) :=
  match queries with
  | [] => ret all_video_ids
  | q :: rest =>
      (vids <- youtube_search search_endpoint fuel q 200
                 (Some published_after) (Some published_before) ;;
       search_all fuel rest (all_video_ids ++ vids))%py
  end.

(** [fuel] bounds the pages followed for each query. *)
Definition run_pipeline (fuel : nat) : M (pipeline W) unit :=
  (all_video_ids <- lift_net (search_all fuel QUERIES []) ;;
   let all_video_ids := dedup all_video_ids in
   match all_video_ids with
   | [] => ret tt
   | _ :: _ =>
       df <- lift_net (youtube_get_videos_stats videos_endpoint py_int
                         all_video_ids) ;;
       df_videos <- lift_store (alloc df) ;;
       to_csv df_videos raw_path ;;
       df_with_genre <- lift_store (add_primary_genre_column O df_videos) ;;
       to_csv df_with_genre with_genre_path ;;
       df_clean <- lift_store (clean_for_modelling df_with_genre 20) ;;
       to_csv df_clean clean_path ;;
       ret tt
   end)%py.

Definition main (fuel : nat) : M (pipeline W) unit :=
  (api_key <- load_api_key ;;
   set_api_key api_key ;;
   run_pipeline fuel)%py.

End Pipeline.

Arguments search_all {W} search_endpoint published_after published_before
  fuel queries all_video_ids.
Arguments run_pipeline {W} search_endpoint videos_endpoint py_int O
  published_after published_before fuel.
Arguments main {W} search_endpoint videos_endpoint py_int O
  published_after published_before fuel.

(* ================================================================== *)
(** * Notions used to state the properties *)
(* ================================================================== *)

(** The elements of [xs] that are not in [seen], each at its first
    occurrence. *)
Fixpoint first_occurrences (seen xs : list string) : list string :=
  match xs with
  | [] => []
  | x :: r =>
      if PySet.mem x seen then first_occurrences seen r
      else x :: first_occurrences (seen ++ [x]) r
  end.

(** [ids] lists the distinct elements of [raw], ordered by where each one
    first occurs in [raw]. *)
Definition first_occurrence_order (raw ids : list string) : Prop :=
  List.NoDup ids /\
  (forall x, In x ids <-> In x raw) /\
  StronglySorted (fun x y => index_of x raw < index_of y raw) ids.

(** The genres of the table with a keyword in [text], in table order. *)
Definition matched_genres (text : string) : list string :=
  map fst (List.filter (fun gk => genre_matches (snd gk) text) GENRE_KEYWORDS).

(** The text that [detect_genres_from_text] searches. *)
Definition searched_text (title description tags : option string) : string :=
  PyStr.lower (PyStr.join " " (text_parts title description tags)).

(** The row of the tagged table has [g] as its primary genre. *)
Definition has_primary (g : string) (r : TaggedRecord) : bool :=
  match primary_genre r with
  | Some g' => String.eqb g g'
  | None => false
  end.

(** The chunks that [youtube_get_videos_stats] cuts [video_ids] into. *)
Definition chunks_of (video_ids : list string) : list (list string) :=
  map (fun i => slice video_ids i (i + 50)) (py_range (length video_ids) 50).

(** The details request sent for one chunk. *)
Definition request_for (key : string) (chunk : list string) : videos_params :=
  {| vp_key := key; vp_part := "snippet,statistics,contentDetails";
     vp_id := PyStr.join "," chunk |}.

(** The details requests among some events, oldest first. *)
Definition videos_requests (events : list event) : list videos_params :=
  flat_map (fun e => match e with EvVideos p => [p] | _ => [] end) events.

(** The search endpoint never returns more items than [maxResults] asks
    for. *)
Definition page_bounded {W} (search_endpoint : W -> search_params -> W * option search_response)
    : Prop :=
  forall w p w' data,
    search_endpoint w p = (w', Some data) ->
    (Z.of_nat (length (sr_items data)) <= sp_maxResults p)%Z.

(** The search endpoint answers every request for 1 to 50 results with a
    page of well-formed items, and a page that announces a next page is not
    empty. *)
Definition responsive {W} (search_endpoint : W -> search_params -> W * option search_response)
    : Prop :=
  forall w p,
    (0 < sp_maxResults p <= 50)%Z ->
    exists w' data,
      search_endpoint w p = (w', Some data) /\
      Forall (fun item => si_videoId item <> None) (sr_items data) /\
      (PyStr.truthy (sr_nextPageToken data) = true -> sr_items data <> []).

(** The row that [add_primary_genre_column] builds from a raw row. *)
Definition classify_row (O : PySetOrder) (v : VideoRecord) : TaggedRecord :=
  let g_list :=
    detect_genres_from_text O (title v) (description v) (tags v) in
  {| tr_video := v; genres_list := g_list; primary_genre := first_or_none g_list |}.

(** The [primary_genre] column of a table, when it has one. *)
Definition primary_column_of (df : DataFrame) : option (list (option string)) :=
  match df with
  | DfVideos _ => None
  | DfTagged rows => Some (map primary_genre rows)
  | DfModel rows => Some (map (fun r => primary_genre (mr_tagged r)) rows)
  end.

(** The contents of the table that [clean_for_modelling] returns for a
    table with contents [df]. *)
Definition clean_frame (df : DataFrame) (min_samples : Z) : DataFrame :=
  let df_clf := df_select_primary is_some df in
  let col := default [] (primary_column_of df_clf) in
  let valid_genres := valid_genres_of (value_counts col) min_samples in
  let df_clf := df_select_primary (isin valid_genres) df_clf in
  df_assign_text df_clf (map combine_text (df_video_rows df_clf)).

(** The genres that pass the threshold in a table of tagged rows. *)
Definition valid_genres_in (rows : list TaggedRecord) (min_samples : Z)
    : list string :=
  valid_genres_of
    (value_counts
       (map primary_genre (List.filter (fun r => is_some (primary_genre r)) rows)))
    min_samples.

(** The rows of [clean_frame] on a table of tagged rows. *)
Definition clean_rows (rows : list TaggedRecord) (min_samples : Z)
    : list ModelRecord :=
  map (fun r => {| mr_tagged := r; text := combine_text (tr_video r) |})
    (List.filter (fun r => isin (valid_genres_in rows min_samples) (primary_genre r))
       (List.filter (fun r => is_some (primary_genre r)) rows)).

(** The search requests among some events, oldest first. *)
Definition search_requests (events : list event) : list search_params :=
  flat_map (fun e => match e with EvSearch p => [p] | _ => [] end) events.

(** A sequence of search requests with a sleep after each of them. *)
Definition paced_searches (ps : list search_params) : list event :=
  flat_map (fun p => [EvSearch p; EvSleep]) ps.

(** What a request of [youtube_search] for [query] looks like. *)
Definition search_request_ok (key query : string) (max_results : Z)
    (published_after published_before : option string) (p : search_params)
    : Prop :=
  sp_key p = key /\ sp_part p = "snippet" /\ sp_type p = "video" /\
  sp_q p = query /\
  (1 <= sp_maxResults p <= 50)%Z /\ (sp_maxResults p <= max_results)%Z /\
  sp_order p = "viewCount" /\ sp_regionCode p = "ID" /\
  sp_publishedAfter p = if_truthy published_after /\
  sp_publishedBefore p = if_truthy published_before.

(** A details item from which [youtube_get_videos_stats] can build a row:
    it has an id, and each counter it carries reads as an integer. *)
Definition counter_ok (py_int : string -> option Z) (v : option string) : Prop :=
  match v with
  | Some x => py_int x <> None
  | None => True
  end.

Definition item_well_formed (py_int : string -> option Z) (item : video_item)
    : Prop :=
  vi_id item <> None /\
  counter_ok py_int (st_viewCount (default empty_statistics (vi_statistics item))) /\
  counter_ok py_int (st_likeCount (default empty_statistics (vi_statistics item))) /\
  counter_ok py_int (st_commentCount (default empty_statistics (vi_statistics item))).

(** The details endpoint answers every request, with well-formed items. *)
Definition details_responsive {W}
    (videos_endpoint : W -> videos_params -> W * option (list video_item))
    (py_int : string -> option Z) : Prop :=
  forall w p,
    exists w' items,
      videos_endpoint w p = (w', Some items) /\
      Forall (item_well_formed py_int) items.

(** The events of a detail fetch that came to its end: one request and one
    sleep per chunk. *)
Definition videos_events (key : string) (chunks : list (list string))
    : list event :=
  flat_map (fun chunk => [EvVideos (request_for key chunk); EvSleep]) chunks.

(** The row of a tagged table passes the frequency filter: it has a primary
    genre, and that genre is the primary genre of at least [min_samples]
    rows of the table. *)
Definition retained (rows : list TaggedRecord) (min_samples : Z)
    (r : TaggedRecord) : bool :=
  match primary_genre r with
  | Some g =>
      (min_samples <=? Z.of_nat (length (List.filter (has_primary g) rows)))%Z
  | None => false
  end.

(** A tagged row with the [text] column that [clean_for_modelling] adds. *)
Definition model_row (r : TaggedRecord) : ModelRecord :=
  {| mr_tagged := r; text := combine_text (tr_video r) |}.

(** A text field in lower case. *)
Definition lower_field (f : option string) : option string :=
  option_map PyStr.lower f.

(** Every keyword of the table is a non-empty string in lower case. *)
Definition keywords_plain : bool :=
  forallb
    (fun gk => forallb (fun kw => negb (String.eqb kw "")
                                  && String.eqb (PyStr.lower kw) kw) (snd gk))
    GENRE_KEYWORDS.

(** An event of the search stage of the pipeline: a sleep, or a request
    for one of the four queries, for up to 200 results in the time window. *)
Definition pipeline_search_event (key published_after published_before : string)
    (e : event) : Prop :=
  match e with
  | EvSearch p =>
      In (sp_q p) QUERIES /\
      search_request_ok key (sp_q p) 200
        (Some published_after) (Some published_before) p
  | EvSleep => True
  | EvVideos _ => False
  end.

(** The computation leaves the collector state as it finds it. *)
Definition keeps_net {W A} (c : M (pipeline W) A) : Prop :=
  forall s, pl_net (snd (c s)) = pl_net s.

(** The event is a sleep or a request bearing the key. *)
Definition event_bears_key (key : string) (e : event) : Prop :=
  match e with
  | EvSearch p => sp_key p = key
  | EvVideos p => vp_key p = key
  | EvSleep => True
  end.

(* ================================================================== *)
(** * Sample inputs *)
(* ================================================================== *)

Definition sample_video (id : string) (ttl tgs : option string) : VideoRecord :=
  {| video_id := id; title := ttl; description := None; tags := tgs;
     channel_id := None; channel_title := None; published_at := None;
     view_count := 0; like_count := 0; comment_count := 0;
     duration := None |}.

Definition sample_tagged (id : string) (g : option string) : TaggedRecord :=
  {| tr_video := sample_video id (Some id) None;
     genres_list := match g with Some x => [x] | None => [] end;
     primary_genre := g |}.

(** A store holding one raw table (object 0) and one tagged table (object 1). *)
Definition sample_raw_rows : list VideoRecord :=
  [ sample_video "v1" (Some "Main Mobile Legends rank push") None;
    sample_video "v2" (Some "hello") (Some "");
    sample_video "v3" None (Some "valorant|fps") ].

Definition sample_tagged_rows : list TaggedRecord :=
  [ sample_tagged "t1" (Some "FPS"); sample_tagged "t2" (Some "MOBA");
    sample_tagged "t3" None; sample_tagged "t4" (Some "FPS") ].

Definition sample_store : store :=
  <[1 := DfTagged sample_tagged_rows]> (<[0 := DfVideos sample_raw_rows]> ∅).

(** A tagged table with 19 rows of one genre and 25 of another, as object 0
    of a store. *)
Definition sample_genre_rows : list TaggedRecord :=
  repeat (sample_tagged "x" (Some "FPS")) 19
  ++ [sample_tagged "z" None]
  ++ repeat (sample_tagged "y" (Some "MOBA")) 25.

Definition sample_genre_store : store :=
  <[0 := DfTagged sample_genre_rows]> ∅.

(** A search endpoint that counts the requests it has served: it refuses a
    request for no results, serves the same two hits on every page (cut to
    the number asked for) and announces a next page on its first two
    answers. *)
Definition sample_search_endpoint (served : nat) (p : search_params)
    : nat * option search_response :=
  if (sp_maxResults p <=? 0)%Z then (S served, None)
  else
    (S served,
     Some {| sr_items :=
               firstn (Z.to_nat (sp_maxResults p))
                 [ {| si_videoId := Some "a" |}; {| si_videoId := Some "b" |} ];
             sr_nextPageToken :=
               if (served <? 2)%nat then Some "next" else None |}).

(** A details item whose tags name a game. *)
Definition sample_item (id : string) : video_item :=
  {| vi_id := Some id;
     vi_snippet :=
       Some {| sn_title := Some "Ranked"; sn_description := None;
               sn_tags := Some (TagList ["Gameplay"; "VALORANT ID"]);
               sn_channelId := None; sn_channelTitle := None;
               sn_publishedAt := None |};
     vi_statistics :=
       Some {| st_viewCount := Some "12"; st_likeCount := None;
               st_commentCount := None |};
     vi_contentDetails := None |}.

(** A details endpoint that returns, for every request, one video whose id
    is the id parameter of the request. *)
Definition sample_videos_endpoint (w : nat) (p : videos_params)
    : nat * option (list video_item) :=
  (w, Some [sample_item (vp_id p)]).

(** A host with the credential in its environment and nothing else. *)
Definition sample_pipeline : pipeline nat :=
  {| pl_environ := {["YOUTUBE_API_KEY" := "key"]};
     pl_dotenv := Some {["YOUTUBE_API_KEY" := "other"]};
     pl_net := {| net_api_key := None; net_world := 0; net_log := [] |};
     pl_store := ∅; pl_files := ∅; pl_disk := [] |}.

(** A host without credential. *)
Definition bare_pipeline : pipeline nat :=
  {| pl_environ := {["HOME" := "/root"]};
     pl_dotenv := None;
     pl_net := {| net_api_key := None; net_world := 0; net_log := [] |};
     pl_store := ∅; pl_files := ∅; pl_disk := [] |}.

(** The sample host with a disk that takes the first write and fails the
    second. *)
Definition full_disk_pipeline : pipeline nat :=
  with_disk sample_pipeline [true; false].

(** A search endpoint that refuses a request for no results and answers
    every other request with an empty page that announces a next page. *)
Definition stalling_search_endpoint (w : unit) (p : search_params)
    : unit * option search_response :=
  if (sp_maxResults p <=? 0)%Z then (w, None)
  else (w, Some {| sr_items := []; sr_nextPageToken := Some "next" |}).

(** A details endpoint that knows no video. *)
Definition empty_videos_endpoint (w : unit) (p : videos_params)
    : unit * option (list video_item) :=
  (w, Some []).

Definition sample_net {W} (w : W) : net W :=
  {| net_api_key := Some "key"; net_world := w; net_log := [] |}.

(** Identifiers ["0"], ["1"], ... in unary, enough to need several chunks. *)
Definition sample_ids (n : nat) : list string :=
  map (fun k => String.concat "" (repeat "i" k)) (seq 0 n).

(* ================================================================== *)
(** * Properties of the string and container builtins *)
(* ================================================================== *)

Lemma mem_true_iff (x : string) (s : list string) :
  PySet.mem x s = true <-> In x s.
Proof.
  unfold PySet.mem. rewrite existsb_exists. split.
  - intros [y [Hin Heq]]. apply String.eqb_eq in Heq. now subst.
  - intros Hin. exists x. split; [assumption | apply String.eqb_refl].
Qed.

Lemma mem_false_iff (x : string) (s : list string) :
  PySet.mem x s = false <-> ~ In x s.
Proof.
  rewrite <- mem_true_iff. destruct (PySet.mem x s); split; intros H;
    congruence || (exfalso; now apply H) || reflexivity.
Qed.

Lemma startswith_iff (kw text : string) :
  PyStr.startswith kw text = true <-> exists rest, text = (kw ++ rest)%string.
Proof.
  revert text. induction kw as [|a kw IH]; intros text; simpl.
  - split; [intros _; now exists text | reflexivity].
  - destruct text as [|b text].
    + split; [discriminate | intros [rest H]; discriminate].
    + rewrite andb_true_iff, IH, Ascii.eqb_eq. split.
      * intros [-> [rest ->]]. now exists rest.
      * intros [rest H]. injection H as -> ->. split; [reflexivity | now exists rest].
Qed.

(** [kw in text] holds exactly when [text] is some prefix, then [kw], then
    some suffix. *)
Lemma contains_iff (kw text : string) :
  PyStr.contains kw text = true <->
  exists pre post, text = (pre ++ kw ++ post)%string.
Proof.
  induction text as [|b text IH].
  - simpl. rewrite orb_false_r, startswith_iff. split.
    + intros [rest H]. now exists "", rest.
    + intros [pre [post H]]. destruct pre; simpl in H; [now exists post | discriminate].
  - simpl. rewrite orb_true_iff, startswith_iff, IH. split.
    + intros [[rest H] | [pre [post H]]].
      * now exists "", rest.
      * exists (String b pre), post. simpl. now rewrite H.
    + intros [pre [post H]]. destruct pre as [|c pre]; simpl in H.
      * left. now exists post.
      * right. injection H as _ H. now exists pre, post.
Qed.

(** ** dict.fromkeys *)

Lemma keys_setitem {V} (k : string) (v : V) (d : PyDict.t V) :
  PyDict.keys (PyDict.setitem k v d) =
  if PySet.mem k (PyDict.keys d) then PyDict.keys d else PyDict.keys d ++ [k].
Proof.
  induction d as [|[k' v'] d IH]; simpl; [reflexivity|].
  unfold PySet.mem in *. simpl.
  destruct (String.eqb k k') eqn:E; simpl; [reflexivity|].
  unfold PyDict.keys in *. rewrite IH.
  now destruct (existsb (String.eqb k) (map fst d)).
Qed.

Lemma keys_fromkeys_from (xs : list string) (d : PyDict.t unit) :
  PyDict.keys (fold_left (fun d k => PyDict.setitem k tt d) xs d) =
  PyDict.keys d ++ first_occurrences (PyDict.keys d) xs.
Proof.
  revert d. induction xs as [|x xs IH]; intros d; simpl.
  - now rewrite app_nil_r.
  - rewrite IH, keys_setitem.
    destruct (PySet.mem x (PyDict.keys d)); [reflexivity|].
    now rewrite <- app_assoc.
Qed.

Lemma dedup_first_occurrences (xs : list string) :
  dedup xs = first_occurrences [] xs.
Proof. unfold dedup, PyDict.fromkeys. now rewrite keys_fromkeys_from. Qed.

Lemma in_first_occurrences (seen xs : list string) (y : string) :
  In y (first_occurrences seen xs) <-> In y xs /\ ~ In y seen.
Proof.
  revert seen. induction xs as [|x xs IH]; intros seen; simpl.
  - tauto.
  - destruct (PySet.mem x seen) eqn:E.
    + apply mem_true_iff in E. rewrite IH. split.
      * tauto.
      * intros [[-> | H] Hn]; [contradiction | tauto].
    + apply mem_false_iff in E. simpl. rewrite IH, in_app_iff. simpl. split.
      * intros [-> | [H Hn]]; [tauto | tauto].
      * intros [[-> | H] Hn]; [now left|].
        destruct (string_dec x y) as [-> | Hne]; [now left | right].
        split; [assumption | intros [? | [? | []]]; congruence || contradiction].
Qed.

Lemma NoDup_first_occurrences (seen xs : list string) :
  List.NoDup (first_occurrences seen xs).
Proof.
  revert seen. induction xs as [|x xs IH]; intros seen; simpl.
  - constructor.
  - destruct (PySet.mem x seen); [apply IH|].
    constructor; [|apply IH].
    rewrite in_first_occurrences, in_app_iff. simpl. tauto.
Qed.

Lemma length_first_occurrences (seen xs : list string) :
  length (first_occurrences seen xs) <= length xs.
Proof.
  revert seen. induction xs as [|x xs IH]; intros seen; simpl; [lia|].
  destruct (PySet.mem x seen); simpl.
  - specialize (IH seen). lia.
  - specialize (IH (seen ++ [x])). lia.
Qed.

Lemma first_occurrences_id (seen xs : list string) :
  List.NoDup xs -> (forall x, In x xs -> ~ In x seen) ->
  first_occurrences seen xs = xs.
Proof.
  revert seen. induction xs as [|x xs IH]; intros seen Hnd Hdisj; simpl.
  - reflexivity.
  - inversion Hnd as [|? ? Hnotin Hnd']; subst.
    assert (E : PySet.mem x seen = false).
    { apply mem_false_iff, Hdisj. now left. }
    rewrite E. f_equal. apply IH; [assumption|].
    intros y Hy. rewrite in_app_iff. simpl.
    intros [H | [-> | []]].
    + apply (Hdisj y); [now right | assumption].
    + contradiction.
Qed.

Lemma index_of_head (x : string) (xs : list string) : index_of x (x :: xs) = 0.
Proof. simpl. now rewrite String.eqb_refl. Qed.

Lemma index_of_tail (x y : string) (xs : list string) :
  y <> x -> index_of y (x :: xs) = S (index_of y xs).
Proof.
  intros Hne. simpl. destruct (String.eqb y x) eqn:E; [|reflexivity].
  apply String.eqb_eq in E. contradiction.
Qed.

Lemma StronglySorted_weaken {A} (R R' : A -> A -> Prop) (l : list A) :
  (forall a b, In a l -> In b l -> R a b -> R' a b) ->
  StronglySorted R l -> StronglySorted R' l.
Proof.
  intros Himp Hs. induction Hs as [|a l Hs IH Hall]; constructor.
  - apply IH. intros x y Hx Hy HR. apply Himp; [now right | now right | assumption].
  - apply List.Forall_forall. intros b Hb.
    apply Himp; [now left | now right |].
    rewrite List.Forall_forall in Hall. now apply Hall.
Qed.

Lemma first_occurrences_sorted (seen xs : list string) :
  StronglySorted (fun a b => index_of a xs < index_of b xs)
    (first_occurrences seen xs).
Proof.
  revert seen. induction xs as [|x xs IH]; intros seen; simpl first_occurrences.
  - constructor.
  - destruct (PySet.mem x seen) eqn:E.
    + apply mem_true_iff in E.
      apply StronglySorted_weaken
        with (R := fun a b => index_of a xs < index_of b xs); [|apply IH].
      intros a b Ha Hb Hlt.
      apply in_first_occurrences in Ha, Hb.
      rewrite !index_of_tail by (intros ->; tauto). lia.
    + constructor.
      * apply StronglySorted_weaken
          with (R := fun a b => index_of a xs < index_of b xs); [|apply IH].
        intros a b Ha Hb Hlt.
        apply in_first_occurrences in Ha, Hb.
        rewrite in_app_iff in Ha, Hb. simpl in Ha, Hb.
        rewrite !index_of_tail by (intros ->; tauto). lia.
      * apply List.Forall_forall. intros b Hb.
        apply in_first_occurrences in Hb. rewrite in_app_iff in Hb. simpl in Hb.
        rewrite index_of_head, index_of_tail by (intros ->; tauto). lia.
Qed.

Lemma NoDup_dedup (xs : list string) : List.NoDup (dedup xs).
Proof. rewrite dedup_first_occurrences. apply NoDup_first_occurrences. Qed.

Lemma in_dedup (xs : list string) (x : string) : In x (dedup xs) <-> In x xs.
Proof. rewrite dedup_first_occurrences, in_first_occurrences. simpl. tauto. Qed.

Lemma length_dedup (xs : list string) : length (dedup xs) <= length xs.
Proof. rewrite dedup_first_occurrences. apply length_first_occurrences. Qed.

Lemma dedup_NoDup_id (xs : list string) : List.NoDup xs -> dedup xs = xs.
Proof.
  intros H. rewrite dedup_first_occurrences.
  apply first_occurrences_id; [assumption | intros x _ []].
Qed.

Lemma dedup_first_occurrence_order (xs : list string) :
  first_occurrence_order xs (dedup xs).
Proof.
  split; [apply NoDup_dedup|]. split; [intros x; apply in_dedup|].
  rewrite dedup_first_occurrences. apply first_occurrences_sorted.
Qed.

(* ================================================================== *)
(** * C5: identifier deduplication is idempotent *)
(* ================================================================== *)

(** C5. For every list of item identifiers, the first-occurrence-wins
    deduplication [list(dict.fromkeys(video_ids))] applied to its own
    result returns that result: deduplicating twice is the same as
    deduplicating once. *)
Theorem dedup_idempotent (video_ids : list string) :
  dedup (dedup video_ids) = dedup video_ids.
Proof. apply dedup_NoDup_id, NoDup_dedup. Qed.

(* ================================================================== *)
(** * Properties of the genre scan *)
(* ================================================================== *)

Lemma in_set_add (x y : string) (s : PySet.t) :
  In y (PySet.add x s) <-> y = x \/ In y s.
Proof.
  unfold PySet.add. destruct (PySet.mem x s) eqn:E.
  - apply mem_true_iff in E. split; [tauto | intros [-> | H]; assumption].
  - rewrite in_app_iff. simpl. split.
    + intros [H | [H | []]]; [tauto | left; congruence].
    + intros [-> | H]; [right; now left | now left].
Qed.

Lemma NoDup_set_add (x : string) (s : PySet.t) :
  List.NoDup s -> List.NoDup (PySet.add x s).
Proof.
  intros H. unfold PySet.add. destruct (PySet.mem x s) eqn:E; [assumption|].
  apply mem_false_iff in E.
  apply NoDup_app; repeat split; try assumption.
  - constructor; [intros [] | constructor].
  - intros y Hy [<- | []]. contradiction.
Qed.

Lemma NoDup_scan_genres (table : PyDict.t (list string)) (text : string)
    (found : PySet.t) :
  List.NoDup found -> List.NoDup (scan_genres table text found).
Proof.
  revert found. unfold scan_genres.
  induction table as [|[g kws] table IH]; intros found H; simpl; [assumption|].
  apply IH. destruct (genre_matches kws text); [now apply NoDup_set_add | assumption].
Qed.

Lemma in_scan_genres (table : PyDict.t (list string)) (text : string)
    (found : PySet.t) (g : string) :
  In g (scan_genres table text found) <->
  In g found \/ exists kws, In (g, kws) table /\ genre_matches kws text = true.
Proof.
  revert found. unfold scan_genres.
  induction table as [|[g' kws'] table IH]; intros found; simpl.
  - split; [tauto | intros [H | [kws [[] _]]]; assumption].
  - rewrite IH. destruct (genre_matches kws' text) eqn:E.
    + rewrite in_set_add. split.
      * intros [[-> | H] | [kws [H1 H2]]]; [right; exists kws'; tauto | tauto |].
        right. exists kws. tauto.
      * intros [H | [kws [[H1 | H1] H2]]]; [tauto | | right; now exists kws].
        injection H1 as <- <-. tauto.
    + split.
      * intros [H | [kws [H1 H2]]]; [tauto | right; exists kws; tauto].
      * intros [H | [kws [[H1 | H1] H2]]]; [tauto | | right; now exists kws].
        injection H1 as <- <-. congruence.
Qed.

(** On a table whose genre names are distinct and not yet in the set, the
    scan appends the matching names in table order. *)
Lemma scan_genres_filter (table : PyDict.t (list string)) (text : string)
    (found : PySet.t) :
  List.NoDup (PyDict.keys table) ->
  (forall g, In g (PyDict.keys table) -> ~ In g found) ->
  scan_genres table text found =
  found ++ map fst (List.filter (fun gk => genre_matches (snd gk) text) table).
Proof.
  revert found. unfold scan_genres.
  induction table as [|[g kws] table IH]; intros found Hnd Hdisj; simpl.
  - now rewrite app_nil_r.
  - simpl in Hnd. inversion Hnd as [|? ? Hnotin Hnd']; subst.
    destruct (genre_matches kws text) eqn:E.
    + assert (Hadd : PySet.add g found = found ++ [g]).
      { unfold PySet.add.
        assert (Hm : PySet.mem g found = false)
          by (apply mem_false_iff, Hdisj; now left).
        now rewrite Hm. }
      rewrite Hadd, IH; [simpl; now rewrite <- app_assoc | assumption |].
      intros g' Hg'. rewrite in_app_iff. simpl.
      intros [H | [<- | []]]; [|contradiction].
      apply (Hdisj g'); [now right | assumption].
    + apply IH; [assumption|]. intros g' Hg'. apply Hdisj. now right.
Qed.

Lemma NoDup_genre_names : List.NoDup (PyDict.keys GENRE_KEYWORDS).
Proof.
  apply (NoDup_count_occ' string_dec). intros g Hg.
  simpl in Hg.
  repeat (destruct Hg as [<- | Hg]; [vm_compute; reflexivity|]).
  destruct Hg.
Qed.

Lemma scan_genres_matched (text : string) :
  scan_genres GENRE_KEYWORDS text PySet.empty = matched_genres text.
Proof.
  rewrite scan_genres_filter; [reflexivity | apply NoDup_genre_names |].
  intros g _ [].
Qed.

Lemma filter_keys_sorted {V} (p : string * V -> bool) (table : PyDict.t V) :
  List.NoDup (PyDict.keys table) ->
  StronglySorted
    (fun a b => index_of a (PyDict.keys table) < index_of b (PyDict.keys table))
    (map fst (List.filter p table)).
Proof.
  induction table as [|[k v] table IH]; intros Hnd.
  - constructor.
  - change (PyDict.keys ((k, v) :: table)) with (k :: PyDict.keys table) in *.
    inversion Hnd as [|? ? Hnotin Hnd']; subst.
    assert (Hin : forall b, In b (map fst (List.filter p table)) ->
                            In b (PyDict.keys table)).
    { intros b Hb. apply in_map_iff in Hb as [[k' v'] [<- Hb]].
      apply filter_In in Hb as [Hb _]. apply in_map_iff. now exists (k', v'). }
    assert (Htail : StronglySorted
              (fun a b => index_of a (k :: PyDict.keys table)
                          < index_of b (k :: PyDict.keys table))
              (map fst (List.filter p table))).
    { apply StronglySorted_weaken
        with (R := fun a b => index_of a (PyDict.keys table)
                              < index_of b (PyDict.keys table));
        [|now apply IH].
      intros a b Ha Hb Hlt. apply Hin in Ha, Hb.
      rewrite !index_of_tail by (intros ->; contradiction). lia. }
    cbn [List.filter]. destruct (p (k, v)); [|exact Htail].
    cbn [map fst]. constructor; [exact Htail|].
    apply List.Forall_forall. intros b Hb. apply Hin in Hb.
    rewrite index_of_head, index_of_tail by (intros ->; contradiction). lia.
Qed.

Lemma table_ordered_sorted (l : list string) :
  StronglySorted (fun a b => genre_rank a < genre_rank b) l ->
  table_ordered l = true.
Proof.
  induction 1 as [|g r Hs IH Hall]; [reflexivity|].
  simpl. destruct r as [|g' r']; [reflexivity|].
  inversion Hall as [|? ? Hlt _]; subst.
  apply andb_true_iff. split; [now apply Nat.ltb_lt | exact IH].
Qed.

Lemma matched_genres_table_ordered (text : string) :
  table_ordered (matched_genres text) = true.
Proof.
  apply table_ordered_sorted. unfold matched_genres, genre_rank.
  apply filter_keys_sorted, NoDup_genre_names.
Qed.

Lemma in_matched_genres (text g : string) :
  In g (matched_genres text) <->
  exists kws, In (g, kws) GENRE_KEYWORDS /\ genre_matches kws text = true.
Proof.
  rewrite <- scan_genres_matched, in_scan_genres. unfold PySet.empty. simpl. tauto.
Qed.

Lemma NoDup_matched_genres (text : string) : List.NoDup (matched_genres text).
Proof.
  rewrite <- scan_genres_matched. apply NoDup_scan_genres. constructor.
Qed.

Lemma matched_genres_empty_text : matched_genres "" = [].
Proof. vm_compute. reflexivity. Qed.

(** What [detect_genres_from_text] returns, in one equation. *)
Lemma detect_genres_unfold (O : PySetOrder) (title description tags : option string) :
  detect_genres_from_text O title description tags =
  match text_parts title description tags with
  | [] => []
  | _ :: _ => set_to_list O (matched_genres (searched_text title description tags))
  end.
Proof.
  unfold detect_genres_from_text, searched_text.
  destruct (text_parts title description tags); [reflexivity|].
  now rewrite scan_genres_matched.
Qed.

Lemma detect_genres_permutation (O : PySetOrder) (title description tags : option string) :
  Permutation (matched_genres (searched_text title description tags))
              (detect_genres_from_text O title description tags).
Proof.
  rewrite detect_genres_unfold. unfold searched_text.
  destruct (text_parts title description tags) eqn:E.
  - simpl. rewrite matched_genres_empty_text. constructor.
  - apply set_to_list_perm, NoDup_matched_genres.
Qed.

Lemma text_parts_falsy (title description tags : option string) :
  PyStr.truthy title = false -> PyStr.truthy description = false ->
  PyStr.truthy tags = false ->
  text_parts title description tags = [].
Proof.
  intros H1 H2 H3. unfold text_parts.
  destruct title as [[|? ?]|]; try discriminate;
  destruct description as [[|? ?]|]; try discriminate;
  destruct tags as [[|? ?]|]; try discriminate; reflexivity.
Qed.

Lemma first_or_none_spec (g_list : list string) :
  (g_list <> [] -> exists g, first_or_none g_list = Some g /\ In g g_list) /\
  (first_or_none g_list = None <-> g_list = []).
Proof.
  destruct g_list as [|g r]; simpl.
  - split; [intros H; now contradiction H | tauto].
  - split; [intros _; exists g; tauto | split; discriminate].
Qed.

(* ================================================================== *)
(** * C1: order of genres_list *)
(* ================================================================== *)

(** C1, as the script behaves.  The matched genres are collected in a [set]
    and the result is [list(found_genres)], so [genres_list] holds every
    genre of the table that has a keyword in the searched text, each exactly
    once, in the enumeration order of the set: it is a permutation of the
    matched genres taken in table declaration order, and it is that very
    list when the set enumerates in insertion order. *)
Theorem genres_list_permutes_matched_genres
    (O : PySetOrder) (title description tags : option string) :
  let text := searched_text title description tags in
  let genres := detect_genres_from_text O title description tags in
  table_ordered (matched_genres text) = true /\
  Permutation (matched_genres text) genres /\
  List.NoDup genres /\
  (forall g, In g genres <->
             exists kws, In (g, kws) GENRE_KEYWORDS /\ genre_matches kws text = true) /\
  detect_genres_from_text insertion_order title description tags
  = matched_genres text.
Proof.
  intros text genres.
  pose proof (detect_genres_permutation O title description tags) as Hperm.
  fold text genres in Hperm.
  split; [apply matched_genres_table_ordered|].
  split; [exact Hperm|].
  split; [eapply Permutation_NoDup; [exact Hperm | apply NoDup_matched_genres]|].
  split.
  - intros g. rewrite <- in_matched_genres. split; intros H.
    + eapply Permutation_in; [symmetry; exact Hperm | exact H].
    + eapply Permutation_in; [exact Hperm | exact H].
  - rewrite detect_genres_unfold. subst text. unfold searched_text.
    destruct (text_parts title description tags); [|reflexivity].
    simpl. now rewrite matched_genres_empty_text.
Qed.

(** C1 fails as stated: when the set enumerates "FPS" before "MOBA", a text
    naming both genres gets a [genres_list] that is not in table order. *)
Lemma genres_list_not_in_table_order :
  detect_genres_from_text reverse_order None None (Some "valorant mlbb")
  = ["FPS"; "MOBA"] /\
  table_ordered
    (detect_genres_from_text reverse_order None None (Some "valorant mlbb"))
  = false.
Proof. split; vm_compute; reflexivity. Qed.

(* ================================================================== *)
(** * C2: when detect_genres_from_text returns nothing *)
(* ================================================================== *)

(** C2, as the script behaves.  When title, description and tags are all
    absent or empty the result is empty; in general the result is empty
    exactly when no keyword of any genre of the table occurs in the searched
    text (the lower-cased, space-joined non-empty fields). *)
Theorem detect_genres_empty_iff_no_keyword
    (O : PySetOrder) (title description tags : option string) :
  (PyStr.truthy title = false /\ PyStr.truthy description = false /\
   PyStr.truthy tags = false ->
   detect_genres_from_text O title description tags = []) /\
  (detect_genres_from_text O title description tags = [] <->
   forall g kws kw,
     In (g, kws) GENRE_KEYWORDS -> In kw kws ->
     PyStr.contains (PyStr.lower kw) (searched_text title description tags)
     = false).
Proof.
  split.
  - intros (H1 & H2 & H3). rewrite detect_genres_unfold.
    now rewrite text_parts_falsy.
  - pose proof (detect_genres_permutation O title description tags) as Hperm.
    set (text := searched_text title description tags) in *.
    split.
    + intros Hnil g kws kw Hg Hkw. rewrite Hnil in Hperm.
      apply Permutation_sym, Permutation_nil in Hperm.
      destruct (PyStr.contains (PyStr.lower kw) text) eqn:E; [|reflexivity].
      assert (Hin : In g (matched_genres text)).
      { apply in_matched_genres. exists kws. split; [assumption|].
        unfold genre_matches. apply existsb_exists. now exists kw. }
      rewrite Hperm in Hin. destruct Hin.
    + intros Hnone.
      assert (Hnil : matched_genres text = []).
      { destruct (matched_genres text) as [|g r] eqn:E; [reflexivity|].
        assert (Hin : In g (matched_genres text)) by (rewrite E; now left).
        apply in_matched_genres in Hin as [kws [Hg Hm]].
        unfold genre_matches in Hm. apply existsb_exists in Hm as [kw [Hkw Hc]].
        rewrite (Hnone g kws kw Hg Hkw) in Hc. discriminate. }
      rewrite Hnil in Hperm. now apply Permutation_nil.
Qed.

(** C2 fails as stated: a title without any keyword is a non-empty input on
    which the result is empty. *)
Lemma detect_genres_empty_on_nonempty_title :
  PyStr.truthy (Some "hello") = true /\
  detect_genres_from_text insertion_order (Some "hello") None None = [].
Proof. split; vm_compute; reflexivity. Qed.

(* ================================================================== *)
(** * C8: the tags example *)
(* ================================================================== *)

(** C8. A details item whose tags are the list ["valorant", "fps"] gets the
    tags string "valorant|fps" in its record, and on that tags string alone
    (title and description absent) [detect_genres_from_text] returns exactly
    the one genre "FPS". *)
Theorem tags_valorant_fps_example :
  tags_joined (Some (TagList ["valorant"; "fps"])) = "valorant|fps" /\
  (forall (py_int : string -> option Z) (S : Type) (s : S) (id : string),
     exists r,
       record_of_item py_int
         {| vi_id := Some id;
            vi_snippet :=
              Some {| sn_title := None; sn_description := None;
                      sn_tags := Some (TagList ["valorant"; "fps"]);
                      sn_channelId := None; sn_channelTitle := None;
                      sn_publishedAt := None |};
            vi_statistics := None; vi_contentDetails := None |} s
       = (Ret r, s) /\
       tags r = Some "valorant|fps") /\
  (forall O : PySetOrder,
     detect_genres_from_text O None None (Some "valorant|fps") = ["FPS"]).
Proof.
  split; [reflexivity|]. split.
  - intros py_int S s id. eexists. split; reflexivity.
  - intros O.
    pose proof (detect_genres_permutation O None None (Some "valorant|fps")) as H.
    replace (matched_genres (searched_text None None (Some "valorant|fps")))
      with ["FPS"] in H by (vm_compute; reflexivity).
    now apply Permutation_length_1_inv in H.
Qed.

(* ================================================================== *)
(** * Running the table operations on a store *)
(* ================================================================== *)

Lemma bind_ret {S A B} (c : M S A) (k : A -> M S B) (s s' : S) (a : A) :
  c s = (Ret a, s') -> bind c k s = k a s'.
Proof. intros H. unfold bind. now rewrite H. Qed.

Lemma bind_raise {S A B} (c : M S A) (k : A -> M S B) (s s' : S) (e : exn) :
  c s = (Raise e, s') -> bind c k s = (Raise e, s').
Proof. intros H. unfold bind. now rewrite H. Qed.

Lemma load_run (h : store) (l : nat) (df : DataFrame) :
  h !! l = Some df -> load l h = (Ret df, h).
Proof. intros H. unfold load. now rewrite H. Qed.

Lemma update_run (h : store) (l : nat) (f : DataFrame -> DataFrame) (df : DataFrame) :
  h !! l = Some df -> update l f h = (Ret tt, <[l := f df]> h).
Proof. intros H. unfold update. now rewrite H. Qed.

Lemma fresh_unused (h : store) : h !! fresh (dom h) = None.
Proof. apply not_elem_of_dom, is_fresh. Qed.

Lemma insert_fresh_lookup (h : store) (df v : DataFrame) (k : nat) :
  h !! k = Some v -> <[fresh (dom h) := df]> h !! k = Some v.
Proof.
  intros Hk. rewrite lookup_insert_ne; [assumption|].
  intros <-. rewrite fresh_unused in Hk. discriminate.
Qed.

Lemma df_copy_run (h : store) (l : nat) (df : DataFrame) :
  h !! l = Some df ->
  df_copy l h = (Ret (fresh (dom h)), <[fresh (dom h) := df]> h).
Proof. intros H. unfold df_copy. now rewrite (bind_ret _ _ _ _ _ (load_run _ _ _ H)). Qed.

Lemma primary_genre_column_run (h : store) (l : nat) (df : DataFrame)
    (col : list (option string)) :
  h !! l = Some df -> primary_column_of df = Some col ->
  primary_genre_column l h = (Ret col, h).
Proof.
  intros H Hcol. unfold primary_genre_column.
  rewrite (bind_ret _ _ _ _ _ (load_run _ _ _ H)).
  destruct df; simpl in Hcol; try discriminate; now injection Hcol as <-.
Qed.

Lemma primary_genre_column_missing (h : store) (l : nat) (rows : list VideoRecord) :
  h !! l = Some (DfVideos rows) ->
  primary_genre_column l h = (Raise KeyError, h).
Proof.
  intros H. unfold primary_genre_column.
  now rewrite (bind_ret _ _ _ _ _ (load_run _ _ _ H)).
Qed.

Lemma select_primary_run (h : store) (l : nat) (df : DataFrame)
    (col : list (option string)) (keep : option string -> bool) :
  h !! l = Some df -> primary_column_of df = Some col ->
  bind (primary_genre_column l)
       (fun _ => bind (load l) (fun d => alloc (df_select_primary keep d))) h
  = (Ret (fresh (dom h)), <[fresh (dom h) := df_select_primary keep df]> h).
Proof.
  intros H Hcol.
  rewrite (bind_ret _ _ _ _ _ (primary_genre_column_run _ _ _ _ H Hcol)).
  now rewrite (bind_ret _ _ _ _ _ (load_run _ _ _ H)).
Qed.

Lemma primary_column_select (keep : option string -> bool) (df : DataFrame)
    (col : list (option string)) :
  primary_column_of df = Some col ->
  primary_column_of (df_select_primary keep df) = Some (List.filter keep col).
Proof.
  destruct df as [rows|rows|rows]; simpl; intros H; try discriminate;
    injection H as <-; f_equal.
  - induction rows as [|r rows IH]; simpl; [reflexivity|].
    destruct (keep (primary_genre r)); simpl; now rewrite IH.
  - induction rows as [|r rows IH]; simpl; [reflexivity|].
    destruct (keep (primary_genre (mr_tagged r))); simpl; now rewrite IH.
Qed.

Lemma genre_columns_from (O : PySetOrder) (rows : list VideoRecord)
    (acc : list (list string) * list (option string)) :
  fold_left
    (fun acc row =>
       let g_list :=
         detect_genres_from_text O (title row) (description row) (tags row) in
       (fst acc ++ [g_list], snd acc ++ [first_or_none g_list]))
    rows acc
  = (fst acc ++ map genres_list (map (classify_row O) rows),
     snd acc ++ map primary_genre (map (classify_row O) rows)).
Proof.
  revert acc. induction rows as [|row rows IH]; intros [ga pa]; simpl.
  - now rewrite !app_nil_r.
  - rewrite IH. simpl. now rewrite <- !app_assoc.
Qed.

Lemma genre_columns_classify (O : PySetOrder) (rows : list VideoRecord) :
  genre_columns O rows
  = (map genres_list (map (classify_row O) rows),
     map primary_genre (map (classify_row O) rows)).
Proof. unfold genre_columns. now rewrite genre_columns_from. Qed.

Lemma assign_genres_classify (O : PySetOrder) (rows : list VideoRecord) :
  df_assign_genres (DfVideos rows)
    (fst (genre_columns O rows)) (snd (genre_columns O rows))
  = DfTagged (map (classify_row O) rows).
Proof.
  rewrite genre_columns_classify. simpl. f_equal.
  induction rows as [|row rows IH]; simpl; [reflexivity|].
  now rewrite IH.
Qed.

Lemma add_primary_genre_column_run (O : PySetOrder) (h : store) (l : nat)
    (df : DataFrame) :
  h !! l = Some df ->
  add_primary_genre_column O l h
  = (Ret (fresh (dom h)),
     <[fresh (dom h) :=
         df_assign_genres df (fst (genre_columns O (df_video_rows df)))
                             (snd (genre_columns O (df_video_rows df)))]> h).
Proof.
  intros H. unfold add_primary_genre_column.
  rewrite (bind_ret _ _ _ _ _ (load_run _ _ _ H)).
  rewrite (bind_ret _ _ _ _ _ (df_copy_run _ _ _ H)).
  erewrite bind_ret by (apply update_run, lookup_insert_eq).
  unfold ret. now rewrite insert_insert_eq.
Qed.

Lemma clean_for_modelling_run (h : store) (l : nat) (df : DataFrame)
    (col : list (option string)) (min_samples : Z) :
  h !! l = Some df -> primary_column_of df = Some col ->
  exists l' h',
    clean_for_modelling l min_samples h = (Ret l', h') /\
    h !! l' = None /\
    h' !! l' = Some (clean_frame df min_samples) /\
    (forall k v, h !! k = Some v -> h' !! k = Some v).
Proof.
  intros H Hcol. unfold clean_for_modelling, dropna_primary_genre, select_isin.
  rewrite (bind_ret _ _ _ _ _ (select_primary_run _ _ _ _ is_some H Hcol)).
  set (df1 := df_select_primary is_some df).
  set (l1 := fresh (dom h)). set (h1 := <[l1 := df1]> h).
  assert (H1 : h1 !! l1 = Some df1) by apply lookup_insert_eq.
  rewrite (bind_ret _ _ _ _ _ (df_copy_run _ _ _ H1)).
  set (l2 := fresh (dom h1)). set (h2 := <[l2 := df1]> h1).
  assert (H2 : h2 !! l2 = Some df1) by apply lookup_insert_eq.
  pose proof (primary_column_select is_some df col Hcol) as Hcol1. fold df1 in Hcol1.
  rewrite (bind_ret _ _ _ _ _ (primary_genre_column_run _ _ _ _ H2 Hcol1)).
  set (valid := valid_genres_of (value_counts (List.filter is_some col)) min_samples).
  rewrite (bind_ret _ _ _ _ _ (select_primary_run _ _ _ _ (isin valid) H2 Hcol1)).
  set (df3 := df_select_primary (isin valid) df1).
  set (l3 := fresh (dom h2)). set (h3 := <[l3 := df3]> h2).
  assert (H3 : h3 !! l3 = Some df3) by apply lookup_insert_eq.
  rewrite (bind_ret _ _ _ _ _ (df_copy_run _ _ _ H3)).
  set (l4 := fresh (dom h3)). set (h4 := <[l4 := df3]> h3).
  assert (H4 : h4 !! l4 = Some df3) by apply lookup_insert_eq.
  rewrite (bind_ret _ _ _ _ _ (load_run _ _ _ H4)).
  rewrite (bind_ret _ _ _ _ _ (update_run _ _ _ _ H4)).
  unfold ret. eexists _, _. split; [reflexivity|].
  assert (F1 : h !! l1 = None) by apply fresh_unused.
  assert (F2 : h1 !! l2 = None) by apply fresh_unused.
  assert (F3 : h2 !! l3 = None) by apply fresh_unused.
  assert (F4 : h3 !! l4 = None) by apply fresh_unused.
  assert (Hext : forall k v, h !! k = Some v -> h3 !! k = Some v).
  { intros k v Hk. subst h3 l3 h2 l2 h1 l1.
    now repeat apply insert_fresh_lookup. }
  split; [|split].
  - destruct (h !! l4) eqn:E; [|reflexivity].
    apply Hext in E. congruence.
  - rewrite lookup_insert_eq. f_equal. unfold clean_frame. fold df1.
    rewrite Hcol1. simpl. fold valid. reflexivity.
  - intros k v Hk. subst h4. rewrite insert_insert_eq.
    rewrite lookup_insert_ne; [now apply Hext|].
    intros <-. apply Hext in Hk. congruence.
Qed.

Lemma clean_for_modelling_missing (h : store) (l : nat) (rows : list VideoRecord)
    (min_samples : Z) :
  h !! l = Some (DfVideos rows) ->
  clean_for_modelling l min_samples h = (Raise KeyError, h).
Proof.
  intros H. unfold clean_for_modelling, dropna_primary_genre.
  erewrite bind_raise; [reflexivity|].
  erewrite bind_raise; [reflexivity|].
  now apply primary_genre_column_missing with (rows := rows).
Qed.

(* ================================================================== *)
(** * C3: primary_genre and genres_list *)
(* ================================================================== *)

(** C3. For every table of Video Records, add_primary_genre_column returns a
    table with one tagged row per input row, in the same order; in every row
    the genres_list is what detect_genres_from_text finds for the row's
    title, description and tags, the primary_genre is an element of the
    genres_list whenever that list is not empty, and the primary_genre is
    null exactly when the genres_list is empty. *)
Theorem primary_genre_in_genres_list
    (O : PySetOrder) (h : store) (l : nat) (rows : list VideoRecord) :
  h !! l = Some (DfVideos rows) ->
  exists l' h' tagged,
    add_primary_genre_column O l h = (Ret l', h') /\
    h' !! l' = Some (DfTagged tagged) /\
    map tr_video tagged = rows /\
    Forall
      (fun r =>
         genres_list r
         = detect_genres_from_text O (title (tr_video r))
             (description (tr_video r)) (tags (tr_video r)) /\
         (genres_list r <> [] ->
          exists g, primary_genre r = Some g /\ In g (genres_list r)) /\
         (primary_genre r = None <-> genres_list r = []))
      tagged.
Proof.
  intros H. exists (fresh (dom h)). eexists. exists (map (classify_row O) rows).
  split; [apply (add_primary_genre_column_run O h l _ H)|].
  split; [rewrite lookup_insert_eq; f_equal; apply assign_genres_classify|].
  split.
  - rewrite map_map. simpl. apply map_id.
  - apply List.Forall_forall. intros r Hr.
    apply in_map_iff in Hr as [v [<- _]]. simpl.
    split; [reflexivity | apply first_or_none_spec].
Qed.

Lemma primary_genre_in_genres_list_witness :
  sample_store !! 0 = Some (DfVideos sample_raw_rows) /\
  exists l' h' tagged,
    add_primary_genre_column insertion_order 0 sample_store = (Ret l', h') /\
    h' !! l' = Some (DfTagged tagged) /\
    map tr_video tagged = sample_raw_rows /\
    Forall
      (fun r =>
         genres_list r
         = detect_genres_from_text insertion_order (title (tr_video r))
             (description (tr_video r)) (tags (tr_video r)) /\
         (genres_list r <> [] ->
          exists g, primary_genre r = Some g /\ In g (genres_list r)) /\
         (primary_genre r = None <-> genres_list r = []))
      tagged.
Proof.
  split; [reflexivity|].
  apply (primary_genre_in_genres_list insertion_order sample_store 0
           sample_raw_rows).
  reflexivity.
Defined.

(* ================================================================== *)
(** * C10: the table passed in is left as it was *)
(* ================================================================== *)

(** C10. For every store and every table in it, add_primary_genre_column
    and clean_for_modelling work on copies: each returns an object that did
    not exist before the call and that carries the new columns (or the
    filtered rows), the table passed in holds the same rows and columns
    after the call as before, and so does every other table of the store.
    (clean_for_modelling raises KeyError, with the store untouched, on a
    table without a primary_genre column.) *)
Theorem table_argument_unchanged
    (O : PySetOrder) (h : store) (l : nat) (df : DataFrame) (min_samples : Z) :
  h !! l = Some df ->
  (exists l' h',
     add_primary_genre_column O l h = (Ret l', h') /\
     h !! l' = None /\
     h' !! l = Some df /\
     (forall k v, h !! k = Some v -> h' !! k = Some v) /\
     h' !! l'
     = Some (df_assign_genres df (fst (genre_columns O (df_video_rows df)))
                                 (snd (genre_columns O (df_video_rows df))))) /\
  (exists out h',
     clean_for_modelling l min_samples h = (out, h') /\
     h' !! l = Some df /\
     (forall k v, h !! k = Some v -> h' !! k = Some v) /\
     match out with
     | Ret l' => h !! l' = None /\ h' !! l' = Some (clean_frame df min_samples)
     | Raise e => e = KeyError /\ primary_column_of df = None /\ h' = h
     | NoResult => False
     end).
Proof.
  intros H. split.
  - eexists _, _. split; [apply (add_primary_genre_column_run O h l df H)|].
    split; [apply fresh_unused|].
    split; [now apply insert_fresh_lookup|].
    split; [intros k v Hk; now apply insert_fresh_lookup|].
    apply lookup_insert_eq.
  - destruct (primary_column_of df) as [col|] eqn:Hcol.
    + destruct (clean_for_modelling_run h l df col min_samples H Hcol)
        as (l' & h' & Hrun & Hnew & Hres & Hext).
      exists (Ret l'), h'. repeat split; auto.
    + destruct df as [rows|rows|rows]; try discriminate Hcol.
      exists (Raise KeyError), h.
      split; [now apply clean_for_modelling_missing with (rows := rows)|].
      repeat split; auto.
Qed.

Lemma table_argument_unchanged_witness :
  sample_store !! 1 = Some (DfTagged sample_tagged_rows) /\
  (exists l' h',
     add_primary_genre_column insertion_order 1 sample_store = (Ret l', h') /\
     sample_store !! l' = None /\
     h' !! 1 = Some (DfTagged sample_tagged_rows)) /\
  (exists out h',
     clean_for_modelling 1 1 sample_store = (out, h') /\
     h' !! 1 = Some (DfTagged sample_tagged_rows)).
Proof.
  split; [reflexivity|].
  destruct (table_argument_unchanged insertion_order sample_store 1
              (DfTagged sample_tagged_rows) 1 eq_refl)
    as [(l' & h' & Hrun & Hnew & Hsame & _) (out & h'' & Hrun' & Hsame' & _)].
  split.
  - exists l', h'. repeat split; assumption.
  - exists out, h''. split; assumption.
Defined.

(* ================================================================== *)
(** * Properties of the frequency filter *)
(* ================================================================== *)

Lemma combine_map_self {A B} (f : A -> B) (l : list A) :
  combine l (map f l) = map (fun x => (x, f x)) l.
Proof. induction l as [|x l IH]; simpl; [reflexivity | now rewrite IH]. Qed.

Lemma clean_frame_tagged (rows : list TaggedRecord) (min_samples : Z) :
  clean_frame (DfTagged rows) min_samples = DfModel (clean_rows rows min_samples).
Proof.
  unfold clean_frame, clean_rows, valid_genres_in. simpl. f_equal.
  rewrite (map_map tr_video combine_text), combine_map_self, map_map.
  reflexivity.
Qed.

Lemma in_insert_desc (x y : string * nat) (l : list (string * nat)) :
  In x (insert_desc y l) <-> x = y \/ In x l.
Proof.
  induction l as [|z l IH]; simpl.
  - split; intros [H | H]; auto.
  - destruct (snd z <=? snd y)%nat; simpl; [split; intros [H | H]; auto|].
    rewrite IH. split; intros H; intuition auto.
Qed.

Lemma in_sort_desc (x : string * nat) (l : list (string * nat)) :
  In x (sort_desc l) <-> In x l.
Proof.
  unfold sort_desc. induction l as [|y l IH]; simpl; [tauto|].
  rewrite in_insert_desc, IH. split; intros [H | H]; auto.
Qed.

Lemma in_value_counts (col : list (option string)) (g : string) (c : nat) :
  In (g, c) (value_counts col) <->
  In g (notna col) /\ c = count g (notna col).
Proof.
  unfold value_counts. rewrite in_sort_desc, in_map_iff. split.
  - intros [g' [Heq Hin]]. injection Heq as -> <-.
    split; [now apply in_dedup | reflexivity].
  - intros [Hin ->]. exists g. split; [reflexivity | now apply in_dedup].
Qed.

Lemma in_valid_genres_of (counts : list (string * nat)) (m : Z) (g : string) :
  In g (valid_genres_of counts m) <->
  exists c, In (g, c) counts /\ (m <= Z.of_nat c)%Z.
Proof.
  unfold valid_genres_of. rewrite in_map_iff. split.
  - intros [[g' c] [<- Hin]]. apply filter_In in Hin as [Hin Hle].
    exists c. split; [assumption | now apply Z.leb_le].
  - intros [c [Hin Hle]]. exists (g, c). split; [reflexivity|].
    apply filter_In. split; [assumption | now apply Z.leb_le].
Qed.

Lemma count_positive (g : string) (col : list string) :
  In g col <-> 0 < count g col.
Proof.
  unfold count. induction col as [|x col IH]; simpl.
  - split; [intros [] | lia].
  - destruct (String.eqb g x) eqn:E; simpl.
    + apply String.eqb_eq in E. split; [lia | intros _; left; congruence].
    + apply String.eqb_neq in E. rewrite <- IH. split; [|tauto].
      intros [H | H]; [congruence | assumption].
Qed.

Lemma count_primary (g : string) (rows : list TaggedRecord) :
  count g (notna (map primary_genre
                    (List.filter (fun r => is_some (primary_genre r)) rows)))
  = length (List.filter (has_primary g) rows).
Proof.
  unfold count, has_primary, notna.
  induction rows as [|r rows IH]; simpl; [reflexivity|].
  destruct (primary_genre r) as [g'|] eqn:E; simpl; rewrite ?E; simpl; [|exact IH].
  destruct (String.eqb g g'); simpl; now rewrite IH.
Qed.

(** A genre passes the threshold exactly when it is the primary genre of at
    least one row and of at least [min_samples] rows. *)
Lemma in_valid_genres_in (rows : list TaggedRecord) (m : Z) (g : string) :
  In g (valid_genres_in rows m) <->
  0 < length (List.filter (has_primary g) rows) /\
  (m <= Z.of_nat (length (List.filter (has_primary g) rows)))%Z.
Proof.
  unfold valid_genres_in. rewrite in_valid_genres_of. split.
  - intros [c [Hin Hle]]. apply in_value_counts in Hin as [Hin ->].
    apply count_positive in Hin. rewrite count_primary in *. tauto.
  - intros [Hpos Hle].
    exists (length (List.filter (has_primary g) rows)). split; [|assumption].
    apply in_value_counts. rewrite count_primary. split; [|reflexivity].
    apply count_positive. now rewrite count_primary.
Qed.

Lemma isin_true_iff (values : list string) (g : string) :
  isin values (Some g) = true <-> In g values.
Proof. apply mem_true_iff. Qed.

Lemma filter_length_le {A} (p q : A -> bool) (l : list A) :
  (forall x, In x l -> p x = true -> q x = true) ->
  length (List.filter p l) <= length (List.filter q l).
Proof.
  induction l as [|x l IH]; intros H; simpl; [lia|].
  assert (IH' : length (List.filter p l) <= length (List.filter q l))
    by (apply IH; intros y Hy; apply H; now right).
  destruct (p x) eqn:E.
  - rewrite (H x (or_introl eq_refl) E). simpl. lia.
  - destruct (q x); simpl; lia.
Qed.

Lemma filter_filter_const {A} (p q : A -> bool) (b : bool) (l : list A) :
  (forall x, p x = true -> q x = b) ->
  List.filter p (List.filter q l) = if b then List.filter p l else [].
Proof.
  intros H. induction l as [|x l IH]; simpl; [now destruct b|].
  destruct (p x) eqn:E.
  - rewrite (H x E). destruct b; simpl; [now rewrite E, IH | exact IH].
  - destruct (q x); simpl; [rewrite E|]; exact IH.
Qed.

Lemma has_primary_some (g : string) (r : TaggedRecord) :
  has_primary g r = true -> primary_genre r = Some g.
Proof.
  unfold has_primary. destruct (primary_genre r) as [g'|]; [|discriminate].
  intros E. apply String.eqb_eq in E. now subst.
Qed.

Lemma tagged_of_clean_rows (rows : list TaggedRecord) (m : Z) :
  map mr_tagged (clean_rows rows m)
  = List.filter (fun r => isin (valid_genres_in rows m) (primary_genre r))
      (List.filter (fun r => is_some (primary_genre r)) rows).
Proof. unfold clean_rows. rewrite map_map. simpl. apply map_id. Qed.

(** The rows of genre [g] in the output: all of them when [g] passes the
    threshold, none otherwise. *)
Lemma genre_rows_of_clean_rows (rows : list TaggedRecord) (m : Z) (g : string) :
  List.filter (has_primary g) (map mr_tagged (clean_rows rows m))
  = if PySet.mem g (valid_genres_in rows m)
    then List.filter (has_primary g) rows else [].
Proof.
  rewrite tagged_of_clean_rows.
  rewrite filter_filter_const with (b := PySet.mem g (valid_genres_in rows m)).
  - destruct (PySet.mem g (valid_genres_in rows m)); [|reflexivity].
    now rewrite filter_filter_const with (b := true)
      by (intros r Hr; now rewrite (has_primary_some _ _ Hr)).
  - intros r Hr. now rewrite (has_primary_some _ _ Hr).
Qed.

Lemma clean_for_modelling_tagged (h : store) (l : nat) (rows : list TaggedRecord)
    (m : Z) :
  h !! l = Some (DfTagged rows) ->
  exists l' h',
    clean_for_modelling l m h = (Ret l', h') /\
    h' !! l' = Some (DfModel (clean_rows rows m)).
Proof.
  intros H.
  destruct (clean_for_modelling_run h l (DfTagged rows) _ m H eq_refl)
    as (l' & h' & Hrun & _ & Hres & _).
  exists l', h'. split; [assumption|]. now rewrite <- clean_frame_tagged.
Qed.

(* ================================================================== *)
(** * C4: the filter is monotonic in min_samples *)
(* ================================================================== *)

(** C4. For every table of Tagged Records and every pair of thresholds
    m1 <= m2, clean_for_modelling returns a table for each threshold, and
    the one for min_samples = m2 has at most as many rows as the one for
    min_samples = m1. *)
Theorem clean_for_modelling_monotonic
    (h : store) (l : nat) (rows : list TaggedRecord) (m1 m2 : Z) :
  h !! l = Some (DfTagged rows) ->
  (m1 <= m2)%Z ->
  exists l1 h1 out1 l2 h2 out2,
    clean_for_modelling l m1 h = (Ret l1, h1) /\
    h1 !! l1 = Some (DfModel out1) /\
    clean_for_modelling l m2 h = (Ret l2, h2) /\
    h2 !! l2 = Some (DfModel out2) /\
    length out2 <= length out1.
Proof.
  intros H Hle.
  destruct (clean_for_modelling_tagged h l rows m1 H) as (l1 & h1 & R1 & L1).
  destruct (clean_for_modelling_tagged h l rows m2 H) as (l2 & h2 & R2 & L2).
  exists l1, h1, (clean_rows rows m1), l2, h2, (clean_rows rows m2).
  repeat (split; [assumption|]).
  unfold clean_rows. rewrite !length_map.
  apply filter_length_le. intros r _ Hr.
  destruct (primary_genre r) as [g|]; [|discriminate].
  apply isin_true_iff. apply isin_true_iff in Hr.
  apply in_valid_genres_in. apply in_valid_genres_in in Hr. lia.
Qed.

Lemma clean_for_modelling_monotonic_witness :
  exists l1 h1 out1 l2 h2 out2,
    clean_for_modelling 0 19 sample_genre_store = (Ret l1, h1) /\
    h1 !! l1 = Some (DfModel out1) /\
    clean_for_modelling 0 20 sample_genre_store = (Ret l2, h2) /\
    h2 !! l2 = Some (DfModel out2) /\
    length out2 <= length out1.
Proof.
  apply (clean_for_modelling_monotonic sample_genre_store 0 sample_genre_rows
           19 20).
  - reflexivity.
  - lia.
Defined.

(* ================================================================== *)
(** * C9: a genre with exactly 19 rows *)
(* ================================================================== *)

(** C9. For every table of Tagged Records in which some genre is the
    primary_genre of exactly 19 rows, clean_for_modelling with
    min_samples = 20 returns a table with none of those rows, and with
    min_samples = 19 a table with all 19 of them, in their order (the
    comparison is count >= min_samples). *)
Theorem genre_with_19_rows
    (h : store) (l : nat) (rows : list TaggedRecord) (g : string) :
  h !! l = Some (DfTagged rows) ->
  length (List.filter (has_primary g) rows) = 19 ->
  exists l20 h20 out20 l19 h19 out19,
    clean_for_modelling l 20 h = (Ret l20, h20) /\
    h20 !! l20 = Some (DfModel out20) /\
    clean_for_modelling l 19 h = (Ret l19, h19) /\
    h19 !! l19 = Some (DfModel out19) /\
    List.filter (has_primary g) (map mr_tagged out20) = [] /\
    List.filter (has_primary g) (map mr_tagged out19)
    = List.filter (has_primary g) rows.
Proof.
  intros H Hcount.
  destruct (clean_for_modelling_tagged h l rows 20 H) as (l20 & h20 & R20 & L20).
  destruct (clean_for_modelling_tagged h l rows 19 H) as (l19 & h19 & R19 & L19).
  exists l20, h20, (clean_rows rows 20), l19, h19, (clean_rows rows 19).
  repeat (split; [assumption|]).
  rewrite !genre_rows_of_clean_rows. split.
  - destruct (PySet.mem g (valid_genres_in rows 20)) eqn:E; [|reflexivity].
    apply mem_true_iff, in_valid_genres_in in E. lia.
  - destruct (PySet.mem g (valid_genres_in rows 19)) eqn:E; [reflexivity|].
    apply mem_false_iff in E. exfalso. apply E.
    apply in_valid_genres_in. lia.
Qed.

Lemma genre_with_19_rows_witness :
  length (List.filter (has_primary "FPS") sample_genre_rows) = 19 /\
  exists l20 h20 out20 l19 h19 out19,
    clean_for_modelling 0 20 sample_genre_store = (Ret l20, h20) /\
    h20 !! l20 = Some (DfModel out20) /\
    clean_for_modelling 0 19 sample_genre_store = (Ret l19, h19) /\
    h19 !! l19 = Some (DfModel out19) /\
    List.filter (has_primary "FPS") (map mr_tagged out20) = [] /\
    List.filter (has_primary "FPS") (map mr_tagged out19)
    = List.filter (has_primary "FPS") sample_genre_rows.
Proof.
  split; [reflexivity|].
  apply (genre_with_19_rows sample_genre_store 0 sample_genre_rows "FPS");
    reflexivity.
Defined.

(* ================================================================== *)
(** * Properties of the chunking *)
(* ================================================================== *)

Lemma slice_step {A} (xs : list A) (i : nat) :
  slice xs i (i + 50) = firstn 50 (skipn i xs).
Proof. unfold slice. f_equal. lia. Qed.

Lemma skipn_skipn {A} (xs : list A) (i j : nat) :
  skipn i (skipn j xs) = skipn (j + i) xs.
Proof.
  revert xs. induction j as [|j IH]; intros xs; simpl; [reflexivity|].
  destruct xs as [|x xs]; [now destruct i | apply IH].
Qed.

Lemma concat_chunks {A} (k : nat) (xs : list A) :
  length xs <= 50 * k ->
  concat (map (fun i => slice xs i (i + 50)) (map (fun j => j * 50) (seq 0 k)))
  = xs.
Proof.
  revert xs. induction k as [|k IH]; intros xs Hlen.
  - destruct xs; [reflexivity | simpl in Hlen; lia].
  - rewrite <- cons_seq, <- seq_shift, !map_cons, !map_map. cbn [concat].
    rewrite slice_step. change (skipn (0 * 50) xs) with xs.
    transitivity (firstn 50 xs ++ skipn 50 xs); [|apply firstn_skipn].
    f_equal.
    rewrite <- (IH (skipn 50 xs)) by (rewrite length_skipn; lia).
    rewrite map_map. f_equal. apply map_ext. intros j.
    rewrite !slice_step, skipn_skipn. reflexivity.
Qed.

Lemma py_range_covers (n : nat) : n <= 50 * ((n + 50 - 1) / 50).
Proof.
  pose proof (Nat.div_mod_eq (n + 50 - 1) 50) as H.
  pose proof (Nat.mod_upper_bound (n + 50 - 1) 50) as H'. lia.
Qed.

Lemma py_range_in (n i : nat) : In i (py_range n 50) -> i < n.
Proof.
  unfold py_range. rewrite in_map_iff. intros [j [<- Hj]].
  apply in_seq in Hj.
  pose proof (Nat.div_mod_eq (n + 50 - 1) 50) as H.
  pose proof (Nat.mod_upper_bound (n + 50 - 1) 50) as H'. lia.
Qed.

Lemma concat_chunks_of (video_ids : list string) :
  concat (chunks_of video_ids) = video_ids.
Proof. unfold chunks_of, py_range. apply concat_chunks, py_range_covers. Qed.

Lemma chunks_of_sizes (video_ids : list string) :
  Forall (fun chunk => 1 <= length chunk <= 50) (chunks_of video_ids).
Proof.
  apply List.Forall_forall. intros chunk Hc. unfold chunks_of in Hc.
  apply in_map_iff in Hc as [i [<- Hi]]. apply py_range_in in Hi.
  rewrite slice_step, length_firstn, length_skipn. lia.
Qed.

(* ================================================================== *)
(** * Properties of the collector *)
(* ================================================================== *)

Section CollectorProperties.

Variable W : Type.
Variable search_endpoint : W -> search_params -> W * option search_response.
Variable videos_endpoint : W -> videos_params -> W * option (list video_item).
Variable py_int : string -> option Z.

Lemma videos_requests_app (a b : list event) :
  videos_requests (a ++ b) = videos_requests a ++ videos_requests b.
Proof. unfold videos_requests. apply flat_map_app. Qed.

Lemma int_or_zero_pure {S} (v : option string) (s : S) :
  exists out, int_or_zero py_int v s = (out, s) /\ out <> NoResult.
Proof.
  unfold int_or_zero. destruct v as [x|]; [destruct (py_int x)|];
    eexists; (split; [reflexivity | discriminate]).
Qed.

Lemma record_of_item_pure {S} (item : video_item) (s : S) :
  exists out, record_of_item py_int item s = (out, s) /\ out <> NoResult.
Proof.
  unfold record_of_item. destruct (vi_id item) as [vid|];
    [|eexists; split; [reflexivity | discriminate]].
  unfold bind.
  destruct (int_or_zero_pure
              (st_viewCount (default empty_statistics (vi_statistics item))) s)
    as [o1 [-> N1]].
  destruct o1 as [views| |]; [| eexists; split; [reflexivity | discriminate] | congruence].
  destruct (int_or_zero_pure
              (st_likeCount (default empty_statistics (vi_statistics item))) s)
    as [o2 [-> N2]].
  destruct o2 as [likes| |]; [| eexists; split; [reflexivity | discriminate] | congruence].
  destruct (int_or_zero_pure
              (st_commentCount (default empty_statistics (vi_statistics item))) s)
    as [o3 [-> N3]].
  destruct o3 as [comments| |]; [| eexists; split; [reflexivity | discriminate] | congruence].
  eexists; split; [reflexivity | discriminate].
Qed.

Lemma append_records_pure {S} (items : list video_item)
    (records : list VideoRecord) (s : S) :
  exists out, append_records py_int items records s = (out, s) /\ out <> NoResult.
Proof.
  revert records. induction items as [|item items IH]; intros records; simpl.
  - eexists; split; [reflexivity | discriminate].
  - unfold bind. destruct (record_of_item_pure item s) as [o [-> N]].
    destruct o as [record| |]; [apply IH | | congruence].
    eexists; split; [reflexivity | discriminate].
Qed.

(** The events of the chunk loop: its details requests are, in order, the
    requests for an initial part of the chunks, and for all of them when
    the loop runs to its end. *)
Lemma stats_loop_requests (key : string) (video_ids : list string)
    (starts : list nat) (records : list VideoRecord) (s : net W) :
  exists out s' issued rest,
    stats_loop videos_endpoint py_int key video_ids starts records s = (out, s') /\
    net_log s' = net_log s ++ issued /\
    map (fun i => request_for key (slice video_ids i (i + 50))) starts
    = videos_requests issued ++ rest /\
    (forall r, out = Ret r -> rest = []) /\
    out <> NoResult.
Proof.
  revert records s. induction starts as [|i starts IH]; intros records s.
  - exists (Ret records), s, [], []. simpl.
    rewrite app_nil_r. repeat split; auto; discriminate.
  - cbn [stats_loop map]. unfold bind at 1. unfold videos_request.
    fold (request_for key (slice video_ids i (i + 50))).
    set (p := request_for key (slice video_ids i (i + 50))).
    destruct (videos_endpoint (net_world s) p) as [w' [items|]].
    + set (s1 := {| net_api_key := net_api_key s; net_world := w';
                    net_log := net_log s ++ [EvVideos p] |}).
      unfold bind at 1.
      destruct (append_records_pure items records s1) as [o [-> N]].
      destruct o as [records'| e |]; [| | congruence].
      * unfold bind at 1, sleep, log_event.
        set (s2 := {| net_api_key := net_api_key s1; net_world := net_world s1;
                      net_log := net_log s1 ++ [EvSleep] |}).
        destruct (IH records' s2) as (out & s' & issued & rest & Hrun & Hlog & Hreq & Hall & Hno).
        exists out, s', ([EvVideos p; EvSleep] ++ issued), rest.
        split; [exact Hrun|]. split.
        { rewrite Hlog. subst s2 s1. simpl. now rewrite <- !app_assoc. }
        split; [|split; assumption].
        rewrite videos_requests_app. simpl. now rewrite Hreq.
      * exists (Raise e), s1, [EvVideos p],
          (map (fun i => request_for key (slice video_ids i (i + 50))) starts).
        repeat split; auto; discriminate.
    + eexists (Raise HTTPError), _, [EvVideos p],
        (map (fun i => request_for key (slice video_ids i (i + 50))) starts).
      repeat split; auto; discriminate.
Qed.

Lemma videos_requests_events (key : string) (chunks : list (list string)) :
  videos_requests (videos_events key chunks) = map (request_for key) chunks.
Proof.
  induction chunks as [|chunk chunks IH]; [reflexivity|].
  cbn. now rewrite <- IH.
Qed.

Lemma int_or_zero_cases {S} (v : option string) (s : S) :
  (exists z, int_or_zero py_int v s = (Ret z, s) /\ counter_ok py_int v) \/
  (int_or_zero py_int v s = (Raise ValueError, s) /\ ~ counter_ok py_int v).
Proof.
  unfold int_or_zero, counter_ok. destruct v as [x|].
  - destruct (py_int x) as [z|].
    + left. exists z. split; [reflexivity | discriminate].
    + right. split; [reflexivity | intros H; now apply H].
  - left. exists 0%Z. split; [reflexivity | exact I].
Qed.

(** A row is built from an item exactly when the item is well formed; a
    missing id raises KeyError, a counter that is no integer ValueError. *)
Lemma record_of_item_cases {S} (item : video_item) (s : S) :
  (exists r, record_of_item py_int item s = (Ret r, s) /\
             item_well_formed py_int item) \/
  (exists e, record_of_item py_int item s = (Raise e, s) /\
             (e = KeyError \/ e = ValueError) /\
             ~ item_well_formed py_int item).
Proof.
  unfold record_of_item, item_well_formed.
  destruct (vi_id item) as [vid|].
  2:{ right. exists KeyError. split; [reflexivity|].
      split; [now left | intros [H _]; now apply H]. }
  unfold bind.
  destruct (int_or_zero_cases
              (st_viewCount (default empty_statistics (vi_statistics item))) s)
    as [(views & -> & H1) | (-> & H1)].
  2:{ right. exists ValueError. split; [reflexivity|].
      split; [now right | tauto]. }
  destruct (int_or_zero_cases
              (st_likeCount (default empty_statistics (vi_statistics item))) s)
    as [(likes & -> & H2) | (-> & H2)].
  2:{ right. exists ValueError. split; [reflexivity|].
      split; [now right | tauto]. }
  destruct (int_or_zero_cases
              (st_commentCount (default empty_statistics (vi_statistics item))) s)
    as [(comments & -> & H3) | (-> & H3)].
  2:{ right. exists ValueError. split; [reflexivity|].
      split; [now right | tauto]. }
  left. eexists. split; [reflexivity|].
  split; [discriminate | tauto].
Qed.

Lemma append_records_cases {S} (items : list video_item)
    (records : list VideoRecord) (s : S) :
  (exists r, append_records py_int items records s = (Ret r, s) /\
             Forall (item_well_formed py_int) items) \/
  (exists e, append_records py_int items records s = (Raise e, s) /\
             (e = KeyError \/ e = ValueError) /\
             ~ Forall (item_well_formed py_int) items).
Proof.
  revert records. induction items as [|item items IH]; intros records; simpl.
  - left. exists records. split; [reflexivity | constructor].
  - unfold bind.
    destruct (record_of_item_cases item s)
      as [(record & -> & Hwf) | (e & -> & He & Hnwf)].
    + destruct (IH (records ++ [record]))
        as [(r & -> & Hall) | (e & -> & He & Hnall)].
      * left. exists r. split; [reflexivity | now constructor].
      * right. exists e. split; [reflexivity|]. split; [exact He|].
        intros H. apply Hnall. now inversion H.
    + right. exists e. split; [reflexivity|]. split; [exact He|].
      intros H. apply Hnwf. now inversion H.
Qed.

(** The chunk loop, whatever its outcome.  It issues the request of the
    first chunk, handles the answer, sleeps, and goes on to the next chunk.
    It comes to its end with one request and one sleep per chunk, or it
    stops at the first chunk whose request the endpoint refuses (HTTPError)
    or answers with an item that is not well formed (KeyError, ValueError):
    the request of that chunk is then the last event.  It comes to its end
    whenever the endpoint answers every request with well-formed items. *)
Lemma stats_loop_run (key : string) (video_ids : list string)
    (starts : list nat) :
  forall (records : list VideoRecord) (s : net W),
    exists out s' issued,
      stats_loop videos_endpoint py_int key video_ids starts records s
      = (out, s') /\
      net_log s' = net_log s ++ issued /\
      match out with
      | Ret _ =>
          issued
          = videos_events key (map (fun i => slice video_ids i (i + 50)) starts)
      | Raise e =>
          exists done i rest,
            starts = done ++ i :: rest /\
            issued
            = videos_events key (map (fun i => slice video_ids i (i + 50)) done)
              ++ [EvVideos (request_for key (slice video_ids i (i + 50)))] /\
            ((e = HTTPError /\
              exists w,
                videos_endpoint w (request_for key (slice video_ids i (i + 50)))
                = (net_world s', None)) \/
             ((e = KeyError \/ e = ValueError) /\
              exists w items,
                videos_endpoint w (request_for key (slice video_ids i (i + 50)))
                = (net_world s', Some items) /\
                ~ Forall (item_well_formed py_int) items))
      | NoResult => False
      end /\
      (details_responsive videos_endpoint py_int -> exists r, out = Ret r).
Proof.
  induction starts as [|i starts IH]; intros records s.
  - exists (Ret records), s, []. simpl. rewrite app_nil_r.
    repeat split; auto. intros _. now exists records.
  - cbn [stats_loop]. unfold bind at 1. unfold videos_request.
    fold (request_for key (slice video_ids i (i + 50))).
    set (p := request_for key (slice video_ids i (i + 50))).
    destruct (videos_endpoint (net_world s) p) as [w' [items|]] eqn:Hep.
    + set (s1 := {| net_api_key := net_api_key s; net_world := w';
                    net_log := net_log s ++ [EvVideos p] |}).
      unfold bind at 1.
      destruct (append_records_cases items records s1)
        as [(r & -> & Hwf) | (e & -> & He & Hnwf)].
      * unfold bind at 1, sleep, log_event.
        set (s2 := {| net_api_key := net_api_key s1; net_world := net_world s1;
                      net_log := net_log s1 ++ [EvSleep] |}).
        destruct (IH r s2) as (out & s' & issued & Hrun & Hlog & Hshape & Hlive).
        exists out, s', ([EvVideos p; EvSleep] ++ issued).
        split; [exact Hrun|]. split.
        { rewrite Hlog. subst s2 s1. simpl. now rewrite <- !app_assoc. }
        split; [|exact Hlive].
        destruct out as [r'| e |]; [| |contradiction].
        -- subst issued. reflexivity.
        -- destruct Hshape as (done & j & rest & -> & -> & Hwhy).
           exists (i :: done), j, rest.
           split; [reflexivity|]. split; [reflexivity | exact Hwhy].
      * exists (Raise e), s1, [EvVideos p].
        split; [reflexivity|]. split; [reflexivity|]. split.
        -- exists [], i, starts. split; [reflexivity|]. split; [reflexivity|].
           right. split; [exact He|]. exists (net_world s), items.
           split; [exact Hep | exact Hnwf].
        -- intros Hresp.
           destruct (Hresp (net_world s) p) as (w2 & items2 & Hep2 & Hwf2).
           rewrite Hep in Hep2. injection Hep2 as <- <-. contradiction.
    + eexists (Raise HTTPError), _, [EvVideos p].
      split; [reflexivity|]. split; [reflexivity|]. split.
      * exists [], i, starts. split; [reflexivity|]. split; [reflexivity|].
        left. split; [reflexivity|]. exists (net_world s). exact Hep.
      * intros Hresp.
        destruct (Hresp (net_world s) p) as (w2 & items2 & Hep2 & _).
        rewrite Hep in Hep2. discriminate Hep2.
Qed.

End CollectorProperties.

Lemma sample_videos_endpoint_responsive :
  details_responsive sample_videos_endpoint (fun _ => Some 12%Z).
Proof.
  intros w p. exists w, [sample_item (vp_id p)]. split; [reflexivity|].
  constructor; [|constructor].
  unfold item_well_formed, sample_item. simpl.
  repeat split; discriminate.
Qed.

(* ================================================================== *)
(** * C7: chunks of at most 50 identifiers, one request per chunk *)
(* ================================================================== *)

(** C7. For every list of identifiers, every details endpoint and every
    state in which the API key is set, youtube_get_videos_stats works
    through consecutive chunks of 1 to 50 identifiers whose concatenation
    is the list, and issues exactly one details request per chunk, in
    order, each followed by a sleep.  When the call returns a table, its
    events are the request and the sleep of every chunk and nothing else.
    When it raises, its events are those of the chunks before some chunk
    and then the request of that chunk, which the endpoint refused
    (HTTPError) or answered with an item that has no id (KeyError) or a
    counter that is no integer (ValueError).  The call always does one or
    the other, and it returns the table whenever the endpoint answers
    every request with well-formed items. *)
Theorem one_details_request_per_chunk
    (W : Type) (videos_endpoint : W -> videos_params -> W * option (list video_item))
    (py_int : string -> option Z) (s : net W) (key : string)
    (video_ids : list string) :
  net_api_key s = Some key ->
  PyStr.truthy (Some key) = true ->
  concat (chunks_of video_ids) = video_ids /\
  Forall (fun chunk => 1 <= length chunk <= 50) (chunks_of video_ids) /\
  exists out s' issued,
    youtube_get_videos_stats videos_endpoint py_int video_ids s = (out, s') /\
    net_log s' = net_log s ++ issued /\
    match out with
    | Ret _ =>
        issued = videos_events key (chunks_of video_ids) /\
        videos_requests issued = map (request_for key) (chunks_of video_ids)
    | Raise e =>
        exists done chunk rest,
          chunks_of video_ids = done ++ chunk :: rest /\
          issued = videos_events key done ++ [EvVideos (request_for key chunk)] /\
          videos_requests issued = map (request_for key) (done ++ [chunk]) /\
          ((e = HTTPError /\
            exists w,
              videos_endpoint w (request_for key chunk) = (net_world s', None)) \/
           ((e = KeyError \/ e = ValueError) /\
            exists w items,
              videos_endpoint w (request_for key chunk)
              = (net_world s', Some items) /\
              ~ Forall (item_well_formed py_int) items))
    | NoResult => False
    end /\
    (details_responsive videos_endpoint py_int -> exists df, out = Ret df).
Proof.
  intros Hkey Htruthy.
  split; [apply concat_chunks_of|]. split; [apply chunks_of_sizes|].
  unfold youtube_get_videos_stats.
  assert (Hreq : require_api_key (W := W) s = (Ret key, s)).
  { unfold require_api_key. now rewrite Hkey, Htruthy. }
  rewrite (bind_ret _ _ _ _ _ Hreq).
  destruct (stats_loop_run W videos_endpoint py_int key video_ids
              (py_range (length video_ids) 50) [] s)
    as (out & s' & issued & Hrun & Hlog & Hshape & Hlive).
  unfold bind. rewrite Hrun. unfold chunks_of.
  destruct out as [records| e |]; [| |contradiction].
  - exists (Ret (DfVideos records)), s', issued.
    split; [reflexivity|]. split; [exact Hlog|]. split.
    + split; [exact Hshape|]. rewrite Hshape. apply videos_requests_events.
    + intros _. now exists (DfVideos records).
  - exists (Raise e), s', issued.
    split; [reflexivity|]. split; [exact Hlog|]. split.
    + destruct Hshape as (done & i & rest & -> & -> & Hwhy).
      exists (map (fun i => slice video_ids i (i + 50)) done),
             (slice video_ids i (i + 50)),
             (map (fun i => slice video_ids i (i + 50)) rest).
      split; [now rewrite map_app|]. split; [reflexivity|].
      split; [|exact Hwhy].
      rewrite videos_requests_app, videos_requests_events, map_app.
      reflexivity.
    + intros Hresp. destruct (Hlive Hresp) as [r Hr]. discriminate Hr.
Qed.

(** For 120 identifiers and an endpoint that knows every video, the call
    returns after exactly three requests, one per chunk of 50, 50 and 20
    identifiers. *)
Lemma one_details_request_per_chunk_witness :
  map (@length string) (chunks_of (sample_ids 120)) = [50; 50; 20] /\
  exists df s',
    youtube_get_videos_stats sample_videos_endpoint (fun _ => Some 12%Z)
      (sample_ids 120) (sample_net 0) = (Ret df, s') /\
    net_log s' = videos_events "key" (chunks_of (sample_ids 120)) /\
    videos_requests (net_log s')
    = map (request_for "key") (chunks_of (sample_ids 120)) /\
    length (videos_requests (net_log s')) = 3.
Proof.
  split; [reflexivity|].
  destruct (one_details_request_per_chunk nat sample_videos_endpoint
              (fun _ => Some 12%Z) (sample_net 0) "key" (sample_ids 120)
              eq_refl eq_refl)
    as (_ & _ & out & s' & issued & Hrun & Hlog & Hshape & Hlive).
  destruct (Hlive sample_videos_endpoint_responsive) as [df ->].
  destruct Hshape as [Hev Hreq].
  exists df, s'. split; [exact Hrun|].
  cbn [sample_net net_log app] in Hlog. rewrite Hlog.
  split; [exact Hev|]. split; [exact Hreq|].
  rewrite Hreq, length_map. reflexivity.
Defined.

(* ================================================================== *)
(** * Properties of the search loop *)
(* ================================================================== *)

Section SearchProperties.

Variable W : Type.
Variable search_endpoint : W -> search_params -> W * option search_response.

Lemma append_video_ids_run {S} (items : list search_item) (video_ids : list string)
    (s : S) :
  (exists vs, append_video_ids items video_ids s = (Ret (video_ids ++ vs), s) /\
              length vs = length items) \/
  append_video_ids items video_ids s = (Raise KeyError, s).
Proof.
  revert video_ids. induction items as [|item items IH]; intros video_ids; simpl.
  - left. exists []. now rewrite app_nil_r.
  - destruct (si_videoId item) as [v|]; [|now right].
    destruct (IH (video_ids ++ [v])) as [[vs [Hrun Hlen]] | Hraise]; [left | now right].
    exists (v :: vs). rewrite Hrun, <- app_assoc. simpl. now rewrite Hlen.
Qed.

Lemma append_video_ids_well_formed {S} (items : list search_item)
    (video_ids : list string) (s : S) :
  Forall (fun item => si_videoId item <> None) items ->
  exists vs, append_video_ids items video_ids s = (Ret (video_ids ++ vs), s) /\
             length vs = length items.
Proof.
  intros Hall. revert video_ids.
  induction Hall as [|item items Hitem Hall IH]; intros video_ids; simpl.
  - exists []. now rewrite app_nil_r.
  - destruct (si_videoId item) as [v|]; [|congruence].
    destruct (IH (video_ids ++ [v])) as [vs [Hrun Hlen]].
    exists (v :: vs). rewrite Hrun, <- app_assoc. simpl. now rewrite Hlen.
Qed.

(** The loop never collects more than [max_results] identifiers. *)
Lemma search_loop_length (fuel : nat) (key query : string) (max_results : Z)
    (after before : option string) :
  page_bounded search_endpoint ->
  forall (video_ids : list string) (token : option string) (fetched : Z)
         (s s' : net W) (r : list string),
    Z.of_nat (length video_ids) = fetched ->
    (fetched <= max_results)%Z ->
    search_loop search_endpoint fuel key query max_results after before
      video_ids token fetched s = (Ret r, s') ->
    (Z.of_nat (length r) <= max_results)%Z.
Proof.
  intros Hpage. induction fuel as [|fuel IH];
    intros video_ids token fetched s s' r Hlen Hle Hrun; cbn [search_loop] in Hrun;
    destruct (fetched <? max_results)%Z eqn:Hlt;
    try (injection Hrun as <- _; lia); try discriminate.
  apply Z.ltb_lt in Hlt.
  unfold bind at 1 in Hrun. unfold search_request in Hrun.
  match type of Hrun with
  | context [search_endpoint (net_world s) ?p] =>
      set (params := p) in *;
      destruct (search_endpoint (net_world s) params) as [w' [data|]] eqn:Hep
  end; [|discriminate].
  apply Hpage in Hep. cbn [sp_maxResults params] in Hep.
  unfold bind at 1 in Hrun.
  match type of Hrun with
  | context [append_video_ids (sr_items data) video_ids ?s1] =>
      destruct (append_video_ids_run (sr_items data) video_ids s1)
        as [[vs [Happ Hvs]] | Happ]; rewrite Happ in Hrun
  end; [|discriminate].
  assert (Hlen' : Z.of_nat (length (video_ids ++ vs))
                  = (fetched + Z.of_nat (length (sr_items data)))%Z)
    by (rewrite length_app; lia).
  destruct (PyStr.truthy (sr_nextPageToken data)).
  - unfold bind at 1, sleep, log_event in Hrun.
    eapply IH; [exact Hlen' | lia | exact Hrun].
  - injection Hrun as <- _. lia.
Qed.

(** With a responsive endpoint the loop returns within [max_results]
    iterations. *)
Lemma search_loop_returns (key query : string) (max_results : Z)
    (after before : option string) :
  responsive search_endpoint ->
  forall (fuel : nat) (video_ids : list string) (token : option string)
         (fetched : Z) (s : net W),
    Z.to_nat (max_results - fetched) <= fuel ->
    exists r s',
      search_loop search_endpoint fuel key query max_results after before
        video_ids token fetched s = (Ret r, s').
Proof.
  intros Hresp. induction fuel as [|fuel IH];
    intros video_ids token fetched s Hfuel; cbn [search_loop];
    destruct (fetched <? max_results)%Z eqn:Hlt;
    try (eexists _, _; reflexivity).
  - apply Z.ltb_lt in Hlt. lia.
  - apply Z.ltb_lt in Hlt.
    unfold bind at 1. unfold search_request.
    match goal with
    | |- context [search_endpoint (net_world s) ?p] => set (params := p)
    end.
    destruct (Hresp (net_world s) params) as (w' & data & Hep & Hitems & Hnext).
    { cbn [sp_maxResults params]. lia. }
    rewrite Hep. unfold bind at 1.
    match goal with
    | |- context [append_video_ids (sr_items data) video_ids ?s1] =>
        destruct (append_video_ids_well_formed (sr_items data) video_ids s1 Hitems)
          as [vs [Happ Hvs]]; rewrite Happ
    end.
    destruct (PyStr.truthy (sr_nextPageToken data)) eqn:Htok;
      [|eexists _, _; reflexivity].
    unfold bind at 1, sleep, log_event.
    apply IH.
    specialize (Hnext eq_refl).
    destruct (sr_items data) as [|item items]; [congruence|].
    simpl length. lia.
Qed.

End SearchProperties.

Lemma sample_search_endpoint_bounded : page_bounded sample_search_endpoint.
Proof.
  intros served p w' data H. unfold sample_search_endpoint in H.
  destruct (sp_maxResults p <=? 0)%Z eqn:E; [discriminate|].
  apply Z.leb_gt in E. injection H as _ <-. cbn [sr_items].
  pose proof (firstn_le_length (Z.to_nat (sp_maxResults p))
                [ {| si_videoId := Some "a" |}; {| si_videoId := Some "b" |} ]).
  rewrite length_firstn. lia.
Qed.

Lemma sample_search_endpoint_responsive : responsive sample_search_endpoint.
Proof.
  intros served p Hp. unfold sample_search_endpoint.
  destruct (sp_maxResults p <=? 0)%Z eqn:E; [apply Z.leb_le in E; lia|].
  eexists _, _. split; [reflexivity|]. cbn [sr_items sr_nextPageToken].
  destruct (Z.to_nat (sp_maxResults p)) as [|[|n]] eqn:En; [lia | |];
    simpl; rewrite ?firstn_nil;
    (split; [repeat (apply List.Forall_cons; [discriminate|]); apply List.Forall_nil
            | intros _; discriminate]).
Qed.

(* ================================================================== *)
(** * C6: the result of youtube_search *)
(* ================================================================== *)

(** The loop is not entered once [fetched] has reached [max_results]. *)
Lemma search_loop_not_entered
    (W : Type) (search_endpoint : W -> search_params -> W * option search_response)
    (fuel : nat) (key query : string) (max_results : Z)
    (after before : option string) (video_ids : list string)
    (token : option string) (fetched : Z) (s : net W) :
  (max_results <= fetched)%Z ->
  search_loop search_endpoint fuel key query max_results after before
    video_ids token fetched s = (Ret video_ids, s).
Proof.
  intros Hle. apply Z.ltb_ge in Hle.
  destruct fuel; cbn [search_loop]; now rewrite Hle.
Qed.

Lemma stalling_search_endpoint_bounded : page_bounded stalling_search_endpoint.
Proof.
  intros w p w' data H. unfold stalling_search_endpoint in H.
  destruct (sp_maxResults p <=? 0)%Z eqn:E; [discriminate|].
  apply Z.leb_gt in E. injection H as _ <-. cbn [sr_items length]. lia.
Qed.

(** Against the stalling endpoint the loop makes no progress: whatever the
    number of iterations followed, it is still running. *)
Lemma search_loop_stalls (key query : string) (after before : option string)
    (fuel : nat) :
  forall (video_ids : list string) (token : option string) (s : net unit),
    exists s',
      search_loop stalling_search_endpoint fuel key query 1 after before
        video_ids token 0 s = (NoResult, s').
Proof.
  induction fuel as [|fuel IH]; intros video_ids token s; cbn [search_loop].
  - change (0 <? 1)%Z with true. cbv iota. now exists s.
  - change (0 <? 1)%Z with true. cbv iota.
    unfold bind at 1. unfold search_request.
    change (Z.min 50 (1 - 0)) with 1%Z.
    unfold stalling_search_endpoint at 1. cbn [sp_maxResults].
    change (1 <=? 0)%Z with false. cbv iota beta.
    unfold bind at 1. cbn [sr_items append_video_ids ret].
    cbn [sr_nextPageToken PyStr.truthy length Z.of_nat].
    change (0 + 0)%Z with 0%Z.
    unfold bind at 1, sleep, log_event.
    apply IH.
Qed.

(** C6, as the script behaves.  For every query and max_results, against a
    search endpoint whose pages never hold more items than requested: every
    sequence that youtube_search returns is the first-occurrence-wins
    deduplication of the identifiers it fetched, so it is duplicate-free and
    ordered by first occurrence, and its length is at most max_results
    (max_results counts results: for a value below zero, as for zero, the
    loop is not entered and the result is empty); and when the endpoint
    answers every request with well-formed items and never announces a next
    page on an empty page, the search does return, within max_results
    iterations of its loop. *)
Theorem youtube_search_result
    (W : Type) (search_endpoint : W -> search_params -> W * option search_response)
    (query : string) (max_results : Z) (published_after published_before : option string) :
  page_bounded search_endpoint ->
  (forall (fuel : nat) (s s' : net W) (ids : list string),
     youtube_search search_endpoint fuel query max_results
       published_after published_before s = (Ret ids, s') ->
     exists key fetched_ids,
       net_api_key s = Some key /\
       search_loop search_endpoint fuel key query max_results
         published_after published_before [] None 0 s = (Ret fetched_ids, s') /\
       ids = dedup fetched_ids /\
       first_occurrence_order fetched_ids ids /\
       ((0 <= max_results)%Z -> (Z.of_nat (length ids) <= max_results)%Z) /\
       ((max_results <= 0)%Z -> ids = [])) /\
  (responsive search_endpoint ->
   forall (fuel : nat) (s : net W) (key : string),
     Z.to_nat max_results <= fuel ->
     net_api_key s = Some key -> PyStr.truthy (Some key) = true ->
     exists ids s',
       youtube_search search_endpoint fuel query max_results
         published_after published_before s = (Ret ids, s')).
Proof.
  intros Hpage. split.
  - intros fuel s s' ids Hrun. unfold youtube_search in Hrun.
    unfold bind at 1 in Hrun. unfold require_api_key in Hrun.
    destruct (net_api_key s) as [key|] eqn:Hkey; [|discriminate].
    destruct (PyStr.truthy (Some key)); [|discriminate].
    unfold bind in Hrun.
    destruct (search_loop search_endpoint fuel key query max_results
                published_after published_before [] None 0 s)
      as [[fetched_ids| e |] s1] eqn:Hloop; try discriminate.
    injection Hrun as <- <-.
    exists key, fetched_ids. split; [reflexivity|]. split; [exact Hloop|].
    split; [reflexivity|]. split; [apply dedup_first_occurrence_order|].
    split.
    + intros Hmax.
      pose proof (length_dedup fetched_ids) as Hd.
      pose proof (search_loop_length W search_endpoint fuel key query max_results
                    published_after published_before Hpage [] None 0%Z s s1
                    fetched_ids eq_refl Hmax Hloop) as Hl.
      lia.
    + intros Hmax.
      rewrite (search_loop_not_entered W search_endpoint fuel key query
                 max_results published_after published_before [] None 0 s Hmax)
        in Hloop.
      injection Hloop as <- _. reflexivity.
  - intros Hresp fuel s key Hfuel Hkey Htruthy. unfold youtube_search.
    assert (Hreq : require_api_key (W := W) s = (Ret key, s)).
    { unfold require_api_key. now rewrite Hkey, Htruthy. }
    rewrite (bind_ret _ _ _ _ _ Hreq).
    destruct (search_loop_returns W search_endpoint key query max_results
                published_after published_before Hresp fuel
                [] None 0%Z s) as (r & s' & Hloop).
    { now rewrite Z.sub_0_r. }
    unfold bind. rewrite Hloop. eexists _, _. reflexivity.
Qed.

Lemma youtube_search_result_witness :
  exists ids s',
    youtube_search sample_search_endpoint 5 "game indonesia" 5
      None None (sample_net 0) = (Ret ids, s') /\
    ids = ["a"; "b"] /\
    first_occurrence_order ["a"; "b"; "a"; "b"; "a"] ids /\
    (Z.of_nat (length ids) <= 5)%Z.
Proof.
  destruct (youtube_search_result nat sample_search_endpoint "game indonesia" 5
              None None sample_search_endpoint_bounded) as [Hsafe Hlive].
  destruct (Hlive sample_search_endpoint_responsive 5 (sample_net 0) "key"
              (le_n 5) eq_refl eq_refl) as (ids & s' & Hrun).
  exists ids, s'. split; [exact Hrun|].
  destruct (Hsafe _ _ _ _ Hrun)
    as (key & fetched & _ & Hloop & Hids & Hord & Hlen & _).
  vm_compute in Hloop. injection Hloop as <- _.
  split; [exact Hids|]. split; [exact Hord|]. apply Hlen. lia.
Defined.

(** C6 fails as stated: a search need not return.  The stalling endpoint
    keeps to the precondition (an empty page never holds more items than
    requested), yet the search for one result never returns against it:
    every page is empty and announces a next page, so [fetched] stays at 0
    and the loop goes on for ever.  In the model the search is still
    running after any number of iterations, and no run of it returns. *)
Lemma youtube_search_stalls_on_empty_pages :
  page_bounded stalling_search_endpoint /\
  (forall fuel : nat,
     exists s',
       youtube_search stalling_search_endpoint fuel "game indonesia" 1
         None None (sample_net tt) = (NoResult, s')) /\
  ~ (exists (fuel : nat) (ids : list string) (s' : net unit),
       youtube_search stalling_search_endpoint fuel "game indonesia" 1
         None None (sample_net tt) = (Ret ids, s')).
Proof.
  assert (Hstall : forall fuel : nat,
            exists s',
              youtube_search stalling_search_endpoint fuel "game indonesia" 1
                None None (sample_net tt) = (NoResult, s')).
  { intros fuel. unfold youtube_search.
    rewrite (bind_ret _ _ _ _ _ (eq_refl : require_api_key (sample_net tt)
                                           = (Ret "key", sample_net tt))).
    destruct (search_loop_stalls "key" "game indonesia" None None fuel
                [] None (sample_net tt)) as [s' Hloop].
    unfold bind. rewrite Hloop. now exists s'. }
  split; [apply stalling_search_endpoint_bounded|]. split; [exact Hstall|].
  intros (fuel & ids & s' & Hrun).
  destruct (Hstall fuel) as [s'' Hno]. rewrite Hno in Hrun. discriminate Hrun.
Qed.

(* ================================================================== *)
(** * Further properties of the script *)
(* ================================================================== *)

(** The example of the specification: the title "Main Mobile Legends rank
    push" alone is tagged with the genre "MOBA" and nothing else, whatever
    the enumeration order of the set, so its primary genre is "MOBA". *)
Theorem mobile_legends_example (O : PySetOrder) :
  detect_genres_from_text O (Some "Main Mobile Legends rank push") None None
  = ["MOBA"] /\
  first_or_none
    (detect_genres_from_text O (Some "Main Mobile Legends rank push") None None)
  = Some "MOBA".
Proof.
  pose proof (detect_genres_permutation O
                (Some "Main Mobile Legends rank push") None None) as H.
  replace (matched_genres
             (searched_text (Some "Main Mobile Legends rank push") None None))
    with ["MOBA"] in H by (vm_compute; reflexivity).
  apply Permutation_length_1_inv in H. now rewrite H.
Qed.

(** X1. Matching is plain substring containment: a genre matches a text exactly
    when the text is some prefix, one of the genre's keywords in lower case,
    and some suffix.  So the keyword "ml" tags a title about HTML as
    "MOBA". *)
Theorem keyword_match_is_substring (keywords : list string) (text : string) :
  (genre_matches keywords text = true <->
   exists kw pre post,
     In kw keywords /\ text = (pre ++ PyStr.lower kw ++ post)%string) /\
  (forall O : PySetOrder,
     detect_genres_from_text O (Some "HTML tutorial") None None = ["MOBA"]).
Proof.
  split.
  - unfold genre_matches. rewrite existsb_exists. split.
    + intros [kw [Hin Hc]]. apply contains_iff in Hc as [pre [post ->]].
      now exists kw, pre, post.
    + intros (kw & pre & post & Hin & ->). exists kw. split; [assumption|].
      apply contains_iff. now exists pre, post.
  - intros O.
    pose proof (detect_genres_permutation O (Some "HTML tutorial") None None) as H.
    replace (matched_genres (searched_text (Some "HTML tutorial") None None))
      with ["MOBA"] in H by (vm_compute; reflexivity).
    now apply Permutation_length_1_inv in H.
Qed.

(** X2. Without an API key (the global unset, or set to the empty string) both
    collector functions raise RuntimeError and leave the collector state as
    it was: no request is issued. *)
Theorem collector_requires_api_key
    (W : Type) (search_endpoint : W -> search_params -> W * option search_response)
    (videos_endpoint : W -> videos_params -> W * option (list video_item))
    (py_int : string -> option Z) (s : net W)
    (fuel : nat) (query : string) (max_results : Z)
    (published_after published_before : option string)
    (video_ids : list string) :
  PyStr.truthy (net_api_key s) = false ->
  youtube_search search_endpoint fuel query max_results
    published_after published_before s = (Raise RuntimeError, s) /\
  youtube_get_videos_stats videos_endpoint py_int video_ids s
  = (Raise RuntimeError, s).
Proof.
  intros H. unfold youtube_search, youtube_get_videos_stats, bind, require_api_key.
  destruct (net_api_key s) as [k|]; [|split; reflexivity].
  rewrite H. split; reflexivity.
Qed.

Lemma collector_requires_api_key_witness :
  youtube_search sample_search_endpoint 5 "game indonesia" 200 None None
    {| net_api_key := Some ""; net_world := 0; net_log := [] |}
  = (Raise RuntimeError,
     {| net_api_key := Some ""; net_world := 0; net_log := [] |}) /\
  youtube_get_videos_stats sample_videos_endpoint (fun _ => Some 12%Z)
    (sample_ids 3)
    {| net_api_key := Some ""; net_world := 0; net_log := [] |}
  = (Raise RuntimeError,
     {| net_api_key := Some ""; net_world := 0; net_log := [] |}).
Proof.
  apply (collector_requires_api_key nat sample_search_endpoint
           sample_videos_endpoint (fun _ => Some 12%Z)
           {| net_api_key := Some ""; net_world := 0; net_log := [] |}).
  reflexivity.
Defined.

(* ================================================================== *)
(** * Case and context of a keyword match *)
(* ================================================================== *)

Lemma string_app_cons (x : ascii) (a b : string) :
  (String x a ++ b = String x (a ++ b))%string.
Proof. reflexivity. Qed.

Lemma string_app_nil_r (a : string) : (a ++ "" = a)%string.
Proof.
  induction a as [|x a IH]; [reflexivity|].
  now rewrite string_app_cons, IH.
Qed.

Lemma string_app_assoc (a b c : string) : ((a ++ b) ++ c = a ++ b ++ c)%string.
Proof.
  induction a as [|x a IH]; [reflexivity|].
  now rewrite !string_app_cons, IH.
Qed.

Lemma lower_app (a b : string) :
  PyStr.lower (a ++ b) = (PyStr.lower a ++ PyStr.lower b)%string.
Proof.
  induction a as [|x a IH]; [reflexivity|].
  rewrite string_app_cons. simpl. now rewrite IH, string_app_cons.
Qed.

Lemma lower_ascii_idempotent (c : ascii) :
  PyStr.lower_ascii (PyStr.lower_ascii c) = PyStr.lower_ascii c.
Proof. destruct c as [[] [] [] [] [] [] [] []]; reflexivity. Qed.

Lemma lower_idempotent (s : string) : PyStr.lower (PyStr.lower s) = PyStr.lower s.
Proof.
  induction s as [|c s IH]; simpl; [reflexivity|].
  now rewrite lower_ascii_idempotent, IH.
Qed.

Lemma lower_join (sep : string) (parts : list string) :
  PyStr.lower (PyStr.join sep parts)
  = PyStr.join (PyStr.lower sep) (map PyStr.lower parts).
Proof.
  induction parts as [|p [|q parts] IH]; try reflexivity.
  change (PyStr.join sep (p :: q :: parts))
    with (p ++ sep ++ PyStr.join sep (q :: parts))%string.
  rewrite !lower_app, IH. reflexivity.
Qed.

Lemma truthy_lower_field (f : option string) :
  PyStr.truthy (lower_field f) = PyStr.truthy f.
Proof. destruct f as [[|c s]|]; reflexivity. Qed.

Lemma text_parts_lower (title description tags : option string) :
  text_parts (lower_field title) (lower_field description) (lower_field tags)
  = map PyStr.lower (text_parts title description tags).
Proof.
  unfold text_parts.
  destruct title as [[|? ?]|], description as [[|? ?]|], tags as [[|? ?]|];
    reflexivity.
Qed.

Lemma searched_text_lower (title description tags : option string) :
  searched_text (lower_field title) (lower_field description) (lower_field tags)
  = searched_text title description tags.
Proof.
  unfold searched_text. rewrite text_parts_lower, !lower_join, map_map.
  f_equal. apply map_ext. intros s. apply lower_idempotent.
Qed.

Lemma join_contains_part (sep part : string) (parts : list string) :
  In part parts ->
  exists pre post, PyStr.join sep parts = (pre ++ part ++ post)%string.
Proof.
  induction parts as [|p [|q parts] IH]; intros Hin.
  - destruct Hin.
  - destruct Hin as [-> | []]. exists "", "".
    change (PyStr.join sep [part]) with part.
    change ("" ++ part ++ "")%string with (part ++ "")%string.
    now rewrite string_app_nil_r.
  - change (PyStr.join sep (p :: q :: parts))
      with (p ++ sep ++ PyStr.join sep (q :: parts))%string.
    destruct Hin as [-> | Hin].
    + exists "", (sep ++ PyStr.join sep (q :: parts))%string. reflexivity.
    + destruct (IH Hin) as (pre & post & ->).
      exists (p ++ sep ++ pre)%string, post.
      now rewrite !string_app_assoc.
Qed.

(** A keyword found in a text is found in every text that contains it. *)
Lemma contains_in_context (kw text pre post : string) :
  PyStr.contains kw text = true ->
  PyStr.contains kw (pre ++ text ++ post) = true.
Proof.
  rewrite !contains_iff. intros (a & b & ->).
  exists (pre ++ a)%string, (b ++ post)%string.
  now rewrite !string_app_assoc.
Qed.

Lemma genre_matches_in_context (keywords : list string) (text pre post : string) :
  genre_matches keywords text = true ->
  genre_matches keywords (pre ++ text ++ post) = true.
Proof.
  unfold genre_matches. rewrite !existsb_exists.
  intros (kw & Hin & Hc). exists kw. split; [assumption|].
  now apply contains_in_context.
Qed.

Lemma searched_text_contains_part (title description tags : option string)
    (part : string) :
  In part (text_parts title description tags) ->
  exists pre post,
    searched_text title description tags
    = (pre ++ PyStr.lower part ++ post)%string.
Proof.
  intros Hin. unfold searched_text.
  destruct (join_contains_part " " part _ Hin) as (pre & post & ->).
  exists (PyStr.lower pre), (PyStr.lower post). now rewrite !lower_app.
Qed.

(** A genre found in one part of the text is found in the whole text. *)
Lemma matched_in_part (title description tags : option string)
    (part g : string) :
  In part (text_parts title description tags) ->
  In g (matched_genres (PyStr.lower part)) ->
  In g (matched_genres (searched_text title description tags)).
Proof.
  intros Hin Hg.
  destruct (searched_text_contains_part _ _ _ _ Hin) as (pre & post & ->).
  apply in_matched_genres in Hg as (kws & Hk & Hm).
  apply in_matched_genres. exists kws. split; [assumption|].
  now apply genre_matches_in_context.
Qed.

Lemma in_detect_genres (O : PySetOrder) (title description tags : option string)
    (g : string) :
  In g (detect_genres_from_text O title description tags) <->
  In g (matched_genres (searched_text title description tags)).
Proof.
  pose proof (detect_genres_permutation O title description tags) as H.
  split; intros Hin.
  - eapply Permutation_in; [symmetry; exact H | exact Hin].
  - eapply Permutation_in; [exact H | exact Hin].
Qed.

Lemma searched_text_single_field (f : option string) :
  searched_text None f None = searched_text f None None /\
  searched_text None None f = searched_text f None None.
Proof. destruct f as [[|c s]|]; split; reflexivity. Qed.

Lemma detect_single_field (O : PySetOrder) (f : option string) (g : string) :
  In g (matched_genres (searched_text f None None)) ->
  exists s, f = Some s /\ PyStr.truthy f = true /\
            In g (matched_genres (PyStr.lower s)).
Proof.
  destruct f as [[|c s]|]; intros H.
  - vm_compute in H. destruct H.
  - exists (String c s). auto.
  - vm_compute in H. destruct H.
Qed.

(** X3. Matching ignores the case of the text: the result for title,
    description and tags is the result for the same fields in lower case,
    so two inputs that differ only in the case of their letters get the same
    genres. *)
Theorem detect_genres_case_insensitive
    (O : PySetOrder) (title description tags : option string) :
  detect_genres_from_text O title description tags
  = detect_genres_from_text O (lower_field title) (lower_field description)
      (lower_field tags).
Proof.
  rewrite !detect_genres_unfold, searched_text_lower, text_parts_lower.
  now destruct (text_parts title description tags).
Qed.

(** X4. More text never loses a genre: a genre detected from the title alone,
    from the description alone or from the tags alone is detected from the
    three fields together. *)
Theorem detect_genres_grows_with_fields
    (O : PySetOrder) (title description tags : option string) (g : string) :
  In g (detect_genres_from_text O title None None) \/
  In g (detect_genres_from_text O None description None) \/
  In g (detect_genres_from_text O None None tags) ->
  In g (detect_genres_from_text O title description tags).
Proof.
  rewrite !in_detect_genres. intros H.
  assert (Hpart : exists part, In part (text_parts title description tags) /\
                               In g (matched_genres (PyStr.lower part))).
  { destruct H as [H | [H | H]].
    - apply (detect_single_field O) in H as (s & -> & Ht & Hg).
      exists s. split; [|assumption]. unfold text_parts. rewrite Ht.
      now left.
    - rewrite (proj1 (searched_text_single_field description)) in H.
      apply (detect_single_field O) in H as (s & -> & Ht & Hg).
      exists s. split; [|assumption]. unfold text_parts. rewrite Ht.
      apply in_or_app. right. now left.
    - rewrite (proj2 (searched_text_single_field tags)) in H.
      apply (detect_single_field O) in H as (s & -> & Ht & Hg).
      exists s. split; [|assumption]. unfold text_parts. rewrite Ht.
      apply in_or_app. right. apply in_or_app. right. now left. }
  destruct Hpart as (part & Hin & Hg).
  now apply matched_in_part with (part := part).
Qed.

Lemma detect_genres_grows_with_fields_witness :
  In "FPS" (detect_genres_from_text insertion_order
              (Some "Main Mobile Legends rank push") (Some "hello")
              (Some "valorant|fps")).
Proof.
  apply (detect_genres_grows_with_fields insertion_order
           (Some "Main Mobile Legends rank push") (Some "hello")
           (Some "valorant|fps") "FPS").
  right. right. vm_compute. now left.
Defined.

(* ================================================================== *)
(** * Tagging and filtering again *)
(* ================================================================== *)

Lemma assign_genres_tagged (O : PySetOrder) (rows : list TaggedRecord) :
  df_assign_genres (DfTagged rows)
    (fst (genre_columns O (map tr_video rows)))
    (snd (genre_columns O (map tr_video rows)))
  = DfTagged (map (fun r => classify_row O (tr_video r)) rows).
Proof.
  rewrite genre_columns_classify. simpl. f_equal.
  induction rows as [|r rows IH]; simpl; [reflexivity|].
  now rewrite IH.
Qed.

(** X5. Tagging a table that add_primary_genre_column has returned gives a new
    table with the same rows and the same genre columns: every row is
    classified from its raw columns alone, so the columns are overwritten
    with the values they had. *)
Theorem add_primary_genre_column_twice
    (O : PySetOrder) (h : store) (l : nat) (rows : list VideoRecord) :
  h !! l = Some (DfVideos rows) ->
  exists l1 h1 l2 h2 tagged,
    add_primary_genre_column O l h = (Ret l1, h1) /\
    h1 !! l1 = Some (DfTagged tagged) /\
    add_primary_genre_column O l1 h1 = (Ret l2, h2) /\
    l2 <> l1 /\
    h2 !! l2 = Some (DfTagged tagged) /\
    h2 !! l1 = Some (DfTagged tagged).
Proof.
  intros H.
  pose proof (add_primary_genre_column_run O h l _ H) as R1.
  rewrite assign_genres_classify in R1.
  set (l1 := fresh (dom h)) in *.
  set (tagged := map (classify_row O) rows) in *.
  set (h1 := <[l1 := DfTagged tagged]> h) in *.
  assert (H1 : h1 !! l1 = Some (DfTagged tagged)) by apply lookup_insert_eq.
  pose proof (add_primary_genre_column_run O h1 l1 _ H1) as R2.
  cbn [df_video_rows] in R2. rewrite assign_genres_tagged in R2.
  replace (map (fun r => classify_row O (tr_video r)) tagged) with tagged in R2.
  2:{ subst tagged. rewrite map_map. reflexivity. }
  exists l1, h1, (fresh (dom h1)), (<[fresh (dom h1) := DfTagged tagged]> h1), tagged.
  split; [exact R1|]. split; [exact H1|]. split; [exact R2|].
  split.
  - intros E. pose proof (fresh_unused h1) as F. rewrite E in F. congruence.
  - split; [apply lookup_insert_eq | now apply insert_fresh_lookup].
Qed.

Lemma add_primary_genre_column_twice_witness :
  exists l1 h1 l2 h2 tagged,
    add_primary_genre_column insertion_order 0 sample_store = (Ret l1, h1) /\
    h1 !! l1 = Some (DfTagged tagged) /\
    add_primary_genre_column insertion_order l1 h1 = (Ret l2, h2) /\
    l2 <> l1 /\
    h2 !! l2 = Some (DfTagged tagged) /\
    h2 !! l1 = Some (DfTagged tagged).
Proof.
  apply (add_primary_genre_column_twice insertion_order sample_store 0
           sample_raw_rows).
  reflexivity.
Defined.

Lemma filter_filter_and {A} (p q : A -> bool) (l : list A) :
  List.filter p (List.filter q l) = List.filter (fun x => q x && p x) l.
Proof.
  induction l as [|x l IH]; simpl; [reflexivity|].
  destruct (q x); simpl; [destruct (p x)|]; now rewrite IH.
Qed.

Lemma filter_all {A} (p : A -> bool) (l : list A) :
  (forall x, In x l -> p x = true) -> List.filter p l = l.
Proof.
  induction l as [|x l IH]; intros H; simpl; [reflexivity|].
  rewrite (H x (or_introl eq_refl)). f_equal. apply IH.
  intros y Hy. apply H. now right.
Qed.

Lemma filter_map_comm {A B} (f : A -> B) (p : B -> bool) (l : list A) :
  List.filter p (map f l) = map f (List.filter (fun x => p (f x)) l).
Proof.
  induction l as [|x l IH]; simpl; [reflexivity|].
  destruct (p (f x)); simpl; now rewrite IH.
Qed.

Lemma map_combine_maps {A B C D} (k : B * C -> D) (f : A -> B) (g : A -> C)
    (l : list A) :
  map k (combine (map f l) (map g l)) = map (fun x => k (f x, g x)) l.
Proof. induction l as [|x l IH]; simpl; [reflexivity | now rewrite IH]. Qed.

Lemma genre_rows_nonempty (g : string) (rows : list TaggedRecord) (r : TaggedRecord) :
  In r rows -> primary_genre r = Some g ->
  0 < length (List.filter (has_primary g) rows).
Proof.
  intros Hin Hg.
  assert (Hf : In r (List.filter (has_primary g) rows)).
  { apply filter_In. split; [assumption|]. unfold has_primary.
    rewrite Hg. apply String.eqb_refl. }
  destruct (List.filter (has_primary g) rows); [destruct Hf | simpl; lia].
Qed.

(** The two selections of clean_for_modelling amount to one: keep the rows
    that pass the frequency filter. *)
Lemma clean_rows_retained (rows : list TaggedRecord) (m : Z) :
  clean_rows rows m = map model_row (List.filter (retained rows m) rows).
Proof.
  unfold clean_rows. fold model_row. f_equal.
  rewrite filter_filter_and. apply filter_ext_in. intros r Hr.
  unfold retained. destruct (primary_genre r) as [g|] eqn:Hg; [|reflexivity].
  cbn [is_some andb].
  pose proof (genre_rows_nonempty g rows r Hr Hg) as Hpos.
  apply eq_true_iff_eq. rewrite isin_true_iff, in_valid_genres_in, Z.leb_le.
  tauto.
Qed.

Lemma retained_genre_rows (rows : list TaggedRecord) (m : Z) (g : string)
    (r : TaggedRecord) :
  primary_genre r = Some g -> retained rows m r = true ->
  List.filter (has_primary g) (List.filter (retained rows m) rows)
  = List.filter (has_primary g) rows.
Proof.
  intros Hg Hr. unfold retained in Hr. rewrite Hg in Hr.
  rewrite filter_filter_const with (b := true); [reflexivity|].
  intros x Hx. unfold retained. now rewrite (has_primary_some _ _ Hx).
Qed.

Lemma retained_again (rows : list TaggedRecord) (m : Z) :
  List.filter (retained (List.filter (retained rows m) rows) m)
    (List.filter (retained rows m) rows)
  = List.filter (retained rows m) rows.
Proof.
  apply filter_all. intros r Hr. apply filter_In in Hr as [Hin Hret].
  assert (Hsome : exists g, primary_genre r = Some g).
  { unfold retained in Hret. destruct (primary_genre r) as [g|];
      [now exists g | discriminate]. }
  destruct Hsome as [g Hg].
  unfold retained at 1. rewrite Hg.
  rewrite (retained_genre_rows rows m g r Hg Hret).
  unfold retained in Hret. now rewrite Hg in Hret.
Qed.

Lemma clean_frame_model (rows : list TaggedRecord) (m : Z) :
  clean_frame (DfModel (map model_row rows)) m = DfModel (clean_rows rows m).
Proof.
  unfold clean_frame, clean_rows, valid_genres_in. simpl.
  rewrite !map_map. simpl.
  rewrite !(filter_map_comm model_row). simpl.
  rewrite !map_map. simpl. f_equal.
  etransitivity; [apply map_combine_maps | reflexivity].
Qed.

(** X6. What clean_for_modelling keeps, exactly: the rows that have a primary
    genre shared by at least min_samples rows of the table, in their order,
    each with its text column.  With a threshold of 1 or less that is every
    row with a primary genre. *)
Theorem clean_for_modelling_keeps_frequent_genres
    (h : store) (l : nat) (rows : list TaggedRecord) (min_samples : Z) :
  h !! l = Some (DfTagged rows) ->
  exists l' h',
    clean_for_modelling l min_samples h = (Ret l', h') /\
    h' !! l'
    = Some (DfModel (map model_row (List.filter (retained rows min_samples) rows))) /\
    ((min_samples <= 1)%Z ->
     List.filter (retained rows min_samples) rows
     = List.filter (fun r => is_some (primary_genre r)) rows).
Proof.
  intros H.
  destruct (clean_for_modelling_tagged h l rows min_samples H)
    as (l' & h' & Hrun & Hres).
  exists l', h'. split; [exact Hrun|].
  split; [now rewrite <- clean_rows_retained|].
  intros Hm. apply filter_ext_in. intros r Hr. unfold retained.
  destruct (primary_genre r) as [g|] eqn:Hg; [|reflexivity].
  pose proof (genre_rows_nonempty g rows r Hr Hg). simpl.
  apply Z.leb_le. lia.
Qed.

Lemma clean_for_modelling_keeps_frequent_genres_witness :
  exists l' h',
    clean_for_modelling 0 20 sample_genre_store = (Ret l', h') /\
    h' !! l'
    = Some (DfModel (map model_row
                       (repeat (sample_tagged "y" (Some "MOBA")) 25))).
Proof.
  destruct (clean_for_modelling_keeps_frequent_genres sample_genre_store 0
              sample_genre_rows 20 eq_refl) as (l' & h' & Hrun & Hres & _).
  exists l', h'. split; [exact Hrun | exact Hres].
Defined.

(** X7. Filtering a table that clean_for_modelling has returned, with the same
    threshold, gives a new table with the same contents: every genre that
    passed keeps all of its rows, so it passes again. *)
Theorem clean_for_modelling_twice
    (h : store) (l : nat) (rows : list TaggedRecord) (min_samples : Z) :
  h !! l = Some (DfTagged rows) ->
  exists l1 h1 l2 h2 out,
    clean_for_modelling l min_samples h = (Ret l1, h1) /\
    h1 !! l1 = Some (DfModel out) /\
    clean_for_modelling l1 min_samples h1 = (Ret l2, h2) /\
    h2 !! l2 = Some (DfModel out) /\
    h2 !! l1 = Some (DfModel out).
Proof.
  intros H.
  destruct (clean_for_modelling_tagged h l rows min_samples H)
    as (l1 & h1 & R1 & H1).
  destruct (clean_for_modelling_run h1 l1 _ _ min_samples H1 eq_refl)
    as (l2 & h2 & R2 & _ & H2 & Hext).
  exists l1, h1, l2, h2, (clean_rows rows min_samples).
  split; [exact R1|]. split; [exact H1|]. split; [exact R2|].
  split; [|now apply Hext].
  rewrite H2. f_equal.
  rewrite (clean_rows_retained rows), clean_frame_model, clean_rows_retained.
  now rewrite retained_again.
Qed.

Lemma clean_for_modelling_twice_witness :
  exists l1 h1 l2 h2 out,
    clean_for_modelling 0 20 sample_genre_store = (Ret l1, h1) /\
    h1 !! l1 = Some (DfModel out) /\
    clean_for_modelling l1 20 h1 = (Ret l2, h2) /\
    h2 !! l2 = Some (DfModel out) /\
    h2 !! l1 = Some (DfModel out).
Proof.
  apply (clean_for_modelling_twice sample_genre_store 0 sample_genre_rows 20).
  reflexivity.
Defined.

(* ================================================================== *)
(** * The requests of the collector *)
(* ================================================================== *)

Section CollectorRequests.

Variable W : Type.
Variable search_endpoint : W -> search_params -> W * option search_response.
Variable videos_endpoint : W -> videos_params -> W * option (list video_item).
Variable py_int : string -> option Z.

Lemma append_video_ids_pure {S} (items : list search_item)
    (video_ids : list string) (s : S) :
  exists out, append_video_ids items video_ids s = (out, s) /\ out <> NoResult.
Proof.
  destruct (append_video_ids_run items video_ids s) as [[vs [H _]] | H];
    rewrite H; eexists; (split; [reflexivity | discriminate]).
Qed.

Lemma if_truthy_truthy (v : option string) :
  PyStr.truthy v = true -> if_truthy v = v /\ PyStr.truthy (if_truthy v) = true.
Proof. intros H. unfold if_truthy. now rewrite H. Qed.

(** The events of the page loop: a sleep after every request, except
    possibly the last one; every request is well formed; the first one
    continues from the given token and the later ones carry a token. *)
Lemma search_loop_events (key query : string) (max_results : Z)
    (after before : option string) (fuel : nat) :
  forall (video_ids : list string) (token : option string) (fetched : Z)
         (s : net W),
    (0 <= fetched)%Z ->
    exists out s' ps issued,
      search_loop search_endpoint fuel key query max_results after before
        video_ids token fetched s = (out, s') /\
      net_api_key s' = net_api_key s /\
      Forall (search_request_ok key query max_results after before) ps /\
      (forall p, head ps = Some p -> sp_pageToken p = if_truthy token) /\
      Forall (fun p => PyStr.truthy (sp_pageToken p) = true) (tail ps) /\
      net_log s' = net_log s ++ issued /\
      (issued = paced_searches ps \/ issued ++ [EvSleep] = paced_searches ps).
Proof.
  induction fuel as [|fuel IH]; intros video_ids token fetched s Hpos;
    cbn [search_loop]; destruct (fetched <? max_results)%Z eqn:Hlt.
  - exists NoResult, s, [], []. rewrite app_nil_r.
    repeat split; auto; discriminate.
  - exists (Ret video_ids), s, [], []. rewrite app_nil_r.
    repeat split; auto; discriminate.
  - apply Z.ltb_lt in Hlt.
    unfold bind at 1. unfold search_request.
    match goal with
    | |- context [search_endpoint (net_world s) ?q] => set (p := q)
    end.
    assert (Hok : search_request_ok key query max_results after before p).
    { unfold search_request_ok. subst p. cbn. repeat split; auto; lia. }
    assert (Hhd : forall q, head [p] = Some q -> sp_pageToken q = if_truthy token).
    { intros q Hq. injection Hq as <-. reflexivity. }
    destruct (search_endpoint (net_world s) p) as [w' [data|]].
    2:{ eexists (Raise HTTPError), _, [p], [EvSearch p]. split; [reflexivity|].
        repeat split; auto. }
    set (s1 := {| net_api_key := net_api_key s; net_world := w';
                  net_log := net_log s ++ [EvSearch p] |}).
    unfold bind at 1.
    destruct (append_video_ids_pure (sr_items data) video_ids s1) as [o [-> N]].
    destruct o as [video_ids'| e |]; [| | congruence].
    2:{ exists (Raise e), s1, [p], [EvSearch p]. split; [reflexivity|].
        repeat split; auto. }
    destruct (PyStr.truthy (sr_nextPageToken data)) eqn:Htok.
    2:{ exists (Ret video_ids'), s1, [p], [EvSearch p]. split; [reflexivity|].
        repeat split; auto. }
    unfold bind at 1, sleep, log_event.
    set (s2 := {| net_api_key := net_api_key s1; net_world := net_world s1;
                  net_log := net_log s1 ++ [EvSleep] |}).
    destruct (IH video_ids' (sr_nextPageToken data)
                (fetched + Z.of_nat (length (sr_items data)))%Z s2)
      as (out & s' & ps & issued & Hrun & Hkey & Hall & Hhead & Htail & Hlog & Hshape);
      [lia|].
    exists out, s', (p :: ps), ([EvSearch p; EvSleep] ++ issued).
    split; [exact Hrun|].
    split; [exact Hkey|]. split; [now constructor|].
    split; [intros q Hq; injection Hq as <-; reflexivity|].
    split.
    { cbn [tail]. destruct ps as [|p' ps']; [constructor|].
      constructor; [|exact Htail].
      rewrite (Hhead p' eq_refl). now apply if_truthy_truthy. }
    split.
    { rewrite Hlog. subst s2 s1. cbn [net_log]. now rewrite <- !app_assoc. }
    destruct Hshape as [-> | Hshape]; [now left | right].
    cbn. cbn in Hshape. now rewrite Hshape.
  - exists (Ret video_ids), s, [], []. rewrite app_nil_r.
    repeat split; auto; discriminate.
Qed.

Lemma youtube_search_events (fuel : nat) (query : string) (max_results : Z)
    (after before : option string) (s : net W) :
  exists out s' ps issued,
    youtube_search search_endpoint fuel query max_results after before s
    = (out, s') /\
    net_api_key s' = net_api_key s /\
    Forall (fun p => net_api_key s = Some (sp_key p) /\
                     search_request_ok (sp_key p) query max_results
                       after before p) ps /\
    (forall p, head ps = Some p -> sp_pageToken p = None) /\
    Forall (fun p => PyStr.truthy (sp_pageToken p) = true) (tail ps) /\
    net_log s' = net_log s ++ issued /\
    (issued = paced_searches ps \/ issued ++ [EvSleep] = paced_searches ps).
Proof.
  unfold youtube_search, bind at 1, require_api_key.
  destruct (net_api_key s) as [key|] eqn:Hkey.
  2:{ exists (Raise RuntimeError), s, [], []. rewrite Hkey, app_nil_r.
      repeat split; auto; discriminate. }
  destruct (PyStr.truthy (Some key)).
  2:{ exists (Raise RuntimeError), s, [], []. rewrite Hkey, app_nil_r.
      repeat split; auto; discriminate. }
  destruct (search_loop_events key query max_results after before fuel
              [] None 0%Z s)
    as (out & s' & ps & issued & Hrun & Hk & Hall & Hhead & Htail & Hlog & Hshape);
    [lia|].
  unfold bind. rewrite Hrun.
  assert (Hall' : Forall (fun p => Some key = Some (sp_key p) /\
                      search_request_ok (sp_key p) query max_results
                        after before p) ps).
  { eapply Forall_impl; [|exact Hall]. intros p Hp.
    pose proof Hp as [Hpk _]. rewrite Hpk. auto. }
  destruct out as [video_ids| e |].
  - exists (Ret (dedup video_ids)), s', ps, issued. rewrite Hk, Hkey. auto 10.
  - exists (Raise e), s', ps, issued. rewrite Hk, Hkey. auto 10.
  - exists NoResult, s', ps, issued. rewrite Hk, Hkey. auto 10.
Qed.

End CollectorRequests.

(** X8. Every request of youtube_search is well formed: it bears the API key
    and the query, asks for 1 to 50 results and never for more than
    max_results, ranks by view count in region ID, and passes the time
    window as given.  The first request carries no page token and every
    later one does.  The events of a search are its requests with one
    sleep after each of them, except possibly the last. *)
Theorem youtube_search_requests
    (W : Type) (search_endpoint : W -> search_params -> W * option search_response)
    (fuel : nat) (query : string) (max_results : Z)
    (published_after published_before : option string) (s : net W) :
  exists out s' ps issued,
    youtube_search search_endpoint fuel query max_results
      published_after published_before s = (out, s') /\
    net_api_key s' = net_api_key s /\
    Forall (fun p => net_api_key s = Some (sp_key p) /\
                     search_request_ok (sp_key p) query max_results
                       published_after published_before p) ps /\
    (forall p, head ps = Some p -> sp_pageToken p = None) /\
    Forall (fun p => PyStr.truthy (sp_pageToken p) = true) (tail ps) /\
    net_log s' = net_log s ++ issued /\
    (issued = paced_searches ps \/ issued ++ [EvSleep] = paced_searches ps).
Proof. apply youtube_search_events. Qed.

Section DetailProperties.

Variable W : Type.
Variable videos_endpoint : W -> videos_params -> W * option (list video_item).
Variable py_int : string -> option Z.

Lemma record_of_item_tags {S} (item : video_item) (s s' : S) (r : VideoRecord) :
  record_of_item py_int item s = (Ret r, s') ->
  tags r
  = Some (tags_joined (sn_tags (default empty_snippet (vi_snippet item)))).
Proof.
  unfold record_of_item. destruct (vi_id item) as [vid|]; [|discriminate].
  unfold bind.
  destruct (int_or_zero_pure py_int
              (st_viewCount (default empty_statistics (vi_statistics item))) s)
    as [o1 [-> _]].
  destruct o1 as [views| |]; try discriminate.
  destruct (int_or_zero_pure py_int
              (st_likeCount (default empty_statistics (vi_statistics item))) s)
    as [o2 [-> _]].
  destruct o2 as [likes| |]; try discriminate.
  destruct (int_or_zero_pure py_int
              (st_commentCount (default empty_statistics (vi_statistics item))) s)
    as [o3 [-> _]].
  destruct o3 as [comments| |]; try discriminate.
  intros H. injection H as <- _. reflexivity.
Qed.

Lemma append_records_tags {S} (items : list video_item)
    (records records' : list VideoRecord) (s s' : S) :
  append_records py_int items records s = (Ret records', s') ->
  Forall (fun r => tags r <> None) records ->
  Forall (fun r => tags r <> None) records'.
Proof.
  revert records. induction items as [|item items IH]; intros records; simpl.
  - intros H Hall. now injection H as <- _.
  - unfold bind. destruct (record_of_item_pure py_int item s) as [o [Ho N]].
    rewrite Ho. destruct o as [record| |]; try discriminate.
    intros H Hall. apply (IH _ H).
    apply Forall_app. split; [assumption|].
    constructor; [|constructor].
    rewrite (record_of_item_tags item s s record Ho). discriminate.
Qed.

(** The chunk loop, when it runs to its end: one request and one sleep per
    chunk, and no row without a tags string. *)
Lemma stats_loop_events (key : string) (video_ids : list string)
    (starts : list nat) :
  forall (records r : list VideoRecord) (s s' : net W),
    stats_loop videos_endpoint py_int key video_ids starts records s
    = (Ret r, s') ->
    net_api_key s' = net_api_key s /\
    net_log s'
    = net_log s
      ++ videos_events key (map (fun i => slice video_ids i (i + 50)) starts) /\
    (Forall (fun x => tags x <> None) records ->
     Forall (fun x => tags x <> None) r).
Proof.
  induction starts as [|i starts IH]; intros records r s s' Hrun.
  - simpl in Hrun. injection Hrun as <- <-. simpl. now rewrite app_nil_r.
  - cbn [stats_loop] in Hrun. unfold bind at 1 in Hrun.
    unfold videos_request in Hrun.
    fold (request_for key (slice video_ids i (i + 50))) in Hrun.
    set (p := request_for key (slice video_ids i (i + 50))) in *.
    destruct (videos_endpoint (net_world s) p) as [w' [items|]]; [|discriminate].
    unfold bind at 1 in Hrun.
    match type of Hrun with
    | context [append_records py_int items records ?s1] =>
        destruct (append_records_pure py_int items records s1) as [o [Ho N]];
        rewrite Ho in Hrun
    end.
    destruct o as [records'| |]; try discriminate.
    unfold bind at 1, sleep, log_event in Hrun.
    apply IH in Hrun as (Hkey & Hlog & Htags).
    split; [exact Hkey|]. split.
    + rewrite Hlog. cbn [net_log map videos_events flat_map].
      fold p. unfold videos_events. now rewrite <- !app_assoc.
    + intros Hall. apply Htags. eapply append_records_tags; eassumption.
Qed.

(** Whatever the outcome, the chunk loop only issues detail requests that
    bear the key, and sleeps. *)
Lemma stats_loop_bears_key (key : string) (video_ids : list string)
    (starts : list nat) :
  forall (records : list VideoRecord) (s : net W),
    exists out s' issued,
      stats_loop videos_endpoint py_int key video_ids starts records s
      = (out, s') /\
      net_api_key s' = net_api_key s /\
      net_log s' = net_log s ++ issued /\
      search_requests issued = [] /\
      Forall (event_bears_key key) issued.
Proof.
  induction starts as [|i starts IH]; intros records s.
  - exists (Ret records), s, []. simpl. rewrite app_nil_r. auto.
  - cbn [stats_loop]. unfold bind at 1. unfold videos_request.
    fold (request_for key (slice video_ids i (i + 50))).
    set (p := request_for key (slice video_ids i (i + 50))).
    destruct (videos_endpoint (net_world s) p) as [w' [items|]].
    2:{ eexists _, _, [EvVideos p]. split; [reflexivity|].
        repeat split; auto. repeat constructor. }
    unfold bind at 1.
    match goal with
    | |- context [append_records py_int items records ?s1] =>
        destruct (append_records_pure py_int items records s1) as [o [-> N]]
    end.
    destruct o as [records'| e |]; [| | congruence].
    2:{ eexists _, _, [EvVideos p]. split; [reflexivity|].
        repeat split; auto. repeat constructor. }
    unfold bind at 1, sleep, log_event.
    match goal with
    | |- context [stats_loop _ _ _ _ _ _ ?s2] =>
        destruct (IH records' s2)
          as (out & s' & issued & Hrun & Hkey & Hlog & Hs & Hall)
    end.
    exists out, s', ([EvVideos p; EvSleep] ++ issued).
    split; [exact Hrun|]. split; [exact Hkey|]. split.
    + rewrite Hlog. cbn [net_log]. now rewrite <- !app_assoc.
    + split; [exact Hs|]. repeat constructor. exact Hall.
Qed.

End DetailProperties.

(** X9. When youtube_get_videos_stats returns, it has issued exactly one
    request and one sleep per chunk (a sleep follows the last chunk too),
    the result is a table of Video Records in which no row lacks its tags
    string, and for an empty list of identifiers the table is empty and
    nothing was requested. *)
Theorem youtube_get_videos_stats_events
    (W : Type) (videos_endpoint : W -> videos_params -> W * option (list video_item))
    (py_int : string -> option Z) (s s' : net W) (key : string)
    (video_ids : list string) (df : DataFrame) :
  net_api_key s = Some key ->
  youtube_get_videos_stats videos_endpoint py_int video_ids s = (Ret df, s') ->
  net_log s' = net_log s ++ videos_events key (chunks_of video_ids) /\
  (exists records,
     df = DfVideos records /\ Forall (fun r => tags r <> None) records) /\
  (video_ids = [] -> df = DfVideos [] /\ s' = s).
Proof.
  intros Hkey Hrun. unfold youtube_get_videos_stats in Hrun.
  unfold bind at 1 in Hrun. unfold require_api_key in Hrun. rewrite Hkey in Hrun.
  destruct (PyStr.truthy (Some key)); [|discriminate].
  unfold bind in Hrun.
  destruct (stats_loop videos_endpoint py_int key video_ids
              (py_range (length video_ids) 50) [] s)
    as [[records| |] s1] eqn:Hloop; try discriminate.
  injection Hrun as <- <-.
  pose proof (stats_loop_events W videos_endpoint py_int key video_ids _ _ _ _ _ Hloop)
    as (_ & Hlog & Htags).
  split; [exact Hlog|]. split.
  - exists records. split; [reflexivity | apply Htags; constructor].
  - intros ->. simpl in Hloop. now injection Hloop as <- <-.
Qed.

Lemma youtube_get_videos_stats_events_witness :
  exists df s',
    youtube_get_videos_stats sample_videos_endpoint (fun _ => Some 12%Z)
      (sample_ids 120) (sample_net 0) = (Ret df, s') /\
    net_log s' = [] ++ videos_events "key" (chunks_of (sample_ids 120)) /\
    length (net_log s') = 6 /\
    exists records,
      df = DfVideos records /\ Forall (fun r => tags r <> None) records.
Proof.
  destruct (youtube_get_videos_stats sample_videos_endpoint (fun _ => Some 12%Z)
              (sample_ids 120) (sample_net 0)) as [out s'] eqn:Hrun.
  assert (Hout : exists df, out = Ret df).
  { vm_compute in Hrun. injection Hrun as <- _. now eexists. }
  destruct Hout as [df ->]. exists df, s'. split; [reflexivity|].
  destruct (youtube_get_videos_stats_events nat sample_videos_endpoint
              (fun _ => Some 12%Z) (sample_net 0) s' "key" (sample_ids 120) df
              eq_refl Hrun) as (Hlog & Hrec & _).
  split; [exact Hlog|]. split; [|exact Hrec].
  change (net_log (sample_net 0)) with (@nil event) in Hlog.
  rewrite Hlog. reflexivity.
Defined.

Lemma keywords_plain_true : keywords_plain = true.
Proof. vm_compute. reflexivity. Qed.

Lemma keyword_nonempty_lower (g kw : string) (kws : list string) :
  In (g, kws) GENRE_KEYWORDS -> In kw kws ->
  kw <> "" /\ PyStr.lower kw = kw.
Proof.
  intros Hg Hkw. pose proof keywords_plain_true as H. unfold keywords_plain in H.
  rewrite forallb_forall in H. specialize (H _ Hg). cbn [snd] in H.
  rewrite forallb_forall in H. specialize (H _ Hkw).
  apply andb_true_iff in H as [H1 H2].
  apply negb_true_iff, String.eqb_neq in H1. apply String.eqb_eq in H2. auto.
Qed.

Lemma contains_empty_text (kw : string) :
  PyStr.contains kw "" = true -> kw = "".
Proof. destruct kw; [reflexivity | discriminate]. Qed.

(** X10. From the endpoint to the genre: when a details item lists a tag that
    contains a keyword of a genre (in any case), the row built from the item
    is classified with that genre, whatever its title and description. *)
Theorem tag_keyword_gives_genre
    (py_int : string -> option Z) (O : PySetOrder) (S : Type) (s s' : S)
    (item : video_item) (sn : snippet) (r : VideoRecord)
    (tag_list kws : list string) (tag g kw : string) :
  record_of_item py_int item s = (Ret r, s') ->
  vi_snippet item = Some sn ->
  sn_tags sn = Some (TagList tag_list) ->
  In tag tag_list ->
  In (g, kws) GENRE_KEYWORDS -> In kw kws ->
  PyStr.contains kw (PyStr.lower tag) = true ->
  In g (genres_list (classify_row O r)).
Proof.
  intros Hrec Hsn Htags Htag Hg Hkw Hc.
  apply record_of_item_tags in Hrec. rewrite Hsn in Hrec. simpl in Hrec.
  rewrite Htags in Hrec. cbn [tags_joined] in Hrec.
  destruct (keyword_nonempty_lower g kw kws Hg Hkw) as [Hne Hlow].
  destruct (join_contains_part "|" tag tag_list Htag) as (pre & post & Hjoin).
  assert (Hm : genre_matches kws (PyStr.lower (PyStr.join "|" tag_list)) = true).
  { unfold genre_matches. apply existsb_exists. exists kw. split; [assumption|].
    rewrite Hlow, Hjoin, !lower_app. now apply contains_in_context. }
  assert (Hpart : In (PyStr.join "|" tag_list)
                     (text_parts (title r) (description r) (tags r))).
  { rewrite Hrec. unfold text_parts.
    destruct (PyStr.join "|" tag_list) as [|c rest] eqn:E.
    - exfalso. unfold genre_matches in Hm. apply existsb_exists in Hm as (k & Hk & Hk').
      apply contains_empty_text in Hk'.
      destruct (keyword_nonempty_lower g k kws Hg Hk) as [Hkne Hklow]. congruence.
    - cbn [PyStr.truthy]. apply in_or_app. right. apply in_or_app. right. now left. }
  cbn [classify_row genres_list]. apply in_detect_genres.
  apply matched_in_part with (part := PyStr.join "|" tag_list); [exact Hpart|].
  apply in_matched_genres. now exists kws.
Qed.

Lemma tag_keyword_gives_genre_witness :
  exists r,
    record_of_item (fun _ => Some 12%Z) (sample_item "abc") tt = (Ret r, tt) /\
    In "FPS" (genres_list (classify_row insertion_order r)).
Proof.
  eexists. split; [reflexivity|].
  eapply (tag_keyword_gives_genre (fun _ => Some 12%Z) insertion_order unit tt tt
            (sample_item "abc") _ _ ["Gameplay"; "VALORANT ID"] _
            "VALORANT ID" "FPS" "valorant" eq_refl eq_refl eq_refl).
  - right. now left.
  - right. left. reflexivity.
  - now left.
  - reflexivity.
Defined.

(* ================================================================== *)
(** * The credential and the pipeline *)
(* ================================================================== *)

Section SearchStage.

Variable W : Type.
Variable search_endpoint : W -> search_params -> W * option search_response.
Variable published_after published_before : string.

Lemma paced_searches_forall (P : event -> Prop) (Q : search_params -> Prop)
    (ps : list search_params) (issued : list event) :
  Forall Q ps -> (forall p, Q p -> P (EvSearch p)) -> P EvSleep ->
  issued = paced_searches ps \/ issued ++ [EvSleep] = paced_searches ps ->
  Forall P issued.
Proof.
  intros Hall Himp Hsleep Hshape.
  assert (Hpaced : Forall P (paced_searches ps)).
  { clear Hshape. induction Hall as [|p ps Hp Hall IH]; [constructor|].
    cbn. constructor; [now apply Himp|]. constructor; assumption. }
  destruct Hshape as [-> | Hshape]; [assumption|].
  rewrite <- Hshape in Hpaced. apply Forall_app in Hpaced. tauto.
Qed.

(** The search stage: only sleeps and well-formed requests for the given
    queries, bearing the API key. *)
Lemma search_all_events (fuel : nat) (queries : list string) :
  forall (all_video_ids : list string) (s : net W),
    exists out s' issued,
      search_all search_endpoint published_after published_before
        fuel queries all_video_ids s = (out, s') /\
      net_api_key s' = net_api_key s /\
      net_log s' = net_log s ++ issued /\
      Forall
        (fun e =>
           match e with
           | EvSearch p =>
               net_api_key s = Some (sp_key p) /\ In (sp_q p) queries /\
               search_request_ok (sp_key p) (sp_q p) 200
                 (Some published_after) (Some published_before) p
           | EvSleep => True
           | EvVideos _ => False
           end) issued.
Proof.
  induction queries as [|q queries IH]; intros all_video_ids s.
  - exists (Ret all_video_ids), s, []. simpl. rewrite app_nil_r. auto.
  - cbn [search_all]. unfold bind at 1.
    destruct (youtube_search_events W search_endpoint fuel q 200
                (Some published_after) (Some published_before) s)
      as (out & s1 & ps & issued & Hrun & Hkey & Hall & _ & _ & Hlog & Hshape).
    rewrite Hrun.
    assert (Hissued :
      Forall
        (fun e =>
           match e with
           | EvSearch p =>
               net_api_key s = Some (sp_key p) /\ In (sp_q p) (q :: queries) /\
               search_request_ok (sp_key p) (sp_q p) 200
                 (Some published_after) (Some published_before) p
           | EvSleep => True
           | EvVideos _ => False
           end) issued).
    { eapply paced_searches_forall; [exact Hall | | exact I | exact Hshape].
      intros p [Hk Hok]. pose proof Hok as (_ & _ & _ & Hq & _).
      rewrite Hq. split; [assumption|]. split; [now left | assumption]. }
    destruct out as [vids| e |].
    + destruct (IH (all_video_ids ++ vids) s1)
        as (out2 & s2 & issued2 & Hrun2 & Hkey2 & Hlog2 & Hall2).
      exists out2, s2, (issued ++ issued2).
      split; [exact Hrun2|]. split; [congruence|].
      split; [rewrite Hlog2, Hlog; now rewrite <- app_assoc|].
      apply Forall_app. split; [exact Hissued|].
      eapply Forall_impl; [|exact Hall2].
      intros [p| |]; auto. rewrite Hkey. intros (H1 & H2 & H3).
      split; [assumption|]. split; [now right | assumption].
    + exists (Raise e), s1, issued. auto.
    + exists NoResult, s1, issued. auto.
Qed.

End SearchStage.


Section PipelineProperties.

Variable W : Type.
Variable search_endpoint : W -> search_params -> W * option search_response.
Variable videos_endpoint : W -> videos_params -> W * option (list video_item).
Variable py_int : string -> option Z.
Variable O : PySetOrder.
Variable published_after published_before : string.

Lemma lift_net_run {A} (c : M (net W) A) (s : pipeline W) (out : outcome A)
    (n : net W) :
  c (pl_net s) = (out, n) -> lift_net c s = (out, with_net s n).
Proof. intros H. unfold lift_net. now rewrite H. Qed.




(** The detail stage, whatever its outcome. *)
Lemma youtube_get_videos_stats_any (video_ids : list string) (s : net W) :
  exists out s' issued rest,
    youtube_get_videos_stats videos_endpoint py_int video_ids s = (out, s') /\
    net_api_key s' = net_api_key s /\
    net_log s' = net_log s ++ issued /\
    search_requests issued = [] /\
    (forall key, net_api_key s = Some key ->
       Forall (event_bears_key key) issued /\
       map (request_for key) (chunks_of video_ids)
       = videos_requests issued ++ rest) /\
    (forall df, out = Ret df ->
       exists records, df = DfVideos records /\
                       Forall (fun r => tags r <> None) records).
Proof.
  unfold youtube_get_videos_stats, bind at 1, require_api_key.
  destruct (net_api_key s) as [key|] eqn:Hkey.
  2:{ exists (Raise RuntimeError), s, [], []. rewrite app_nil_r.
      repeat split; auto; try discriminate. }
  destruct (PyStr.truthy (Some key)).
  2:{ exists (Raise RuntimeError), s, [],
        (map (request_for key) (chunks_of video_ids)).
      rewrite app_nil_r. repeat split; auto; try discriminate.
      injection H as <-. reflexivity. }
  destruct (stats_loop_requests W videos_endpoint py_int key video_ids
              (py_range (length video_ids) 50) [] s)
    as (out & s' & issued & rest & Hrun & Hlog & Hmap & _ & _).
  destruct (stats_loop_bears_key W videos_endpoint py_int key video_ids
              (py_range (length video_ids) 50) [] s)
    as (out' & s'' & issued' & Hrun' & Hk & Hlog' & Hs & Hbears).
  rewrite Hrun in Hrun'. injection Hrun' as <- <-.
  rewrite Hlog in Hlog'. apply app_inv_head in Hlog'. subst issued'.
  unfold bind. rewrite Hrun. rewrite Hkey in Hk.
  assert (Hfacts : forall key0, Some key = Some key0 ->
            Forall (event_bears_key key0) issued /\
            map (request_for key0) (chunks_of video_ids)
            = videos_requests issued ++ rest).
  { intros key0 E. injection E as <-. split; [exact Hbears|].
    unfold chunks_of. now rewrite map_map. }
  destruct out as [records| e |].
  - exists (Ret (DfVideos records)), s', issued, rest.
    repeat split; auto; try apply Hfacts; auto.
    intros df E. injection E as <-. exists records. split; [reflexivity|].
    apply (stats_loop_events W videos_endpoint py_int key video_ids _ _ _ _ _ Hrun).
    constructor.
  - exists (Raise e), s', issued, rest.
    repeat split; auto; try apply Hfacts; auto. discriminate.
  - exists NoResult, s', issued, rest.
    repeat split; auto; try apply Hfacts; auto. discriminate.
Qed.

End PipelineProperties.

Lemma keeps_net_bind {W A B} (c : M (pipeline W) A) (k : A -> M (pipeline W) B) :
  keeps_net c -> (forall a, keeps_net (k a)) -> keeps_net (bind c k).
Proof.
  intros Hc Hk s. unfold bind. specialize (Hc s).
  destruct (c s) as [[a| e |] s1]; simpl in *; [|assumption|assumption].
  now rewrite Hk.
Qed.

Lemma keeps_net_lift_store {W A} (c : M store A) :
  keeps_net (W := W) (lift_store c).
Proof. intros s. unfold lift_store. now destruct (c (pl_store s)). Qed.

Lemma keeps_net_to_csv {W} (l : nat) (path : string) :
  keeps_net (W := W) (to_csv l path).
Proof.
  intros s. unfold to_csv.
  destruct (pl_store s !! l); [|reflexivity].
  now destruct (pl_disk s) as [|[|] later].
Qed.

Lemma keeps_net_ret {W A} (a : A) : keeps_net (W := W) (ret a).
Proof. intros s. reflexivity. Qed.

Lemma load_api_key_run (W : Type) (s : pipeline W) :
  let found :=
    match pl_environ s !! "YOUTUBE_API_KEY" with
    | Some k => Some k
    | None => match pl_dotenv s with
              | Some file => file !! "YOUTUBE_API_KEY"
              | None => None
              end
    end in
  exists s',
    load_api_key s
    = (match found with
       | Some k => if PyStr.truthy found then Ret k else Raise ValueError
       | None => Raise ValueError
       end, s') /\
    pl_environ s' !! "YOUTUBE_API_KEY" = found /\
    (forall name v, pl_environ s !! name = Some v ->
                    pl_environ s' !! name = Some v) /\
    pl_net s' = pl_net s /\ pl_store s' = pl_store s /\
    pl_files s' = pl_files s.
Proof.
  intros found. unfold load_api_key, bind, load_dotenv, getenv.
  set (env := match pl_dotenv s with
              | Some file => pl_environ s ∪ file
              | None => pl_environ s
              end).
  assert (Hfound : env !! "YOUTUBE_API_KEY" = found).
  { subst env found. destruct (pl_dotenv s) as [file|].
    - rewrite lookup_union.
      destruct (pl_environ s !! "YOUTUBE_API_KEY"),
               (file !! "YOUTUBE_API_KEY"); reflexivity.
    - now destruct (pl_environ s !! "YOUTUBE_API_KEY"). }
  assert (Hkeep : forall name v, pl_environ s !! name = Some v ->
                                 env !! name = Some v).
  { intros name v Hv. subst env. destruct (pl_dotenv s) as [file|]; [|assumption].
    now apply lookup_union_Some_l. }
  cbn [pl_environ with_environ]. rewrite Hfound.
  exists (with_environ s env).
  split; [|repeat split; auto].
  destruct found as [k|]; [|reflexivity].
  now destruct (PyStr.truthy (Some k)).
Qed.

(** X11. The credential is the value of YOUTUBE_API_KEY in the environment when
    the variable is set there, and its value in the .env file otherwise; the
    call returns it when it is a non-empty string and raises ValueError in
    every other case (also when the environment sets the variable to the
    empty string, whatever the file says).  Nothing but the environment
    changes. *)
Theorem load_api_key_precedence (W : Type) (s : pipeline W) :
  let found :=
    match pl_environ s !! "YOUTUBE_API_KEY" with
    | Some k => Some k
    | None => match pl_dotenv s with
              | Some file => file !! "YOUTUBE_API_KEY"
              | None => None
              end
    end in
  exists s',
    load_api_key s
    = (match found with
       | Some k => if PyStr.truthy found then Ret k else Raise ValueError
       | None => Raise ValueError
       end, s') /\
    pl_environ s' !! "YOUTUBE_API_KEY" = found /\
    (forall name v, pl_environ s !! name = Some v ->
                    pl_environ s' !! name = Some v) /\
    pl_net s' = pl_net s /\ pl_store s' = pl_store s /\
    pl_files s' = pl_files s.
Proof. apply load_api_key_run. Qed.

(** X12. Without a usable credential main stops with ValueError before anything
    else happens: no request is issued, the API key stays as it was, no
    table is built and no file is written. *)
Theorem main_without_credential
    (W : Type) (search_endpoint : W -> search_params -> W * option search_response)
    (videos_endpoint : W -> videos_params -> W * option (list video_item))
    (py_int : string -> option Z) (O : PySetOrder)
    (published_after published_before : string) (fuel : nat)
    (s : pipeline W) :
  PyStr.truthy (pl_environ s !! "YOUTUBE_API_KEY") = false ->
  (pl_environ s !! "YOUTUBE_API_KEY" = None ->
   forall file, pl_dotenv s = Some file ->
                PyStr.truthy (file !! "YOUTUBE_API_KEY") = false) ->
  exists s',
    main search_endpoint videos_endpoint py_int O
      published_after published_before fuel s = (Raise ValueError, s') /\
    pl_net s' = pl_net s /\ pl_store s' = pl_store s /\
    pl_files s' = pl_files s.
Proof.
  intros Henv Hfile.
  destruct (load_api_key_run W s) as (s' & Hrun & _ & _ & Hn & Hs & Hf).
  cbv zeta in Hrun.
  assert (Hraise : load_api_key s = (Raise ValueError, s')).
  { rewrite Hrun. f_equal.
    destruct (pl_environ s !! "YOUTUBE_API_KEY") as [k|] eqn:E.
    - now rewrite Henv.
    - destruct (pl_dotenv s) as [file|]; [|reflexivity].
      specialize (Hfile eq_refl file eq_refl).
      destruct (file !! "YOUTUBE_API_KEY"); [now rewrite Hfile | reflexivity]. }
  exists s'. unfold main. rewrite (bind_raise _ _ _ _ _ Hraise). auto.
Qed.

Lemma main_without_credential_witness :
  exists s',
    main sample_search_endpoint sample_videos_endpoint (fun _ => Some 12%Z)
      insertion_order "2026-01-01T00:00:00+00:00" "2026-04-01T00:00:00+00:00"
      5 bare_pipeline = (Raise ValueError, s') /\
    pl_net s' = pl_net bare_pipeline /\ pl_store s' = pl_store bare_pipeline /\
    pl_files s' = pl_files bare_pipeline.
Proof.
  apply (main_without_credential nat sample_search_endpoint
           sample_videos_endpoint (fun _ => Some 12%Z) insertion_order
           "2026-01-01T00:00:00+00:00" "2026-04-01T00:00:00+00:00" 5
           bare_pipeline).
  - reflexivity.
  - intros _ file Hfile. discriminate Hfile.
Defined.


(** On the sample host with a disk that fails the second write, the run
    stops with OSError: the raw file is there, the other two are not. *)
Example full_disk_run_leaves_raw_file :
  let r := main sample_search_endpoint sample_videos_endpoint (fun _ => Some 12%Z)
             insertion_order "2026-01-01T00:00:00+00:00"
             "2026-04-01T00:00:00+00:00" 5 full_disk_pipeline in
  fst r = Raise OSError /\
  is_some (pl_files (snd r) !! raw_path) = true /\
  pl_files (snd r) !! with_genre_path = None /\
  pl_files (snd r) !! clean_path = None.
Proof. vm_compute. repeat split; reflexivity. Qed.

Lemma run_pipeline_events
    (W : Type) (search_endpoint : W -> search_params -> W * option search_response)
    (videos_endpoint : W -> videos_params -> W * option (list video_item))
    (py_int : string -> option Z) (O : PySetOrder)
    (published_after published_before : string) (fuel : nat)
    (s : pipeline W) (key : string) :
  net_api_key (pl_net s) = Some key ->
  exists out s' searches details ids rest,
    run_pipeline search_endpoint videos_endpoint py_int O
      published_after published_before fuel s = (out, s') /\
    net_api_key (pl_net s') = Some key /\
    net_log (pl_net s') = net_log (pl_net s) ++ searches ++ details /\
    Forall (pipeline_search_event key published_after published_before)
      searches /\
    Forall (event_bears_key key) details /\
    search_requests details = [] /\
    List.NoDup ids /\
    map (request_for key) (chunks_of ids) = videos_requests details ++ rest.
Proof.
  intros Hkey. unfold run_pipeline. unfold bind at 1.
  destruct (search_all_events W search_endpoint published_after published_before
              fuel QUERIES [] (pl_net s))
    as (out1 & n1 & issued & Hrun1 & Hkey1 & Hlog1 & Hall1).
  rewrite (lift_net_run W _ _ _ _ Hrun1). rewrite Hkey in Hkey1.
  assert (Hsearch : Forall (pipeline_search_event key published_after
                              published_before) issued).
  { eapply Forall_impl; [|exact Hall1]. intros [p| |]; auto.
    rewrite Hkey. intros (E & Hq & Hok). injection E as E.
    cbn [pipeline_search_event]. rewrite E. now split. }
  assert (Hnil : map (request_for key) (chunks_of []) = videos_requests [] ++ [])
    by reflexivity.
  destruct out1 as [all| e |].
  2:{ exists (Raise e), (with_net s n1), issued, [], [], [].
      rewrite app_nil_r. repeat split; auto; constructor. }
  2:{ exists NoResult, (with_net s n1), issued, [], [], [].
      rewrite app_nil_r. repeat split; auto; constructor. }
  destruct (dedup all) as [|v ids] eqn:Hids.
  { exists (Ret tt), (with_net s n1), issued, [], [], [].
    rewrite app_nil_r. repeat split; auto; constructor. }
  assert (Hnd : List.NoDup (v :: ids)) by (rewrite <- Hids; apply NoDup_dedup).
  unfold bind at 1.
  destruct (youtube_get_videos_stats_any W videos_endpoint py_int (v :: ids) n1)
    as (out2 & n2 & details & rest & Hrun2 & Hkey2 & Hlog2 & Hs2 & Hfacts & Hdf).
  rewrite (lift_net_run W _ (with_net s n1) _ _ Hrun2). rewrite Hkey1 in Hkey2.
  destruct (Hfacts key Hkey1) as [Hbears Hmap].
  assert (Hlog : net_log n2 = net_log (pl_net s) ++ issued ++ details)
    by (rewrite Hlog2, Hlog1; now rewrite <- app_assoc).
  destruct out2 as [df| e |].
  2:{ exists (Raise e), (with_net (with_net s n1) n2), issued, details,
        (v :: ids), rest. repeat split; auto. }
  2:{ exists NoResult, (with_net (with_net s n1) n2), issued, details,
        (v :: ids), rest. repeat split; auto. }
  match goal with
  | |- exists out s' _ _ _ _, ?c ?st = _ /\ _ =>
      assert (Hnet : pl_net (snd (c st)) = pl_net st);
      [| destruct (c st) as [out s'] eqn:Hrun ]
  end.
  { repeat first [ apply keeps_net_bind; [|intros ?]
                 | apply keeps_net_lift_store
                 | apply keeps_net_to_csv
                 | apply keeps_net_ret ]. }
  exists out, s', issued, details, (v :: ids), rest.
  split; [reflexivity|]. cbn [snd] in Hnet. rewrite Hnet.
  repeat split; auto.
Qed.

(** X14. Every request the pipeline issues bears the API key.  Its events are
    first those of the searches (sleeps and well-formed requests for one of
    the four queries, for up to 200 results each, in the 90-day window),
    then those of the detail fetch, whose requests are one per chunk of a
    duplicate-free list of identifiers: no video is asked for twice. *)
Theorem run_pipeline_requests
    (W : Type) (search_endpoint : W -> search_params -> W * option search_response)
    (videos_endpoint : W -> videos_params -> W * option (list video_item))
    (py_int : string -> option Z) (O : PySetOrder)
    (published_after published_before : string) (fuel : nat)
    (s : pipeline W) (key : string) :
  net_api_key (pl_net s) = Some key ->
  exists out s' searches details ids rest,
    run_pipeline search_endpoint videos_endpoint py_int O
      published_after published_before fuel s = (out, s') /\
    net_api_key (pl_net s') = Some key /\
    net_log (pl_net s') = net_log (pl_net s) ++ searches ++ details /\
    Forall (pipeline_search_event key published_after published_before)
      searches /\
    Forall (event_bears_key key) details /\
    search_requests details = [] /\
    List.NoDup ids /\
    map (request_for key) (chunks_of ids) = videos_requests details ++ rest.
Proof. apply run_pipeline_events. Qed.

Lemma run_pipeline_requests_witness :
  exists out s' searches details ids rest,
    run_pipeline sample_search_endpoint sample_videos_endpoint
      (fun _ => Some 12%Z) insertion_order
      "2026-01-01T00:00:00+00:00" "2026-04-01T00:00:00+00:00" 5
      (with_net sample_pipeline (sample_net 0)) = (out, s') /\
    net_api_key (pl_net s') = Some "key" /\
    net_log (pl_net s') = [] ++ searches ++ details /\
    Forall (pipeline_search_event "key" "2026-01-01T00:00:00+00:00"
              "2026-04-01T00:00:00+00:00") searches /\
    Forall (event_bears_key "key") details /\
    search_requests details = [] /\
    List.NoDup ids /\
    map (request_for "key") (chunks_of ids) = videos_requests details ++ rest.
Proof.
  apply (run_pipeline_requests nat sample_search_endpoint sample_videos_endpoint
           (fun _ => Some 12%Z) insertion_order
           "2026-01-01T00:00:00+00:00" "2026-04-01T00:00:00+00:00" 5
           (with_net sample_pipeline (sample_net 0)) "key").
  reflexivity.
Defined.

(** X15. From the credential to the wire: when a non-empty YOUTUBE_API_KEY is
    found (in the environment, or in the .env file when the environment does
    not set the variable), main makes it the API key and every request of
    the run, search or details, bears it. *)
Theorem main_requests_bear_credential
    (W : Type) (search_endpoint : W -> search_params -> W * option search_response)
    (videos_endpoint : W -> videos_params -> W * option (list video_item))
    (py_int : string -> option Z) (O : PySetOrder)
    (published_after published_before : string) (fuel : nat)
    (s : pipeline W) (k : string) :
  pl_environ s !! "YOUTUBE_API_KEY" = Some k \/
  (pl_environ s !! "YOUTUBE_API_KEY" = None /\
   exists file, pl_dotenv s = Some file /\ file !! "YOUTUBE_API_KEY" = Some k) ->
  k <> "" ->
  exists out s' issued,
    main search_endpoint videos_endpoint py_int O
      published_after published_before fuel s = (out, s') /\
    net_api_key (pl_net s') = Some k /\
    net_log (pl_net s') = net_log (pl_net s) ++ issued /\
    Forall (event_bears_key k) issued.
Proof.
  intros Hfound Hne.
  destruct (load_api_key_run W s) as (s1 & Hload & _ & _ & Hn & _ & _).
  cbv zeta in Hload.
  assert (Hret : load_api_key s = (Ret k, s1)).
  { rewrite Hload. f_equal.
    assert (Ht : PyStr.truthy (Some k) = true)
      by (destruct k; [now contradiction Hne | reflexivity]).
    destruct Hfound as [-> | [-> (file & -> & ->)]]; now rewrite Ht. }
  unfold main. rewrite (bind_ret _ _ _ _ _ Hret).
  unfold bind at 1, set_api_key.
  set (s2 := with_net s1 _).
  destruct (run_pipeline_events W search_endpoint videos_endpoint py_int O
              published_after published_before fuel s2 k eq_refl)
    as (out & s' & searches & details & ids & rest
        & Hrun & Hkey & Hlog & Hs & Hd & _).
  exists out, s', (searches ++ details).
  split; [exact Hrun|]. split; [exact Hkey|]. split.
  - rewrite Hlog. subst s2. cbn [pl_net with_net net_log]. now rewrite Hn.
  - apply Forall_app. split; [|exact Hd].
    eapply Forall_impl; [|exact Hs]. intros [p| |]; cbn.
    + now intros [_ [Hk _]].
    + intros [].
    + auto.
Qed.

Lemma main_requests_bear_credential_witness :
  exists out s' issued,
    main sample_search_endpoint sample_videos_endpoint (fun _ => Some 12%Z)
      insertion_order "2026-01-01T00:00:00+00:00" "2026-04-01T00:00:00+00:00"
      5 sample_pipeline = (out, s') /\
    net_api_key (pl_net s') = Some "key" /\
    net_log (pl_net s') = net_log (pl_net sample_pipeline) ++ issued /\
    Forall (event_bears_key "key") issued.
Proof.
  apply (main_requests_bear_credential nat sample_search_endpoint
           sample_videos_endpoint (fun _ => Some 12%Z) insertion_order
           "2026-01-01T00:00:00+00:00" "2026-04-01T00:00:00+00:00" 5
           sample_pipeline "key").
  - left. reflexivity.
  - discriminate.
Defined.

(** On the sample host the run goes through: the credential of the
    environment is used, and the three files are written. *)
Example sample_run_writes_three_files :
  let r := main sample_search_endpoint sample_videos_endpoint (fun _ => Some 12%Z)
             insertion_order "2026-01-01T00:00:00+00:00"
             "2026-04-01T00:00:00+00:00" 5 sample_pipeline in
  fst r = Ret tt /\
  net_api_key (pl_net (snd r)) = Some "key" /\
  is_some (pl_files (snd r) !! raw_path) = true /\
  is_some (pl_files (snd r) !! with_genre_path) = true /\
  pl_files (snd r) !! clean_path = Some (DfModel []).
Proof. vm_compute. repeat split; reflexivity. Qed.
